(** * The Polygon crypto-historical fetcher of the OpenBB platform

    A shallow embedding of

    - [openbb_polygon/models/crypto_historical.py]: the query model
      [PolygonCryptoHistoricalQueryParams], the data model
      [PolygonCryptoHistoricalData] and the three stages of
      [PolygonCryptoHistoricalFetcher] ([transform_query],
      [aextract_data] with its [callback], [transform_data]);
    - [openbb_core/provider/standard_models/equity_historical.py]: the
      standard model with its two validators [upper_symbol] and
      [date_validate].

    Python objects are modelled as they are used by that code: text as
    [string] (ASCII), integers as [Z], dictionaries as [gmap string value],
    the dictionary handed to [transform_query] as a cell of a store (the
    function writes through an alias of its argument), exceptions as the
    [Err] side of a result, the HTTP session as a state that is threaded
    through the requests. *)

From Stdlib Require Import ZArith Ascii DecimalString DecimalN DecimalPos PrimFloat.
From stdpp Require Import gmap strings list fin_maps.

Local Open Scope Z_scope.

(** ** Text *)

Module Str.

(** [str.upper] on ASCII text: the letters a-z move to A-Z, every other
    character stays. *)
Definition upper_char (c : ascii) : ascii :=
  let n := nat_of_ascii c in
  if ((97 <=? n) && (n <=? 122))%nat then ascii_of_nat (n - 32) else c.

Fixpoint upper (s : string) : string :=
  match s with
  | EmptyString => EmptyString
  | String c r => String (upper_char c) (upper r)
  end.

Definition is_upper_char (c : ascii) : bool :=
  let n := nat_of_ascii c in negb ((97 <=? n) && (n <=? 122))%nat.

(** [c in s] for a one-character needle. *)
Fixpoint contains (c : ascii) (s : string) : bool :=
  match s with
  | EmptyString => false
  | String a r => if Ascii.eqb a c then true else contains c r
  end.

Fixpoint forallb (p : ascii -> bool) (s : string) : bool :=
  match s with
  | EmptyString => true
  | String a r => p a && forallb p r
  end.

(** [s.replace(old, new)] for a non-empty [old]: occurrences are found
    from the left and do not overlap.  [skip] counts the characters of
    the occurrence being replaced that are still to be dropped. *)
Fixpoint replace_go (old new : string) (skip : nat) (s : string) : string :=
  match s with
  | EmptyString => EmptyString
  | String c r =>
      match skip with
      | S k => replace_go old new k r
      | O =>
          if String.prefix old s
          then new +:+ replace_go old new (String.length old - 1) r
          else String c (replace_go old new 0 r)
      end
  end.

Definition replace (old new s : string) : string := replace_go old new 0 s.

(** [s.split(sep)] for a one-character separator: never the empty list,
    the empty text splits into one empty piece. *)
Fixpoint split (sep : ascii) (s : string) : list string :=
  match s with
  | EmptyString => [EmptyString]
  | String c r =>
      if Ascii.eqb c sep then EmptyString :: split sep r
      else match split sep r with
           | h :: t => String c h :: t
           | [] => [String c EmptyString]
           end
  end.

(** [s[:-1]] and [s[-1]]: the slice is total (the empty text gives the
    empty text), the index raises IndexError on the empty text. *)
Fixpoint drop_last (s : string) : string :=
  match s with
  | EmptyString => EmptyString
  | String c EmptyString => EmptyString
  | String c r => String c (drop_last r)
  end.

Fixpoint last (s : string) : option ascii :=
  match s with
  | EmptyString => None
  | String c EmptyString => Some c
  | String c r => last r
  end.

(** White space as [int] sees it in ASCII text: tab, line feed, vertical
    tab, form feed, carriage return and space.  (The separators 28 to 31,
    which [str.strip] takes away, are no white space for [int]: a
    literal that holds one is refused.) *)
Definition is_space (c : ascii) : bool :=
  let n := nat_of_ascii c in
  (((9 <=? n) && (n <=? 13)) || (n =? 32))%nat.

Fixpoint lstrip (s : string) : string :=
  match s with
  | EmptyString => EmptyString
  | String c r => if is_space c then lstrip r else s
  end.

Fixpoint rstrip (s : string) : string :=
  match s with
  | EmptyString => EmptyString
  | String c r =>
      match rstrip r with
      | EmptyString => if is_space c then EmptyString else String c EmptyString
      | r' => String c r'
      end
  end.

Definition strip (s : string) : string := rstrip (lstrip s).

Definition digit (c : ascii) : option Z := Z.of_nat <$> Ascii.is_nat c.

Definition is_digit (c : ascii) : bool := bool_decide (is_Some (digit c)).

(** [str(n)] for an integer: decimal digits, a minus sign when negative. *)
Definition of_N (n : N) : string := NilEmpty.string_of_uint (N.to_uint n).

Definition of_Z (z : Z) : string :=
  match z with
  | Z0 => "0"
  | Zpos p => of_N (Npos p)
  | Zneg p => "-" +:+ of_N (Npos p)
  end.

(** Zero-padded decimal of a fixed width, as [%02d] and [%04d] print a
    number that fits. *)
Definition pad (width : nat) (s : string) : string :=
  Nat.iter (width - String.length s) (String "0") s.

Definition of_Z_pad (width : nat) (z : Z) : string := pad width (of_Z z).

End Str.

(** ** [int(text)]

    The built-in conversion in base ten: white space around the literal is
    dropped, one sign may lead, then come decimal digits, where single
    underscores may stand between two digits.  Anything else is a
    ValueError.  CPython also refuses a literal of more than
    [int_max_str_digits] digits. *)

Definition int_max_str_digits : nat := 4300.

Fixpoint int_digits (after_digit : bool) (acc : Z) (count : nat) (s : string)
  : option (Z * nat) :=
  match s with
  | EmptyString => if after_digit then Some (acc, count) else None
  | String c r =>
      if Ascii.eqb c "_"
      then (if after_digit then int_digits false acc count r else None)
      else match Str.digit c with
           | Some d => int_digits true (10 * acc + d) (S count) r
           | None => None
           end
  end.

Definition int_unsigned (s : string) : option Z :=
  match int_digits false 0 0 s with
  | Some (v, count) => if (count <=? int_max_str_digits)%nat then Some v else None
  | None => None
  end.

Definition python_int (s : string) : option Z :=
  match Str.strip s with
  | String "+" r => int_unsigned r
  | String "-" r => Z.opp <$> int_unsigned r
  | r => int_unsigned r
  end.


(** ** Calendar dates and date-times *)

Record date := Date { year : Z; month : Z; day : Z }.

Definition is_leap (y : Z) : bool :=
  (y mod 4 =? 0) && (negb (y mod 100 =? 0) || (y mod 400 =? 0)).

Definition days_in_month (y m : Z) : Z :=
  if m =? 2 then (if is_leap y then 29 else 28)
  else if (m =? 4) || (m =? 6) || (m =? 9) || (m =? 11) then 30
  else 31.

(** [datetime.date] holds years 1 to 9999. *)
Definition MINYEAR : Z := 1.
Definition MAXYEAR : Z := 9999.

Definition valid_date (d : date) : bool :=
  (MINYEAR <=? year d) && (year d <=? MAXYEAR) &&
  (1 <=? month d) && (month d <=? 12) &&
  (1 <=? day d) && (day d <=? days_in_month (year d) (month d)).


(** [tz] is the offset from UTC in minutes, [None] for a naive value. *)
Record datetime := DateTime {
  dt_date : date;
  hour : Z;
  minute : Z;
  second : Z;
  microsecond : Z;
  tz : option Z
}.

(** [dt.date()] *)
Definition date_of (dt : datetime) : date := dt_date dt.

(** The civil date of a day count from 1970-01-01, in the proleptic
    Gregorian calendar (the calendar of [datetime]). *)
Definition civil_from_days (days : Z) : date :=
  let z := days + 719468 in
  let era := z / 146097 in
  let doe := z - era * 146097 in
  let yoe := (doe - doe / 1460 + doe / 36524 - doe / 146096) / 365 in
  let doy := doe - (365 * yoe + yoe / 4 - yoe / 100) in
  let mp := (5 * doy + 2) / 153 in
  let d := doy - (153 * mp + 2) / 5 + 1 in
  let m := if mp <? 10 then mp + 3 else mp - 9 in
  let y := yoe + era * 400 + (if m <=? 2 then 1 else 0) in
  Date y m d.

(** [str(d)], that is [d.isoformat()]. *)
Definition str_date (d : date) : string :=
  Str.of_Z_pad 4 (year d) +:+ "-" +:+ Str.of_Z_pad 2 (month d) +:+ "-" +:+
  Str.of_Z_pad 2 (day d).

(** The [%z] directive: empty for a naive value, else sign, hours and
    minutes of the offset. *)
Definition str_offset (o : option Z) : string :=
  match o with
  | None => ""
  | Some m =>
      (if m <? 0 then "-" else "+") +:+
      Str.of_Z_pad 2 (Z.abs m / 60) +:+ Str.of_Z_pad 2 (Z.abs m mod 60)
  end.

(** [dt.strftime("%Y-%m-%dT%H:%M:%S%z")].  (For a year below 1000 the C
    library decides whether [%Y] is padded; it is padded here.) *)
Definition strftime (dt : datetime) : string :=
  str_date (dt_date dt) +:+ "T" +:+
  Str.of_Z_pad 2 (hour dt) +:+ ":" +:+ Str.of_Z_pad 2 (minute dt) +:+ ":" +:+
  Str.of_Z_pad 2 (second dt) +:+ str_offset (tz dt).

(** ** Exceptions and results *)

Inductive exn :=
  | ValidationError   (* pydantic: a field or a validator rejected the input *)
  | ValueError
  | KeyError
  | IndexError
  | AttributeError
  | TypeError
  | EmptyDataError    (* openbb_core.provider.utils.errors *)
  | ConnectionError.  (* the transport has no response to give *)

Inductive result (A : Type) :=
  | Ok (a : A)
  | Err (e : exn).
Arguments Ok {A} a.
Arguments Err {A} e.

Global Instance result_ret : MRet result := fun _ a => Ok a.
Global Instance result_bind : MBind result := fun _ _ k r =>
  match r with
  | Ok a => k a
  | Err e => Err e
  end.

Global Instance result_fmap : FMap result := fun _ _ f r =>
  match r with
  | Ok a => Ok (f a)
  | Err e => Err e
  end.

Definition is_ok {A} (r : result A) : bool :=
  match r with Ok _ => true | Err _ => false end.

(** A computation that reads and writes a state [S] and may raise: the
    state reached is returned with the exception too (what was written
    before the exception stays written). *)
Definition M (S A : Type) : Type := S -> result A * S.

Global Instance M_ret {S} : MRet (M S) := fun _ a s => (Ok a, s).
Global Instance M_bind {S} : MBind (M S) := fun _ _ k c s =>
  match c s with
  | (Ok a, s') => k a s'
  | (Err e, s') => (Err e, s')
  end.

Definition raise {S A} (e : exn) : M S A := fun s => (Err e, s).
Definition lift {S A} (r : result A) : M S A := fun s => (r, s).
Definition gets {S A} (f : S -> A) : M S A := fun s => (Ok (f s), s).
Definition modify {S} (f : S -> S) : M S unit := fun s => (Ok tt, f s).

(** [[f(x) for x in xs]] where [f] may raise: the first exception ends the
    comprehension. *)
Fixpoint traverse {A B} (f : A -> result B) (xs : list A) : result (list B) :=
  match xs with
  | [] => Ok []
  | x :: r =>
      match f x with
      | Err e => Err e
      | Ok y => match traverse f r with
                | Err e => Err e
                | Ok ys => Ok (y :: ys)
                end
      end
  end.

(** [datetime.fromtimestamp(ms / 1000, tz=timezone("UTC"))] for an integer
    count of milliseconds.  The quotient is a float in the source; the
    calendar date and the time of day to the second depend on its integer
    part only, which the float carries exactly for every instant that
    [datetime] can hold (the sub-second field is the millisecond remainder;
    no use below reads it).  An instant outside of the years 1 to 9999
    raises. *)
Definition fromtimestamp_utc (ms : Z) : result datetime :=
  let secs := ms / 1000 in
  let days := secs / 86400 in
  let rem := secs mod 86400 in
  let d := civil_from_days days in
  if (MINYEAR <=? year d) && (year d <=? MAXYEAR)
  then Ok (DateTime d (rem / 3600) (rem mod 3600 / 60) (rem mod 60)
             (ms mod 1000 * 1000) (Some 0))
  else Err ValueError.

(** [d - relativedelta(years=1)]: the same month and day one year earlier,
    the day clipped to the length of that month (29 February gives 28
    February); there is no year before [MINYEAR]. *)
Definition minus_one_year (d : date) : result date :=
  let y := year d - 1 in
  let dd := Z.min (days_in_month y (month d)) (day d) in
  if MINYEAR <=? y then Ok (Date y (month d) dd) else Err ValueError.


(** ** Python values and dictionaries *)

Inductive value :=
  | VNone
  | VInt (n : Z)
  | VFloat (f : PrimFloat.float)
  | VStr (s : string)
  | VDate (d : date).

Abbreviation dict := (gmap string value).

(** Truth value of an object, as [if x:] tests it. *)
Definition truthy (v : value) : bool :=
  match v with
  | VNone => false
  | VInt n => negb (n =? 0)
  | VFloat f => negb (PrimFloat.eqb f 0%float)
  | VStr s => negb (String.eqb s "")
  | VDate _ => true
  end.

(** [d.get(k)]: the entry, [None] when the key is absent. *)
Definition dict_get (d : dict) (k : string) : value := default VNone (d !! k).

Definition is_None (v : value) : bool :=
  match v with VNone => true | _ => false end.

(** What the code takes from its libraries without this development
    looking inside: pydantic's conversions of a value whose type is not the
    field's (lax mode), the ISO-8601 parser of dateutil, and the two
    operations on floats that a raw row may ask for. *)
Record library := Library {
  lax_int : value -> option Z;
  lax_float : value -> option PrimFloat.float;
  lax_date : value -> option date;
  isoparse : string -> option datetime;
  str_float : PrimFloat.float -> string;
  fromtimestamp_float : PrimFloat.float -> result datetime
}.

(** [str(v)] *)
Definition str (lib : library) (v : value) : string :=
  match v with
  | VNone => "None"
  | VInt n => Str.of_Z n
  | VFloat f => str_float lib f
  | VStr s => s
  | VDate d => str_date d
  end.

(** ** The query model *)

Module EquityHistoricalQueryParams.

(** The [before] validator of the field [symbol]: [v.upper()].  Only
    text has that method. *)
Definition upper_symbol (v : value) : result string :=
  match v with
  | VStr s => Ok (Str.upper s)
  | _ => Err AttributeError
  end.

End EquityHistoricalQueryParams.

Module PolygonCryptoHistoricalQueryParams.

(** [_multiplier] and [_timespan] are private attributes: pydantic does
    not validate them, they are [None] until the model validator has
    run. *)
Record t := Make {
  symbol : string;
  start_date : option date;
  end_date : option date;
  interval : string;
  sort : string;
  limit : Z;
  _multiplier : option Z;
  _timespan : option string
}.

Definition intervals (unit : ascii) : option string :=
  match unit with
  | "s"%char => Some "second"
  | "m"%char => Some "minute"
  | "h"%char => Some "hour"
  | "d"%char => Some "day"
  | "W"%char => Some "week"
  | "M"%char => Some "month"
  | "Q"%char => Some "quarter"
  | "Y"%char => Some "year"
  | _ => None
  end.

(** The model validator (mode [after]).  A ValueError raised inside a
    validator reaches the caller as pydantic's ValidationError; a
    KeyError or an IndexError passes through unchanged. *)
Definition get_api_interval_params (values : t) : result t :=
  match python_int (Str.drop_last (interval values)) with
  | None => Err ValidationError
  | Some m =>
      match Str.last (interval values) with
      | None => Err IndexError
      | Some unit =>
          match intervals unit with
          | None => Err KeyError
          | Some name =>
              Ok (Make (symbol values) (start_date values) (end_date values)
                    (interval values) (sort values) (limit values)
                    (Some m) (Some name))
          end
      end
  end.

Section Fields.
Context (lib : library).

(** Modelled from the spec: the base class [CryptoHistoricalQueryParams]
    is not among the sources.  The canonical query of the spec (a symbol
    put in upper case, an optional start and an optional end date) is taken
    as the standard model of equity_historical.py implements it: a required
    [symbol: str] with the validator [upper_symbol], and two fields
    [Optional[date]].  The spec also states, for the canonical query, a
    symbol that is not empty and a start that is not after the end.  The
    sources hold neither check ([transform_query] and the sibling model
    have none), and whether the base class makes them cannot be read from
    them: they are not made here.  [OverBase] below is the same code with
    the checks of the base class as a parameter. *)
Definition field_symbol (arg : option value) : result string :=
  match arg with
  | None => Err ValidationError
  | Some v => EquityHistoricalQueryParams.upper_symbol v
  end.

Definition field_date (arg : option value) : result (option date) :=
  match arg with
  | None | Some VNone => Ok None
  | Some (VDate d) => Ok (Some d)
  | Some v => match lax_date lib v with
              | Some d => Ok (Some d)
              | None => Err ValidationError
              end
  end.

(** [interval: str = Field(default="1d")] *)
Definition field_interval (arg : option value) : result string :=
  match arg with
  | None => Ok "1d"
  | Some (VStr s) => Ok s
  | Some _ => Err ValidationError
  end.

(** [sort: Literal["asc", "desc"] = Field(default="desc")] *)
Definition field_sort (arg : option value) : result string :=
  match arg with
  | None => Ok "desc"
  | Some (VStr s) =>
      if String.eqb s "asc" || String.eqb s "desc" then Ok s
      else Err ValidationError
  | Some _ => Err ValidationError
  end.

(** [limit: PositiveInt = Field(default=49999)] *)
Definition positive_int (n : Z) : result Z :=
  if 0 <? n then Ok n else Err ValidationError.

Definition field_limit (arg : option value) : result Z :=
  match arg with
  | None => Ok 49999
  | Some (VInt n) => positive_int n
  | Some v => match lax_int lib v with
              | Some n => positive_int n
              | None => Err ValidationError
              end
  end.

(** The constructor, called with the entries of [kwargs] as keyword
    arguments.  pydantic validates
    the fields in the order of their declaration and gathers their
    errors into one ValidationError; an exception of another class
    leaves at once (only [upper_symbol], on the first field, has one).
    The model validator runs when every field is valid. *)
Definition new (kwargs : dict) : result t :=
  match field_symbol (kwargs !! "symbol") with
  | Err AttributeError => Err AttributeError
  | sym =>
      match sym,
            field_date (kwargs !! "start_date"),
            field_date (kwargs !! "end_date"),
            field_interval (kwargs !! "interval"),
            field_sort (kwargs !! "sort"),
            field_limit (kwargs !! "limit") with
      | Ok s, Ok sd, Ok ed, Ok i, Ok so, Ok l =>
          get_api_interval_params (Make s sd ed i so l None None)
      | _, _, _, _, _, _ => Err ValidationError
      end
  end.

End Fields.

End PolygonCryptoHistoricalQueryParams.

(** ** The store of dictionaries

    [transform_query] receives a reference to a dictionary of its caller.
    A reference is a location of the store; two names bound to one location
    are aliases. *)

Definition loc := positive.
Abbreviation heap := (gmap loc dict).

Definition deref (h : heap) (r : loc) : dict := default ∅ (h !! r).

(** [r.get(k)] *)
Definition get (r : loc) (k : string) : M heap value :=
  gets (fun h => dict_get (deref h r) k).

(** [r[k] = v] *)
Definition setitem (r : loc) (k : string) (v : value) : M heap unit :=
  modify (fun h => <[r := <[k := v]> (deref h r)]> h).

(** [v.replace(old, new)] with two texts as arguments: a method of text;
    a date has a [replace] of its own that refuses text arguments, numbers
    and [None] have none. *)
Definition method_replace (v : value) (old new : string) : result value :=
  match v with
  | VStr s => Ok (VStr (Str.replace old new s))
  | VDate _ => Err TypeError
  | _ => Err AttributeError
  end.

(** ** The data model *)

Inductive date_value :=
  | DateOnly (d : date)
  | DateAndTime (dt : datetime).

Module EquityHistoricalData.

(** The [before] validator of the field [date]: the value is printed,
    parsed as ISO-8601 and reduced to its date when hour and minute are
    both zero.  A text that does not parse is a ValueError, which
    pydantic reports as a ValidationError. *)
Definition date_validate (lib : library) (v : value) : result date_value :=
  match isoparse lib (str lib v) with
  | None => Err ValidationError
  | Some v =>
      if (hour v =? 0) && (minute v =? 0) then Ok (DateOnly (date_of v))
      else Ok (DateAndTime v)
  end.

End EquityHistoricalData.

Inductive number :=
  | NInt (n : Z)
  | NFloat (f : PrimFloat.float).

Module PolygonCryptoHistoricalData.

Record t := Make {
  date : date_value;
  open : PrimFloat.float;
  high : PrimFloat.float;
  low : PrimFloat.float;
  close : PrimFloat.float;
  volume : option number;
  vwap : option PrimFloat.float;
  transactions : option Z;
  extra : dict
}.

(** [__alias_dict__], and the alias of [transactions]: canonical name,
    key of the raw row. *)
Definition __alias_dict__ : list (string * string) :=
  [("date", "t"); ("open", "o"); ("high", "h"); ("low", "l");
   ("close", "c"); ("volume", "v"); ("vwap", "vw")].

Definition aliases : list (string * string) :=
  __alias_dict__ ++ [("transactions", "n")].

Section Fields.
Context (lib : library).

(** Modelled from the spec: the base classes [CryptoHistoricalData] and
    [Data] are not among the sources.  The canonical record of the spec is
    taken as the standard model of equity_historical.py implements it
    ([date] with the validator [date_validate], four required prices,
    optional [volume] and [vwap], without a check of sign); the
    declarative alias map is applied by reading a field under its alias,
    or else under its own name; keys that name no field are kept aside. *)
Definition field (row : dict) (name : string) : option value :=
  match (list_to_map aliases : gmap string string) !! name with
  | Some key =>
      match row !! key with
      | Some v => Some v
      | None => row !! name
      end
  | None => row !! name
  end.

Definition known_keys : list string :=
  (aliases.*1) ++ (aliases.*2).

Definition extras (row : dict) : dict :=
  foldr (fun k acc => delete k acc) row known_keys.

Definition field_date (arg : option value) : result date_value :=
  match arg with
  | None => Err ValidationError
  | Some v => EquityHistoricalData.date_validate lib v
  end.

Definition to_float (v : value) : result PrimFloat.float :=
  match v with
  | VFloat f => Ok f
  | _ => match lax_float lib v with
         | Some f => Ok f
         | None => Err ValidationError
         end
  end.

Definition field_float (arg : option value) : result PrimFloat.float :=
  match arg with
  | None => Err ValidationError
  | Some v => to_float v
  end.

Definition field_opt_float (arg : option value) : result (option PrimFloat.float) :=
  match arg with
  | None | Some VNone => Ok None
  | Some v => Some <$> to_float v
  end.

(** [Optional[Union[float, int]]]: a float stays a float and an integer
    an integer; another value is converted if it can be. *)
Definition field_volume (arg : option value) : result (option number) :=
  match arg with
  | None | Some VNone => Ok None
  | Some (VFloat f) => Ok (Some (NFloat f))
  | Some (VInt n) => Ok (Some (NInt n))
  | Some v =>
      match lax_float lib v, lax_int lib v with
      | Some f, _ => Ok (Some (NFloat f))
      | None, Some n => Ok (Some (NInt n))
      | None, None => Err ValidationError
      end
  end.

(** [transactions: Optional[PositiveInt]] *)
Definition field_transactions (arg : option value) : result (option Z) :=
  match arg with
  | None | Some VNone => Ok None
  | Some (VInt n) => if 0 <? n then Ok (Some n) else Err ValidationError
  | Some v =>
      match lax_int lib v with
      | Some n => if 0 <? n then Ok (Some n) else Err ValidationError
      | None => Err ValidationError
      end
  end.

(** [PolygonCryptoHistoricalData.model_validate(d)] *)
Definition model_validate (d : dict) : result t :=
  match field_date (field d "date"),
        field_float (field d "open"),
        field_float (field d "high"),
        field_float (field d "low"),
        field_float (field d "close"),
        field_volume (field d "volume"),
        field_opt_float (field d "vwap"),
        field_transactions (field d "transactions") with
  | Ok dt, Ok o, Ok h, Ok l, Ok c, Ok v, Ok vw, Ok n =>
      Ok (Make dt o h l c v vw n (extras d))
  | _, _, _, _, _, _, _, _ => Err ValidationError
  end.

End Fields.

End PolygonCryptoHistoricalData.

(** ** The HTTP session

    The vendor is a script: the decoded bodies it will answer with, in the
    order of the requests.  The session records the addresses requested and
    the warnings raised. *)

Record body := Body {
  next_url : option string;   (* [data.get("next_url", None)] *)
  results : list dict         (* [data.get("results", [])] *)
}.

Record session := Session {
  pending : list body;
  requested : list string;
  warned : list string
}.

Record response := Response {
  url : string;
  json : body
}.

(** One GET: the address is recorded and the next body of the script is
    the answer; with none left the request fails. *)
Definition http_get (address : string) : M session body :=
  fun s =>
    match pending s with
    | [] => (Err ConnectionError, Session [] (requested s ++ [address]) (warned s))
    | b :: rest => (Ok b, Session rest (requested s ++ [address]) (warned s))
    end.

Definition _warn (message : string) : M session unit :=
  modify (fun s => Session (pending s) (requested s) (warned s ++ [message])).

(** [response.url.parts]: ["/"] and then the segments of the path, for an
    address [scheme://host/segment/...?query].  The parser of addresses
    first drops every tab, line feed and carriage return of the text. *)
Definition is_unsafe (c : ascii) : bool :=
  Ascii.eqb c "009" || Ascii.eqb c "010" || Ascii.eqb c "013".

Fixpoint remove_unsafe (s : string) : string :=
  match s with
  | EmptyString => EmptyString
  | String c r => if is_unsafe c then remove_unsafe r else String c (remove_unsafe r)
  end.

Definition url_path (address : string) : string :=
  hd "" (Str.split "#" (hd "" (Str.split "?" (remove_unsafe address)))).

Definition url_parts (address : string) : list string :=
  match Str.split "/" (url_path address) with
  | _scheme :: _empty :: _host :: segments => "/" :: segments
  | _ => []
  end.

(** Modelled from the spec: [amake_request] and [amake_requests] (the HTTP
    transport collaborator) are not among the sources.  Given the addresses
    and a callback, the transport performs the request of each address and
    calls the callback with the response and the session; the rows of all
    tasks are gathered.  A task that raises contributes no rows, a warning
    is emitted (its text is not specified) and the other tasks go on.  The
    tasks run here one after the other, in the order of the addresses. *)
Definition amake_request (address : string)
    (callback : response -> M session (list dict)) : M session (list dict) :=
  data ← http_get address;
  callback (Response address data).

Fixpoint amake_requests (urls : list string)
    (callback : response -> M session (list dict)) : M session (list dict) :=
  match urls with
  | [] => mret []
  | u :: rest =>
      fun s =>
        let '(r, s1) := amake_request u callback s in
        let '(rows, s2) :=
          match r with
          | Ok rows => (rows, s1)
          | Err _ => ([], snd (_warn ("Request failed: " +:+ u) s1))
          end in
        let '(r', s3) := amake_requests rest callback s2 in
        (app rows <$> r', s3)
  end.

(** ** The fetcher *)

Module PolygonCryptoHistoricalFetcher.

Module Q := PolygonCryptoHistoricalQueryParams.
Module D := PolygonCryptoHistoricalData.

Section Fetcher.
Context (lib : library).

(** [now] is [datetime.now().date()].  [transformed_params] is a
    second name of the caller's dictionary, not a copy: the three
    assignments write into the object that [params] refers to. *)
Definition transform_query (now : date) (params : loc) : M heap Q.t :=
  let transformed_params := params in
  start ← get params "start_date";
  _ ← (if is_None start
       then d ← lift (minus_one_year now);
            setitem transformed_params "start_date" (VDate d)
       else mret tt);
  stop ← get params "end_date";
  _ ← (if is_None stop
       then setitem transformed_params "end_date" (VDate now)
       else mret tt);
  sym ← get params "symbol";
  _ ← (if truthy sym
       then v ← lift (method_replace sym "-" "");
            setitem transformed_params "symbol" v
       else mret tt);
  kwargs ← gets (fun h => deref h transformed_params);
  lift (Q.new lib kwargs).

(** How an f-string prints an optional value. *)
Definition format {A} (show : A -> string) (o : option A) : string :=
  match o with
  | Some a => show a
  | None => "None"
  end.

(** [credentials.get("polygon_api_key") if credentials else ""]: an
    absent or empty mapping gives the empty text, a mapping without the
    key gives [None]. *)
Definition get_api_key (credentials : option (gmap string string))
  : option string :=
  match credentials with
  | Some c => if bool_decide (c = ∅) then Some "" else c !! "polygon_api_key"
  | None => Some ""
  end.

Definition request_url (query : Q.t) (api_key : option string)
    (symbol : string) : string :=
  "https://api.polygon.io/v2/aggs/ticker/" +:+
  "X:" +:+ Str.upper symbol +:+ "/range/" +:+
  format Str.of_Z (Q._multiplier query) +:+ "/" +:+
  format id (Q._timespan query) +:+ "/" +:+
  format str_date (Q.start_date query) +:+ "/" +:+
  format str_date (Q.end_date query) +:+ "?" +:+
  "&sort=" +:+ Q.sort query +:+ "&limit=" +:+ Str.of_Z (Q.limit query) +:+
  "&apiKey=" +:+ format id api_key.

(** The loop [while next_url:].  It has no bound of its own; over a
    script it makes at most one turn for each body left, and [turns]
    is that number when the loop is entered. *)
Fixpoint while_next_url (turns : nat) (api_key : option string)
    (next : option string) (rows : list dict) : M session (list dict) :=
  match next with
  | None => mret rows
  | Some u =>
      if String.eqb u "" then mret rows
      else
        data ← http_get (u +:+ "&apiKey=" +:+ format id api_key);
        match turns with
        | O => raise ConnectionError
        | S n => while_next_url n api_key (next_url data) (rows ++ results data)
        end
  end.

Definition intraday (timespan : option string) : bool :=
  match timespan with
  | Some t => String.eqb t "second" || String.eqb t "minute" || String.eqb t "hour"
  | None => false
  end.

(** [datetime.fromtimestamp(r["t"] / 1000, tz=timezone("UTC"))] *)
Definition timestamp (r : dict) : result datetime :=
  match r !! "t" with
  | None => Err KeyError
  | Some (VInt ms) => fromtimestamp_utc ms
  | Some (VFloat ms) => fromtimestamp_float lib ms
  | Some _ => Err TypeError
  end.

(** The body of [for r in results:]. *)
Definition stamp (query : Q.t) (symbol : string) (r : dict) : result dict :=
  t ← timestamp r;
  let r1 :=
    if negb (intraday (Q._timespan query))
    then <["t" := VDate (date_of t)]> r
    else <["t" := VStr (strftime t)]> r in
  mret (if Str.contains "," (Q.symbol query)
        then <["symbol" := VStr (Str.replace "X:" "" symbol)]> r1
        else r1).

Definition callback (query : Q.t) (api_key : option string)
    (response : response) : M session (list dict) :=
  let data := json response in
  symbol ← lift (match url_parts (url response) !! 4%nat with
                 | Some part => Ok part
                 | None => Err IndexError
                 end);
  turns ← gets (fun s => length (pending s));
  rows ← while_next_url turns api_key (next_url data) (results data);
  rows ← lift (traverse (stamp query symbol) rows);
  _ ← (match rows with
       | [] => _warn ("Symbol Error: No data found for " +:+
                      Str.replace "X:" "" symbol)
       | _ => mret tt
       end);
  mret rows.

Definition aextract_data (query : Q.t)
    (credentials : option (gmap string string)) : M session (list dict) :=
  let api_key := get_api_key credentials in
  let urls := request_url query api_key <$> Str.split "," (Q.symbol query) in
  amake_requests urls (callback query api_key).

Definition transform_data (query : Q.t) (data : list dict)
  : result (list D.t) :=
  match data with
  | [] => Err EmptyDataError
  | _ => traverse (D.model_validate lib) data
  end.

(** Modelled from the spec: [Fetcher.fetch_data] is not among the
    sources.  The three stages are composed in a fixed order, once for
    each request; an exception of a stage ends the pipeline. *)
Definition fetch_data (now : date) (params : loc)
    (credentials : option (gmap string string))
    (h : heap) (s : session) : result (list D.t) * heap * session :=
  match transform_query now params h with
  | (Err e, h') => (Err e, h', s)
  | (Ok query, h') =>
      match aextract_data query credentials s with
      | (Err e, s') => (Err e, h', s')
      | (Ok data, s') => (transform_data query data, h', s')
      end
  end.

End Fetcher.

End PolygonCryptoHistoricalFetcher.

(** ** The query model over its base class

    The same constructor and the same [transform_query], with what the
    base class may check as a parameter. *)

Module OverBase.

(** Modelled from the spec: the base class [CryptoHistoricalQueryParams] is
    not among the sources.  Beyond the declaration of its three fields it
    may test the validated symbol, and the two validated dates together;
    both tests are parameters here, and a query that fails one of them is
    refused with pydantic's ValidationError, as a failed field is. *)
Record base_model := BaseModel {
  check_symbol : string -> bool;
  check_dates : option date -> option date -> bool
}.

(** The base class as the sibling standard model of equity_historical.py
    is declared: no test. *)
Definition standard : base_model :=
  BaseModel (fun _ => true) (fun _ _ => true).


Section Over.
Context (base : base_model) (lib : library).

Definition field_symbol (arg : option value) : result string :=
  s ← PolygonCryptoHistoricalQueryParams.field_symbol arg;
  if check_symbol base s then Ok s else Err ValidationError.

(** The constructor: the fields in the order of their declaration, then
    the test of the dates of the base class, then the model validator of
    the class itself. *)
Definition new (kwargs : dict) : result PolygonCryptoHistoricalQueryParams.t :=
  match field_symbol (kwargs !! "symbol") with
  | Err AttributeError => Err AttributeError
  | sym =>
      match sym,
            PolygonCryptoHistoricalQueryParams.field_date lib (kwargs !! "start_date"),
            PolygonCryptoHistoricalQueryParams.field_date lib (kwargs !! "end_date"),
            PolygonCryptoHistoricalQueryParams.field_interval (kwargs !! "interval"),
            PolygonCryptoHistoricalQueryParams.field_sort (kwargs !! "sort"),
            PolygonCryptoHistoricalQueryParams.field_limit lib (kwargs !! "limit") with
      | Ok s, Ok sd, Ok ed, Ok i, Ok so, Ok l =>
          if check_dates base sd ed
          then PolygonCryptoHistoricalQueryParams.get_api_interval_params
                 (PolygonCryptoHistoricalQueryParams.Make s sd ed i so l None None)
          else Err ValidationError
      | _, _, _, _, _, _ => Err ValidationError
      end
  end.

Definition transform_query (now : date) (params : loc)
  : M heap PolygonCryptoHistoricalQueryParams.t :=
  let transformed_params := params in
  start ← get params "start_date";
  _ ← (if is_None start
       then d ← lift (minus_one_year now);
            setitem transformed_params "start_date" (VDate d)
       else mret tt);
  stop ← get params "end_date";
  _ ← (if is_None stop
       then setitem transformed_params "end_date" (VDate now)
       else mret tt);
  sym ← get params "symbol";
  _ ← (if truthy sym
       then v ← lift (method_replace sym "-" "");
            setitem transformed_params "symbol" v
       else mret tt);
  kwargs ← gets (fun h => deref h transformed_params);
  lift (new kwargs).

(** Modelled from the spec: [Fetcher.fetch_data] is not among the
    sources; the three stages in their order, as above. *)
Definition fetch_data (now : date) (params : loc)
    (credentials : option (gmap string string))
    (h : heap) (s : session)
  : result (list PolygonCryptoHistoricalData.t) * heap * session :=
  match transform_query now params h with
  | (Err e, h') => (Err e, h', s)
  | (Ok query, h') =>
      match PolygonCryptoHistoricalFetcher.aextract_data lib query credentials s with
      | (Err e, s') => (Err e, h', s')
      | (Ok data, s') =>
          (PolygonCryptoHistoricalFetcher.transform_data lib query data, h', s')
      end
  end.

End Over.

End OverBase.

(** The instance of [library] that converts nothing and parses the two
    ISO-8601 forms that the extraction stage itself produces; it serves the
    concrete evaluations below, none of which relies on a conversion. *)

Module Iso8601.

Definition digits2 (a b : ascii) : option Z :=
  x ← Str.digit a; y ← Str.digit b; Some (10 * x + y).

Definition digits4 (a b c d : ascii) : option Z :=
  x ← digits2 a b; y ← digits2 c d; Some (100 * x + y).

(** [YYYY-MM-DD], and what follows it. *)
Definition calendar_date (s : string) : option (date * string) :=
  match s with
  | String y1 (String y2 (String y3 (String y4 (String "-"
      (String m1 (String m2 (String "-" (String d1 (String d2 rest))))))))) =>
      y ← digits4 y1 y2 y3 y4; m ← digits2 m1 m2; d ← digits2 d1 d2;
      if valid_date (Date y m d) then Some (Date y m d, rest) else None
  | _ => None
  end.

(** [hh:mm:ss], and what follows it. *)
Definition time_of_day (s : string) : option (Z * Z * Z * string) :=
  match s with
  | String h1 (String h2 (String ":" (String m1 (String m2 (String ":"
      (String s1 (String s2 rest))))))) =>
      h ← digits2 h1 h2; m ← digits2 m1 m2; sec ← digits2 s1 s2;
      if (h <? 24) && (m <? 60) && (sec <? 60) then Some (h, m, sec, rest)
      else None
  | _ => None
  end.

(** Nothing, [Z], [+hhmm] or [+hh:mm] (and the same with a minus). *)
Definition offset (s : string) : option (option Z) :=
  let signed (sign : ascii) (h m : Z) : option (option Z) :=
    if (h <? 24) && (m <? 60)
    then Some (Some ((if Ascii.eqb sign "-" then -1 else 1) * (60 * h + m)))
    else None in
  match s with
  | EmptyString => Some None
  | String "Z" EmptyString => Some (Some 0)
  | String sign (String h1 (String h2 (String ":" (String m1 (String m2 EmptyString)))))
  | String sign (String h1 (String h2 (String m1 (String m2 EmptyString)))) =>
      if Ascii.eqb sign "+" || Ascii.eqb sign "-"
      then h ← digits2 h1 h2; m ← digits2 m1 m2; signed sign h m
      else None
  | _ => None
  end.

Definition parse (s : string) : option datetime :=
  '(d, rest) ← calendar_date s;
  match rest with
  | EmptyString => Some (DateTime d 0 0 0 0 None)
  | String "T" rest =>
      '(h, m, sec, rest) ← time_of_day rest;
      o ← offset rest;
      Some (DateTime d h m sec 0 o)
  | _ => None
  end.

End Iso8601.

Definition plain : library := {|
  lax_int := fun _ => None;
  lax_float := fun _ => None;
  lax_date := fun _ => None;
  isoparse := Iso8601.parse;
  str_float := fun _ => "";
  fromtimestamp_float := fun _ => Err TypeError
|}.


(** ** Concrete inputs *)

Module Example.

Definition today : date := Date 2024 2 29.
Definition caller : loc := 1%positive.
Definition store (d : dict) : heap := {[caller := d]}.
Definition idle : session := Session [] [] [].

(** [{"symbol": "btc-usd"}] *)
Definition no_dates : dict := {["symbol" := VStr "btc-usd"]}.



(** [{"symbol": "BTCUSD", "limit": 0}] *)
Definition zero_limit : dict :=
  <["symbol" := VStr "BTCUSD"]> {["limit" := VInt 0]}.

(** A query as [transform_query] returns it. *)
Definition query (symbol interval : string) (multiplier : Z) (timespan : string)
  : PolygonCryptoHistoricalQueryParams.t :=
  PolygonCryptoHistoricalQueryParams.Make
    symbol (Some (Date 2023 1 1)) (Some (Date 2023 1 31))
    interval "desc" 49999 (Some multiplier) (Some timespan).

(** A raw bar of the vendor at the instant [t] (milliseconds). *)
Definition bar (t : Z) : dict :=
  <["t" := VInt t]>
    (<["o" := VFloat 16500.5]>
       (<["h" := VFloat 16600]>
          (<["l" := VFloat 16400.25]>
             (<["c" := VFloat 16550]>
                (<["v" := VFloat 1200.75]>
                   (<["vw" := VFloat 16520.125]> {["n" := VInt 42]})))))).

(** 2023-01-01T00:00:00Z, and the two days after it. *)
Definition midnight : Z := 1672531200000.
Definition day_ms : Z := 86400000.

Definition page1 : body :=
  Body (Some "https://api.polygon.io/v2/aggs/next/1") [bar midnight].
Definition page2 : body :=
  Body (Some "https://api.polygon.io/v2/aggs/next/2") [bar (midnight + day_ms)].
Definition page3 : body := Body None [bar (midnight + 2 * day_ms)].

Definition vendor : session := Session [page1; page2; page3] [] [].

(** Credentials of another vendor only, and none at all. *)
Definition other_key : option (gmap string string) :=
  Some {["fmp_api_key" := "secret"]}.
Definition no_key : option (gmap string string) := Some ∅.

Definition address : string :=
  "https://api.polygon.io/v2/aggs/ticker/X:BTCUSD/range/1/day/2023-01-01/2023-01-31?&sort=desc&limit=49999&apiKey=k".

(** An extracted row with no price, and one with a count of
    transactions of zero. *)
Definition no_prices : dict := {["t" := VDate (Date 2023 1 1)]}.
Definition no_trade : dict :=
  <["t" := VDate (Date 2023 1 1)]> (<["n" := VInt 0]> (bar midnight)).
Definition daily : dict := <["t" := VDate (Date 2023 1 1)]> (bar midnight).

(** [{"symbol": "BTCUSD", "start_date": date(2023, 1, 1),
      "end_date": date(2023, 1, 31)}] *)
Definition explicit_dates : dict :=
  <["symbol" := VStr "BTCUSD"]>
    (<["start_date" := VDate (Date 2023 1 1)]>
       {["end_date" := VDate (Date 2023 1 31)]}).

(** [{"symbol": 7}] *)
Definition numeric_symbol : dict := {["symbol" := VInt 7]}.

(** A body without rows and without a token; a row with no timestamp, and
    a body that holds it after a good row. *)
Definition no_data : body := Body None [].
Definition undated : dict := {["o" := VFloat 1]}.
Definition mixed : body := Body None [bar midnight; undated].

(** The record of the row [daily]. *)
Definition daily_record : PolygonCryptoHistoricalData.t :=
  PolygonCryptoHistoricalData.Make (DateOnly (Date 2023 1 1))
    16500.5%float 16600%float 16400.25%float 16550%float
    (Some (NFloat 1200.75%float)) (Some 16520.125%float)
    (Some 42) ∅.

(** [{"symbol": "btc-usd,eth-usd", "start_date": date(2023, 1, 1),
      "end_date": date(2023, 1, 31)}] *)
Definition two_symbols : dict :=
  <["symbol" := VStr "btc-usd,eth-usd"]>
    (<["start_date" := VDate (Date 2023 1 1)]>
       {["end_date" := VDate (Date 2023 1 31)]}).

End Example.

(** ** What the proofs speak of *)

(** The characters that a literal of [int] is made of. *)
Definition int_literal_char (c : ascii) : bool :=
  Str.is_digit c || Ascii.eqb c "_" || Ascii.eqb c "+" || Ascii.eqb c "-" ||
  Str.is_space c.

(** The symbol of the query that [transform_query] builds from the symbol
    [s] of its argument: line 114 takes the dashes away, then the validator
    [upper_symbol] puts the text in upper case. *)
Definition normalize_symbol (s : string) : string :=
  Str.upper (Str.replace "-" "" s).

(** The three conditional assignments of [transform_query], as functions
    on the dictionary that [params] refers to. *)
Definition default_start (now : date) (d : dict) : result dict :=
  if is_None (dict_get d "start_date")
  then y ← minus_one_year now; mret (<["start_date" := VDate y]> d)
  else mret d.

Definition default_end (now : date) (d : dict) : dict :=
  if is_None (dict_get d "end_date") then <["end_date" := VDate now]> d else d.

Definition strip_symbol (d : dict) : result dict :=
  if truthy (dict_get d "symbol")
  then v ← method_replace (dict_get d "symbol") "-" "";
       mret (<["symbol" := v]> d)
  else mret d.

(** The count of days from 1970-01-01 to a civil date: the way back from
    [civil_from_days], by which the instant that a date-time denotes is
    stated. *)
Definition days_from_civil (d : date) : Z :=
  let y := year d - (if month d <=? 2 then 1 else 0) in
  let era := y / 400 in
  let yoe := y - era * 400 in
  let mp := if month d <=? 2 then month d + 9 else month d - 3 in
  let doy := (153 * mp + 2) / 5 + day d - 1 in
  let doe := yoe * 365 + yoe / 4 - yoe / 100 + doy in
  era * 146097 + doe - 719468.

(** The seconds from the epoch to a date-time of UTC. *)
Definition epoch_seconds (t : datetime) : Z :=
  days_from_civil (date_of t) * 86400 + hour t * 3600 + minute t * 60 + second t.

(** The instants that [datetime] holds, in milliseconds: from
    0001-01-01T00:00:00 to 9999-12-31T23:59:59.999. *)
Definition min_timestamp : Z := -62135596800000.
Definition max_timestamp : Z := 253402300799999.

(** The pieces of a text [p +:+ x], from the pieces of [p] and of [x]: the
    last piece of [p] and the first piece of [x] are one piece. *)
Fixpoint splice (l1 l2 : list string) : list string :=
  match l1 with
  | [] => l2
  | [a] => match l2 with
           | h :: t => (a +:+ h) :: t
           | [] => [a]
           end
  | a :: l1' => a :: splice l1' l2
  end.



(** A body carries a continuation token when its [next_url] is a text that
    is not empty: that is what [while next_url:] tests. *)
Definition has_token (b : body) : bool :=
  match next_url b with
  | Some u => negb (String.eqb u "")
  | None => false
  end.

(** The address of the request that follows the body [b]. *)
Definition follow_up (api_key : option string) (b : body) : string :=
  default "" (next_url b) +:+ "&apiKey=" +:+
  PolygonCryptoHistoricalFetcher.format id api_key.

(** [s'] was reached from [s] by requests only: the log has grown. *)
Definition extends (s s' : session) : Prop :=
  exists more, requested s' = requested s ++ more.

(** The query [values] with its two private attributes set. *)
Definition derived (values : PolygonCryptoHistoricalQueryParams.t)
    (n : Z) (name : string) : PolygonCryptoHistoricalQueryParams.t :=
  PolygonCryptoHistoricalQueryParams.Make
    (PolygonCryptoHistoricalQueryParams.symbol values)
    (PolygonCryptoHistoricalQueryParams.start_date values)
    (PolygonCryptoHistoricalQueryParams.end_date values)
    (PolygonCryptoHistoricalQueryParams.interval values)
    (PolygonCryptoHistoricalQueryParams.sort values)
    (PolygonCryptoHistoricalQueryParams.limit values)
    (Some n) (Some name).

(** A query as it stands when the model validator is called: the fields
    are validated, the private attributes are not set yet. *)
Definition query_with_interval (interval : string)
  : PolygonCryptoHistoricalQueryParams.t :=
  PolygonCryptoHistoricalQueryParams.Make
    "BTCUSD" (Some (Date 2023 1 1)) (Some (Date 2023 12 31))
    interval "desc" 49999 None None.

(** The eight names of a timespan that the table [intervals] holds. *)
Definition timespans : list string :=
  ["second"; "minute"; "hour"; "day"; "week"; "month"; "quarter"; "year"].

(** The addresses that [aextract_data] hands to the transport, one for
    each piece of the symbol between commas. *)
Definition request_urls (query : PolygonCryptoHistoricalQueryParams.t)
    (credentials : option (gmap string string)) : list string :=
  PolygonCryptoHistoricalFetcher.request_url query
    (PolygonCryptoHistoricalFetcher.get_api_key credentials) <$>
  Str.split "," (PolygonCryptoHistoricalQueryParams.symbol query).

(** How often the character [c] occurs in [s]. *)
Fixpoint count_char (c : ascii) (s : string) : nat :=
  match s with
  | EmptyString => O
  | String a r => ((if Ascii.eqb a c then 1 else 0) + count_char c r)%nat
  end.

(** [sep.join(pieces)] for a one-character separator. *)
Fixpoint join (sep : ascii) (pieces : list string) : string :=
  match pieces with
  | [] => ""
  | [p] => p
  | p :: rest => p +:+ String sep (join sep rest)
  end.

(** A ticker that an address carries as it stands: it is made of the
    characters that an address never escapes, drops or reads as a
    delimiter, which are the ASCII letters and digits and the four marks
    [-], [.], [_] and [~]. *)
Definition unreserved (c : ascii) : bool :=
  let n := nat_of_ascii c in
  (((48 <=? n) && (n <=? 57)) || ((65 <=? n) && (n <=? 90)) ||
   ((97 <=? n) && (n <=? 122)))%nat ||
  Ascii.eqb c "-" || Ascii.eqb c "." || Ascii.eqb c "_" || Ascii.eqb c "~".

Definition plain_ticker (symbol : string) : bool :=
  Str.forallb unreserved symbol.

(** The parser of the library reads back what the extraction writes: the
    text of a date, and the text of a date-time of UTC to the second. *)
Definition reads_iso (lib : library) : Prop :=
  (forall d, valid_date d = true ->
     isoparse lib (str_date d) = Some (DateTime d 0 0 0 0 None)) /\
  (forall d h m s us,
     valid_date d = true -> 0 <= h < 24 -> 0 <= m < 60 -> 0 <= s < 60 ->
     isoparse lib (strftime (DateTime d h m s us (Some 0))) =
     Some (DateTime d h m s 0 (Some 0))).

(** The date-time [t] to the second. *)
Definition whole_second (t : datetime) : datetime :=
  DateTime (dt_date t) (hour t) (minute t) (second t) 0 (tz t).

(** The record date of a bar at the instant [t] of UTC: the date-time to
    the second under a unit of second, minute or hour, unless hour and
    minute are both zero; the date alone otherwise. *)
Definition record_date (timespan : option string) (t : datetime)
  : date_value :=
  if PolygonCryptoHistoricalFetcher.intraday timespan &&
     negb ((hour t =? 0) && (minute t =? 0))
  then DateAndTime (whole_second t)
  else DateOnly (date_of t).

(** Whether the two digits of [n], zero-padded, are read back as [n]; and
    the same for four digits. *)
Definition reads_pad2 (n : Z) : bool :=
  match Str.of_Z_pad 2 n with
  | String a (String b EmptyString) =>
      match Iso8601.digits2 a b with Some k => k =? n | None => false end
  | _ => false
  end.

Definition reads_pad4 (n : Z) : bool :=
  match Str.of_Z_pad 4 n with
  | String a (String b (String c (String d EmptyString))) =>
      match Iso8601.digits4 a b c d with Some k => k =? n | None => false end
  | _ => false
  end.

(** * Properties *)

Import PolygonCryptoHistoricalFetcher.

(** ** Text and integers *)

Section Text.

Lemma digit_not_space c : Str.is_digit c = true -> Str.is_space c = false.
Proof. destruct c as [[] [] [] [] [] [] [] []]; vm_compute; congruence. Qed.

Lemma forallb_impl (p q : ascii -> bool) s :
  (forall c, p c = true -> q c = true) ->
  Str.forallb p s = true -> Str.forallb q s = true.
Proof.
  intros Hpq. induction s as [|c r IH]; [done|]. cbn.
  intros [Hc Hr]%andb_prop. by rewrite (Hpq _ Hc), (IH Hr).
Qed.

Lemma rstrip_id s :
  Str.forallb (fun c => negb (Str.is_space c)) s = true -> Str.rstrip s = s.
Proof.
  induction s as [|c r IH]; [done|]. cbn [Str.forallb Str.rstrip].
  intros [Hc Hr]%andb_prop. rewrite (IH Hr).
  destruct r; [|done]. by destruct (Str.is_space c).
Qed.

Lemma lstrip_id s :
  Str.forallb (fun c => negb (Str.is_space c)) s = true -> Str.lstrip s = s.
Proof.
  destruct s as [|c r]; [done|]. cbn. intros [Hc _]%andb_prop.
  by destruct (Str.is_space c).
Qed.

Lemma strip_digits s : Str.forallb Str.is_digit s = true -> Str.strip s = s.
Proof.
  intros H. unfold Str.strip.
  assert (Str.forallb (fun c => negb (Str.is_space c)) s = true) as Hs.
  { revert H. apply forallb_impl. intros c Hc. by rewrite digit_not_space. }
  by rewrite lstrip_id, rstrip_id.
Qed.

Lemma drop_last_snoc s c : Str.drop_last (s +:+ String c "") = s.
Proof.
  induction s as [|a r IH]; [done|].
  change (String a r +:+ String c "") with (String a (r +:+ String c "")).
  cbn [Str.drop_last]. rewrite IH. destruct r; done.
Qed.

Lemma last_snoc s c : Str.last (s +:+ String c "") = Some c.
Proof.
  induction s as [|a r IH]; [done|].
  change (String a r +:+ String c "") with (String a (r +:+ String c "")).
  cbn [Str.last]. rewrite IH. destruct r; done.
Qed.

End Text.

Section IntLiteral.

(** Reading the digits of a decimal numeral accumulates its value. *)
Lemma int_digits_acc d : forall acc count,
  int_digits true (Zpos acc) count (NilEmpty.string_of_uint d) =
  Some (Zpos (Pos.of_uint_acc d acc), (count + Decimal.nb_digits d)%nat).
Proof.
  induction d; intros acc count;
    cbn [NilEmpty.string_of_uint int_digits Pos.of_uint_acc Decimal.nb_digits];
    try (rewrite Nat.add_0_r; reflexivity).
  all: change (Ascii.eqb _ "_") with false; cbv iota; cbn [Str.digit].
  all: rewrite <- Nat.add_succ_comm, <- IHd; f_equal; lia.
Qed.

Lemma int_digits_uint d : forall b count,
  d <> Decimal.Nil \/ b = true ->
  int_digits b 0 count (NilEmpty.string_of_uint d) =
  Some (Z.of_N (Pos.of_uint d), (count + Decimal.nb_digits d)%nat).
Proof.
  induction d; intros b count Hd;
    cbn [NilEmpty.string_of_uint int_digits Pos.of_uint Decimal.nb_digits];
    [ destruct Hd as [Hd | ->]; [congruence | by rewrite Nat.add_0_r] | ..];
    change (Ascii.eqb _ "_") with false; cbv iota; cbn [Str.digit];
    rewrite <- Nat.add_succ_comm;
    [ change (10 * 0 + 0) with 0; apply IHd; by right
    | apply int_digits_acc ..].
Qed.

Lemma length_string_of_uint d :
  String.length (NilEmpty.string_of_uint d) = Decimal.nb_digits d.
Proof. induction d; cbn; congruence. Qed.

Lemma string_of_uint_digits d :
  Str.forallb Str.is_digit (NilEmpty.string_of_uint d) = true.
Proof. induction d; cbn; auto. Qed.

Lemma int_digits_of_N n count :
  int_digits false 0 count (Str.of_N n) =
  Some (Z.of_N n, (count + String.length (Str.of_N n))%nat).
Proof.
  unfold Str.of_N. rewrite int_digits_uint, length_string_of_uint.
  - change (Pos.of_uint ?d) with (N.of_uint d).
    by rewrite DecimalN.Unsigned.of_to.
  - left. destruct n; [discriminate|]. apply DecimalPos.Unsigned.to_uint_nonnil.
Qed.

Lemma python_int_digits s :
  Str.forallb Str.is_digit s = true -> python_int s = int_unsigned s.
Proof.
  intros H. unfold python_int. rewrite (strip_digits _ H).
  destruct s as [|c r]; [done|].
  cbn in H. apply andb_prop in H as [Hc _].
  destruct c as [[] [] [] [] [] [] [] []]; try done.
Qed.

(** [int(str(n)) == n] for a natural number within the limit of digits. *)
Lemma python_int_of_N n :
  (String.length (Str.of_N n) <= int_max_str_digits)%nat ->
  python_int (Str.of_N n) = Some (Z.of_N n).
Proof.
  intros Hlen. rewrite python_int_digits by apply string_of_uint_digits.
  unfold int_unsigned. rewrite int_digits_of_N. cbn [Nat.add].
  by apply Nat.leb_le in Hlen as ->.
Qed.

Lemma python_int_of_Z n :
  0 <= n -> (String.length (Str.of_Z n) <= int_max_str_digits)%nat ->
  python_int (Str.of_Z n) = Some n.
Proof.
  destruct n as [|p|p]; [done| |lia]. intros _ Hlen.
  apply (python_int_of_N (Npos p) Hlen).
Qed.

Lemma of_Z_digits n : 0 <= n -> Str.forallb Str.is_digit (Str.of_Z n) = true.
Proof.
  destruct n as [|p|p]; [done| |lia]. intros _. apply string_of_uint_digits.
Qed.

End IntLiteral.

Section IntLiteralRejected.

Lemma int_digits_bad s : forall b acc count,
  Str.forallb (fun c => Str.is_digit c || Ascii.eqb c "_") s = false ->
  int_digits b acc count s = None.
Proof.
  induction s as [|c r IH]; intros b acc count; [done|].
  cbn [Str.forallb int_digits].
  intros H. destruct (Ascii.eqb c "_") eqn:Hu.
  - rewrite orb_true_r in H. cbn in H. destruct b; [|done]. by apply IH.
  - rewrite orb_false_r in H. destruct (Str.digit c) as [k|] eqn:Hk; [|done].
    assert (Str.is_digit c = true) as Hd.
    { unfold Str.is_digit. rewrite Hk. by apply bool_decide_eq_true_2. }
    rewrite Hd in H. cbn in H. by apply IH.
Qed.

Lemma int_unsigned_bad s :
  Str.forallb (fun c => Str.is_digit c || Ascii.eqb c "_") s = false ->
  int_unsigned s = None.
Proof. intros H. unfold int_unsigned. by rewrite int_digits_bad. Qed.

(** Stripping takes white space only: a character that is not of a
    literal stays. *)
Lemma lstrip_bad p s :
  (forall c, Str.is_space c = true -> p c = true) ->
  Str.forallb p s = false -> Str.forallb p (Str.lstrip s) = false.
Proof.
  intros Hp. induction s as [|c r IH]; [done|]. cbn [Str.lstrip].
  destruct (Str.is_space c) eqn:Hc; [|done].
  cbn. rewrite (Hp _ Hc). cbn. apply IH.
Qed.

Lemma rstrip_bad p s :
  (forall c, Str.is_space c = true -> p c = true) ->
  Str.forallb p s = false -> Str.forallb p (Str.rstrip s) = false.
Proof.
  intros Hp. induction s as [|c r IH]; [done|]. cbn [Str.rstrip Str.forallb].
  intros H. destruct (p c) eqn:Hc.
  - cbn in H. specialize (IH H).
    destruct (Str.rstrip r) eqn:Hr; [done|].
    cbn [Str.forallb]. rewrite Hc. apply IH.
  - destruct (Str.rstrip r); [|by cbn; rewrite Hc].
    destruct (Str.is_space c) eqn:Hs; [|by cbn; rewrite Hc].
    rewrite (Hp _ Hs) in Hc. done.
Qed.

(** A text with a character that no literal has is refused. *)
Lemma python_int_bad s :
  Str.forallb int_literal_char s = false -> python_int s = None.
Proof.
  intros H. unfold python_int.
  assert (Str.forallb int_literal_char (Str.strip s) = false) as Hs.
  { unfold Str.strip. apply rstrip_bad, lstrip_bad; try done.
    all: intros c Hc; unfold int_literal_char; rewrite Hc; apply orb_true_r. }
  assert (forall t, Str.forallb int_literal_char t = false ->
            Str.forallb (fun c => Str.is_digit c || Ascii.eqb c "_") t = false)
    as Hweak.
  { induction t as [|a t IH]; [done|]. cbn. unfold int_literal_char at 1.
    destruct (Str.is_digit a || Ascii.eqb a "_"); [|done]. cbn. apply IH. }
  destruct (Str.strip s) as [|c r]; [done|].
  cbn [Str.forallb] in Hs.
  destruct (int_literal_char c) eqn:Hc.
  - cbn in Hs. apply Hweak in Hs.
    assert (int_unsigned (String c r) = None) as Hu.
    { apply int_unsigned_bad. cbn. by rewrite Hs, andb_false_r. }
    rewrite (int_unsigned_bad _ Hs).
    destruct c as [[] [] [] [] [] [] [] []]; try done.
  - assert (int_unsigned (String c r) = None) as Hu.
    { apply int_unsigned_bad. cbn. unfold int_literal_char in Hc.
      destruct (Str.is_digit c || Ascii.eqb c "_"); done. }
    destruct c as [[] [] [] [] [] [] [] []]; try done.
Qed.

End IntLiteralRejected.

(** ** The symbol *)

Section Symbol.

Lemma replace_dash_cons c r :
  Str.replace "-" "" (String c r) =
  if Ascii.eqb c "-" then Str.replace "-" "" r else String c (Str.replace "-" "" r).
Proof.
  unfold Str.replace. cbn [Str.replace_go String.prefix String.length Nat.sub].
  destruct (ascii_dec "-" c) as [<-|Hc].
  - cbn. by destruct r.
  - destruct (Ascii.eqb c "-") eqn:E; [|done].
    apply Ascii.eqb_eq in E. congruence.
Qed.

Lemma replace_dash_free s : Str.contains "-" (Str.replace "-" "" s) = false.
Proof.
  induction s as [|c r IH]; [done|]. rewrite replace_dash_cons.
  destruct (Ascii.eqb c "-") eqn:E; [done|]. cbn. by rewrite E.
Qed.

Lemma replace_dash_id s : Str.contains "-" s = false -> Str.replace "-" "" s = s.
Proof.
  induction s as [|c r IH]; [done|]. rewrite replace_dash_cons. cbn.
  destruct (Ascii.eqb c "-"); [done|]. intros H. by rewrite IH.
Qed.

Lemma replace_dash_changes s : Str.contains "-" s = true -> Str.replace "-" "" s <> s.
Proof.
  intros H E. pose proof (replace_dash_free s) as F. rewrite E in F. congruence.
Qed.

Lemma upper_char_dash c : Ascii.eqb (Str.upper_char c) "-" = Ascii.eqb c "-".
Proof. destruct c as [[] [] [] [] [] [] [] []]; reflexivity. Qed.

Lemma upper_char_idem c : Str.upper_char (Str.upper_char c) = Str.upper_char c.
Proof. destruct c as [[] [] [] [] [] [] [] []]; reflexivity. Qed.

Lemma upper_char_id c : Str.is_upper_char c = true -> Str.upper_char c = c.
Proof. destruct c as [[] [] [] [] [] [] [] []]; vm_compute; congruence. Qed.

Lemma upper_dash s : Str.contains "-" (Str.upper s) = Str.contains "-" s.
Proof.
  induction s as [|c r IH]; [done|]. cbn. by rewrite upper_char_dash, IH.
Qed.

Lemma upper_idem s : Str.upper (Str.upper s) = Str.upper s.
Proof. induction s as [|c r IH]; [done|]. cbn. by rewrite upper_char_idem, IH. Qed.

Lemma upper_id s : Str.forallb Str.is_upper_char s = true -> Str.upper s = s.
Proof.
  induction s as [|c r IH]; [done|]. cbn. intros [Hc Hr]%andb_prop.
  by rewrite upper_char_id, IH.
Qed.

Lemma normalize_symbol_fixed s :
  Str.forallb Str.is_upper_char s = true -> Str.contains "-" s = false ->
  normalize_symbol s = s.
Proof.
  intros Hu Hd. unfold normalize_symbol. by rewrite replace_dash_id, upper_id.
Qed.

Lemma normalize_symbol_idem s :
  normalize_symbol (normalize_symbol s) = normalize_symbol s.
Proof.
  unfold normalize_symbol.
  rewrite (replace_dash_id (Str.upper _)), upper_idem; [done|].
  by rewrite upper_dash, replace_dash_free.
Qed.

End Symbol.

(** ** The interval token *)

Section Interval.

Lemma interval_params_split values lit unit :
  Q.interval values = lit +:+ String unit "" ->
  Q.get_api_interval_params values =
  match python_int lit with
  | None => Err ValidationError
  | Some n =>
      match Q.intervals unit with
      | None => Err KeyError
      | Some name => Ok (derived values n name)
      end
  end.
Proof.
  intros H. unfold Q.get_api_interval_params, derived.
  rewrite H, drop_last_snoc, last_snoc. reflexivity.
Qed.

(** The IndexError of [interval[-1]] is never seen: on the empty token
    [int] has raised before. *)
Lemma interval_params_no_IndexError values :
  Q.get_api_interval_params values <> Err IndexError.
Proof.
  unfold Q.get_api_interval_params.
  destruct (Q.interval values) as [|c r] eqn:Hi; [done|].
  destruct (python_int _); [|done].
  destruct (Str.last (String c r)) eqn:Hl.
  - by destruct (Q.intervals a).
  - exfalso. clear -Hl. revert c Hl.
    induction r as [|c' r IH]; intros c Hl; [done|]. exact (IH c' Hl).
Qed.

End Interval.

(** C1, as amended.  The model validator derives (n, name of the unit)
    from a token made of the decimal numeral of n > 0 (of at most
    [int_max_str_digits] digits) and a unit letter among s, m, h, d, W, M,
    Q, Y, and more generally from any token whose last character is such a
    letter and whose leading part [int] reads as n > 0.  It fails when the
    unit letter is not recognized (KeyError if the leading part is a
    literal of [int], ValidationError if not), when the leading part is
    missing, and when the leading part holds a character that is no digit,
    underscore, sign or white space (ValidationError). *)
Theorem C1_interval_params (values : Q.t) :
  let outcome := Q.get_api_interval_params values in
  (forall n unit name,
      0 < n -> (String.length (Str.of_Z n) <= int_max_str_digits)%nat ->
      Q.intervals unit = Some name ->
      Q.interval values = Str.of_Z n +:+ String unit "" ->
      outcome = Ok (derived values n name)) /\
  (forall lit unit n name,
      Q.interval values = lit +:+ String unit "" ->
      python_int lit = Some n -> 0 < n -> Q.intervals unit = Some name ->
      outcome = Ok (derived values n name)) /\
  (forall lit unit,
      Q.interval values = lit +:+ String unit "" ->
      Q.intervals unit = None ->
      outcome = Err (match python_int lit with
                     | Some _ => KeyError
                     | None => ValidationError
                     end)) /\
  ((String.length (Q.interval values) <= 1)%nat ->
      outcome = Err ValidationError) /\
  (forall lit unit,
      Q.interval values = lit +:+ String unit "" ->
      Str.forallb int_literal_char lit = false ->
      outcome = Err ValidationError).
Proof.
  cbv zeta. repeat split.
  - intros n unit name Hn Hlen Hu Hi.
    rewrite (interval_params_split _ _ _ Hi), python_int_of_Z, Hu
      by (done || lia).
    done.
  - intros lit unit n name Hi Hl _ Hu.
    by rewrite (interval_params_split _ _ _ Hi), Hl, Hu.
  - intros lit unit Hi Hu.
    rewrite (interval_params_split _ _ _ Hi), Hu. by destruct (python_int lit).
  - intros Hlen. unfold Q.get_api_interval_params.
    destruct (Q.interval values) as [|c [|c' r]]; [done|done|].
    cbn in Hlen. lia.
  - intros lit unit Hi Hbad.
    by rewrite (interval_params_split _ _ _ Hi), python_int_bad.
Qed.

Lemma C1_interval_params_witness :
  Q.get_api_interval_params (query_with_interval "15m")
    = Ok (derived (query_with_interval "15m") 15 "minute") /\
  Q.get_api_interval_params (query_with_interval " +1_5 W")
    = Ok (derived (query_with_interval " +1_5 W") 15 "week") /\
  Q.get_api_interval_params (query_with_interval "7x") = Err KeyError /\
  Q.get_api_interval_params (query_with_interval "d") = Err ValidationError /\
  Q.get_api_interval_params (query_with_interval "1.5h") = Err ValidationError.
Proof.
  split; [|split; [|split; [|split]]].
  - destruct (C1_interval_params (query_with_interval "15m")) as (H & _).
    apply (H 15 "m"%char "minute"); [lia | vm_compute; lia | reflexivity..].
  - destruct (C1_interval_params (query_with_interval " +1_5 W")) as (_ & H & _).
    apply (H " +1_5 " "W"%char 15 "week"); [reflexivity.. | lia | reflexivity].
  - destruct (C1_interval_params (query_with_interval "7x")) as (_ & _ & H & _).
    apply (H "7" "x"%char); reflexivity.
  - destruct (C1_interval_params (query_with_interval "d")) as (_ & _ & _ & H & _).
    apply H. vm_compute. lia.
  - destruct (C1_interval_params (query_with_interval "1.5h")) as (_ & _ & _ & _ & H).
    apply (H "1.5" "h"%char); reflexivity.
Defined.

(** C1 as stated fails: the leading part ["1_5"] is the decimal numeral of
    no integer, and the token is accepted all the same, with multiplier
    15; and the failure on an unknown unit letter is a bare KeyError of the
    table of units, not an error of validation. *)
Lemma C1_counterexample :
  Q.get_api_interval_params (query_with_interval "1_5m")
    = Ok (derived (query_with_interval "1_5m") 15 "minute") /\
  Str.forallb Str.is_digit "1_5" = false /\
  (forall n, Str.of_Z n <> "1_5") /\
  Q.get_api_interval_params (query_with_interval "7x") = Err KeyError.
Proof.
  split; [reflexivity | split; [reflexivity | split; [|reflexivity]]].
  intros [|p|p] H; [discriminate| |discriminate].
  pose proof (of_Z_digits (Zpos p) ltac:(lia)) as Hd.
  rewrite H in Hd. discriminate.
Qed.

(** The token ["0d"] is accepted too, with multiplier 0, and ["-5d"] with
    multiplier -5, although [_multiplier] is declared a [PositiveInt]:
    pydantic does not validate a private attribute. *)
Example interval_zero_multiplier :
  Q.get_api_interval_params (query_with_interval "0d")
    = Ok (derived (query_with_interval "0d") 0 "day") /\
  Q.get_api_interval_params (query_with_interval "-5d")
    = Ok (derived (query_with_interval "-5d") (-5) "day").
Proof. split; reflexivity. Qed.

(** ** [transform_query] *)

Section TransformQuery.

Lemma deref_insert (h : heap) r d : deref (<[r := d]> h) r = d.
Proof. unfold deref. by rewrite lookup_insert_eq. Qed.

Lemma deref_lookup (h : heap) r d : h !! r = Some d -> deref h r = d.
Proof. unfold deref. by intros ->. Qed.

Lemma transform_query_run lib now params (h : heap) d :
  h !! params = Some d ->
  transform_query lib now params h =
  match default_start now d with
  | Err e => (Err e, h)
  | Ok d1 =>
      match strip_symbol (default_end now d1) with
      | Err e => (Err e, <[params := default_end now d1]> h)
      | Ok d3 => (Q.new lib d3, <[params := d3]> h)
      end
  end.
Proof.
  intros Hd. unfold transform_query, default_start, default_end, strip_symbol.
  unfold mbind, M_bind, result_bind, get, gets, setitem, modify, lift, mret, M_ret, result_ret.
  rewrite (deref_lookup _ _ _ Hd).
  assert (Hid : forall d', h !! params = Some d' -> <[params := d']> h = h)
    by (intros; by apply insert_id).
  destruct (is_None (dict_get d "start_date"));
    [destruct (minus_one_year now) as [y|e]; [|done] |];
    cbv beta iota zeta;
    rewrite ?deref_insert, ?insert_insert_eq, ?(deref_lookup _ _ _ Hd);
    (destruct (is_None (dict_get _ "end_date")));
    cbv beta iota zeta;
    rewrite ?deref_insert, ?insert_insert_eq, ?(deref_lookup _ _ _ Hd);
    (destruct (truthy _));
    cbv beta iota zeta;
    rewrite ?deref_insert, ?insert_insert_eq, ?(deref_lookup _ _ _ Hd);
    try (destruct (method_replace _ _ _));
    cbv beta iota zeta;
    rewrite ?deref_insert, ?insert_insert_eq, ?(deref_lookup _ _ _ Hd);
    rewrite ?Hid by done; done.
Qed.

Lemma default_start_lookup now (d d1 : dict) k :
  default_start now d = Ok d1 -> k <> "start_date" -> d1 !! k = d !! k.
Proof.
  unfold default_start. destruct (is_None _).
  - destruct (minus_one_year now) as [y|e]; [|done]. cbn.
    intros [= <-] Hk. by rewrite lookup_insert_ne.
  - by intros [= <-].
Qed.

Lemma default_end_lookup now (d : dict) k :
  k <> "end_date" -> default_end now d !! k = d !! k.
Proof.
  intros Hk. unfold default_end. destruct (is_None _); [|done].
  by rewrite lookup_insert_ne.
Qed.

Lemma strip_symbol_lookup (d d' : dict) k :
  strip_symbol d = Ok d' -> k <> "symbol" -> d' !! k = d !! k.
Proof.
  unfold strip_symbol. destruct (truthy _).
  - destruct (method_replace _ _ _) as [v|e]; [|done]. cbn.
    intros [= <-] Hk. by rewrite lookup_insert_ne.
  - by intros [= <-].
Qed.

Lemma strip_symbol_text (d : dict) s :
  d !! "symbol" = Some (VStr s) ->
  exists d', strip_symbol d = Ok d' /\
             d' !! "symbol" = Some (VStr (Str.replace "-" "" s)).
Proof.
  intros Hs. unfold strip_symbol, dict_get. rewrite Hs. cbn.
  destruct s as [|c r]; cbn.
  - eexists; split; [done|]. by rewrite Hs.
  - eexists; split; [done|]. by rewrite lookup_insert_eq.
Qed.

Lemma transform_query_success lib now params (h : heap) (d d1 : dict)
    sym sd ed tok so l m unit name :
  h !! params = Some d ->
  default_start now d = Ok d1 ->
  d !! "symbol" = Some (VStr sym) ->
  Q.field_date lib (d1 !! "start_date") = Ok sd ->
  Q.field_date lib (default_end now d1 !! "end_date") = Ok ed ->
  Q.field_interval (d !! "interval") = Ok tok ->
  Q.field_sort (d !! "sort") = Ok so ->
  Q.field_limit lib (d !! "limit") = Ok l ->
  python_int (Str.drop_last tok) = Some m ->
  Str.last tok = Some unit ->
  Q.intervals unit = Some name ->
  (transform_query lib now params h).1 =
  Ok (Q.Make (normalize_symbol sym) sd ed tok so l (Some m) (Some name)).
Proof.
  intros Hd H1 Hsym Hsd Hed Hi Hso Hl Hm Hu Hn.
  rewrite (transform_query_run _ _ _ _ _ Hd), H1.
  destruct (strip_symbol_text (default_end now d1) sym) as (d3 & H3 & Hsym3).
  { by rewrite default_end_lookup, (default_start_lookup _ _ _ _ H1). }
  rewrite H3. cbn [fst]. unfold Q.new.
  rewrite Hsym3.
  rewrite !(strip_symbol_lookup _ _ _ H3) by done.
  rewrite (default_end_lookup _ _ "start_date") by done.
  rewrite !(default_end_lookup _ _ "interval"), !(default_end_lookup _ _ "sort"),
    !(default_end_lookup _ _ "limit") by done.
  rewrite !(default_start_lookup _ _ _ "interval" H1), !(default_start_lookup _ _ _ "sort" H1),
    !(default_start_lookup _ _ _ "limit" H1) by done.
  rewrite Hsd, Hed, Hi, Hso, Hl. cbn.
  unfold Q.get_api_interval_params. cbn. rewrite Hm, Hu, Hn. done.
Qed.

End TransformQuery.

Lemma is_None_get (d : dict) k :
  is_None (dict_get d k) = true <-> d !! k = None \/ d !! k = Some VNone.
Proof.
  unfold dict_get. destruct (d !! k) as [v|]; [destruct v|]; cbn;
    (split; [intros H; (by left) || (by right) || discriminate
            | intros [H|H]; congruence]).
Qed.

Lemma minus_one_year_spec now :
  MINYEAR < year now -> valid_date now = true ->
  exists start,
    minus_one_year now = Ok start /\
    year start = year now - 1 /\ month start = month now /\
    day start = (if (month now =? 2) && (day now =? 29) then 28 else day now).
Proof.
  intros Hy Hv. unfold minus_one_year.
  assert ((MINYEAR <=? year now - 1) = true) as -> by (apply Z.leb_le; lia).
  eexists; split; [done|]. cbn [year month day]. repeat split.
  unfold valid_date in Hv.
  repeat (apply andb_prop in Hv as [Hv ?]).
  unfold days_in_month, is_leap in *.
  repeat match goal with
         | |- context [?a =? ?b] => destruct (Z.eqb_spec a b)
         | H : context [?a =? ?b] |- _ => destruct (Z.eqb_spec a b)
         end; cbn in *; try lia.
  all: Z.to_euclidean_division_equations; lia.
Qed.

Lemma default_start_None now (d : dict) y :
  is_None (dict_get d "start_date") = true -> minus_one_year now = Ok y ->
  default_start now d = Ok (<["start_date" := VDate y]> d).
Proof. intros H Hy. unfold default_start. by rewrite H, Hy. Qed.

Lemma default_end_None now (d : dict) :
  is_None (dict_get d "end_date") = true ->
  default_end now d = <["end_date" := VDate now]> d.
Proof. intros H. unfold default_end. by rewrite H. Qed.

Lemma dict_get_insert_ne (d : dict) k k' v :
  k <> k' -> dict_get (<[k := v]> d) k' = dict_get d k'.
Proof. intros H. unfold dict_get. by rewrite lookup_insert_ne. Qed.

(** C8.  A query given without [start_date] and without [end_date] (absent
    or [None]), its other fields being valid, is normalized to a query whose
    [end_date] is the current date and whose [start_date] is one year
    earlier: the year before, the same month and the same day (28 February
    when the current date is 29 February). *)
Theorem C8_default_dates (lib : library) (now : date) (params : loc)
    (h : heap) (d : dict) sym tok so l m unit name :
  h !! params = Some d ->
  dict_get d "start_date" = VNone ->
  dict_get d "end_date" = VNone ->
  valid_date now = true ->
  MINYEAR < year now ->
  d !! "symbol" = Some (VStr sym) ->
  Q.field_interval (d !! "interval") = Ok tok ->
  Q.field_sort (d !! "sort") = Ok so ->
  Q.field_limit lib (d !! "limit") = Ok l ->
  python_int (Str.drop_last tok) = Some m ->
  Str.last tok = Some unit ->
  Q.intervals unit = Some name ->
  exists start,
    (transform_query lib now params h).1 =
      Ok (Q.Make (normalize_symbol sym) (Some start) (Some now)
            tok so l (Some m) (Some name)) /\
    year start = year now - 1 /\
    month start = month now /\
    day start = (if (month now =? 2) && (day now =? 29) then 28 else day now).
Proof.
  intros Hd Hs He Hv Hy Hsym Hi Hso Hl Hm Hu Hn.
  destruct (minus_one_year_spec now Hy Hv) as (start & Hstart & Hfields).
  exists start. split; [|exact Hfields].
  assert (is_None (dict_get d "start_date") = true) as Hs' by by rewrite Hs.
  eapply transform_query_success; eauto using default_start_None.
  - by rewrite lookup_insert_eq.
  - rewrite default_end_None, lookup_insert_eq; [done|].
    by rewrite dict_get_insert_ne, He.
Qed.

(** What [transform_query] leaves in the store. *)
Lemma transform_query_store lib now params (h : heap) (d : dict) :
  h !! params = Some d -> MINYEAR < year now ->
  exists d1 d',
    default_start now d = Ok d1 /\
    (transform_query lib now params h).2 = <[params := d']> h /\
    (strip_symbol (default_end now d1) = Ok d' \/
     (exists e, strip_symbol (default_end now d1) = Err e) /\ d' = default_end now d1).
Proof.
  intros Hd Hy. rewrite (transform_query_run _ _ _ _ _ Hd).
  assert (exists d1, default_start now d = Ok d1) as [d1 H1].
  { unfold default_start, minus_one_year.
    assert ((MINYEAR <=? year now - 1) = true) as -> by (apply Z.leb_le; lia).
    destruct (is_None _); eauto. }
  rewrite H1. exists d1.
  destruct (strip_symbol (default_end now d1)) as [d3|e] eqn:H3.
  - exists d3. eauto.
  - exists (default_end now d1). split; [done|]. split; [done|]. right. eauto.
Qed.

Lemma default_start_written now (d d1 : dict) :
  is_None (dict_get d "start_date") = true -> default_start now d = Ok d1 ->
  exists y, minus_one_year now = Ok y /\ d1 !! "start_date" = Some (VDate y).
Proof.
  intros H. unfold default_start. rewrite H.
  destruct (minus_one_year now) as [y|]; [|done]. cbn. intros [= <-].
  exists y. by rewrite lookup_insert_eq.
Qed.

Lemma default_start_end_date now (d d1 : dict) :
  default_start now d = Ok d1 -> dict_get d1 "end_date" = dict_get d "end_date".
Proof.
  intros H. unfold dict_get. by rewrite (default_start_lookup _ _ _ "end_date" H).
Qed.

(** C10.  [transform_query] writes into the dictionary of its caller: after
    the call (whether the validation has succeeded or not) the object that
    [params] refers to holds the default [start_date] if it had none, the
    default [end_date] if it had none (a date that was given stays), and
    the symbol without its dashes; when a date was missing or the symbol had
    a dash, it is no longer the dictionary that was passed.  The other
    entries and the other objects of the store are as before. *)
Theorem C10_params_mutated (lib : library) (now : date) (params : loc)
    (h : heap) (d : dict) :
  h !! params = Some d ->
  MINYEAR < year now ->
  exists d',
    (transform_query lib now params h).2 = <[params := d']> h /\
    (is_None (dict_get d "start_date") = true ->
       exists y, minus_one_year now = Ok y /\
                 d' !! "start_date" = Some (VDate y) /\ d' <> d) /\
    (is_None (dict_get d "start_date") = false ->
       d' !! "start_date" = d !! "start_date") /\
    (is_None (dict_get d "end_date") = true ->
       d' !! "end_date" = Some (VDate now) /\ d' <> d) /\
    (is_None (dict_get d "end_date") = false ->
       d' !! "end_date" = d !! "end_date") /\
    (forall s, d !! "symbol" = Some (VStr s) ->
       d' !! "symbol" = Some (VStr (Str.replace "-" "" s)) /\
       (Str.contains "-" s = true -> d' <> d)) /\
    (forall k, k <> "start_date" -> k <> "end_date" -> k <> "symbol" ->
       d' !! k = d !! k).
Proof.
  intros Hd Hy.
  destruct (transform_query_store lib now params h d Hd Hy)
    as (d1 & d' & H1 & Hh & H3).
  exists d'. split; [exact Hh|].
  assert (Hkeep : forall k, k <> "symbol" -> d' !! k = default_end now d1 !! k).
  { intros k Hk. destruct H3 as [H3 | [_ ->]]; [|done].
    by apply strip_symbol_lookup. }
  split; [|split; [|split; [|split; [|split]]]].
  - intros Hs. destruct (default_start_written _ _ _ Hs H1) as (y & Hyy & Hl).
    exists y. split; [done|].
    assert (d' !! "start_date" = Some (VDate y)) as Hd'.
    { by rewrite Hkeep, default_end_lookup. }
    split; [done|]. intros ->.
    apply is_None_get in Hs as [Hs|Hs]; congruence.
  - intros Hs. rewrite Hkeep, default_end_lookup by done.
    revert H1. unfold default_start. rewrite Hs. by intros [= <-].
  - intros He.
    assert (d' !! "end_date" = Some (VDate now)) as Hnow.
    { rewrite <- (default_start_end_date _ _ _ H1) in He.
      rewrite Hkeep, (default_end_None _ _ He), lookup_insert_eq by done. done. }
    split; [done|]. intros ->.
    apply is_None_get in He as [He|He]; congruence.
  - intros He. rewrite Hkeep by done.
    rewrite <- (default_start_end_date _ _ _ H1) in He.
    unfold default_end. rewrite He.
    by apply (default_start_lookup _ _ _ _ H1).
  - intros s Hs.
    destruct (strip_symbol_text (default_end now d1) s) as (d3 & Hd3 & Hl).
    { by rewrite default_end_lookup, (default_start_lookup _ _ _ _ H1). }
    destruct H3 as [H3 | [[e He] _]]; [|congruence].
    assert (d3 = d') as -> by congruence.
    split; [done|]. intros Hc ->.
    rewrite Hs in Hl. injection Hl as Hl.
    by apply (replace_dash_changes s).
  - intros k Hk1 Hk2 Hk3.
    by rewrite Hkeep, default_end_lookup, (default_start_lookup _ _ _ _ H1).
Qed.

Lemma new_limit_rejected lib (kwargs : dict) n :
  kwargs !! "limit" = Some (VInt n) -> n <= 0 ->
  Q.new lib kwargs =
  match kwargs !! "symbol" with
  | Some (VStr _) | None => Err ValidationError
  | Some _ => Err AttributeError
  end.
Proof.
  intros Hl Hn. unfold Q.new. rewrite Hl. cbn [Q.field_limit].
  unfold Q.positive_int.
  assert ((0 <? n) = false) as -> by (apply Z.ltb_ge; lia).
  destruct (kwargs !! "symbol") as [v|]; [destruct v|]; cbn; try done.
  all: repeat match goal with
              | |- context [match ?x with _ => _ end] => destruct x
              end; done.
Qed.

(** When the symbol is a text or absent, line 114 does not raise, and the
    symbol is still a text or absent afterwards. *)
Lemma strip_symbol_kind (d : dict) :
  (forall v, d !! "symbol" = Some v -> exists t, v = VStr t) ->
  exists d3,
    strip_symbol d = Ok d3 /\
    (forall v, d3 !! "symbol" = Some v -> exists t, v = VStr t).
Proof.
  intros Hsym. unfold strip_symbol, dict_get.
  destruct (d !! "symbol") as [v|] eqn:Hv.
  - destruct (Hsym v eq_refl) as [t ->]. cbn.
    destruct (negb _); cbn; eexists; (split; [done|]).
    + intros v. rewrite lookup_insert_eq. intros [= <-]. eauto.
    + intros v. rewrite Hv. intros [= <-]. eauto.
  - cbn. exists d. split; [done|]. intros v. by rewrite Hv.
Qed.

Lemma default_start_ok now (d : dict) :
  MINYEAR < year now -> exists d1, default_start now d = Ok d1.
Proof.
  intros Hy. unfold default_start, minus_one_year.
  assert ((MINYEAR <=? year now - 1) = true) as -> by (apply Z.leb_le; lia).
  destruct (is_None _); eauto.
Qed.

Lemma limit_rejected (lib : library) (now : date) (params : loc)
    (credentials : option (gmap string string)) (h : heap) (s : session)
    (d : dict) (n : Z) :
  h !! params = Some d ->
  d !! "limit" = Some (VInt n) ->
  n <= 0 ->
  exists e h',
    transform_query lib now params h = (Err e, h') /\
    fetch_data lib now params credentials h s = (Err e, h', s) /\
    (MINYEAR < year now ->
     (forall v, d !! "symbol" = Some v -> exists t, v = VStr t) ->
     e = ValidationError).
Proof.
  intros Hd Hl Hn.
  assert (exists e h', transform_query lib now params h = (Err e, h') /\
            (MINYEAR < year now ->
             (forall v, d !! "symbol" = Some v -> exists t, v = VStr t) ->
             e = ValidationError)) as (e & h' & Ht & He).
  { rewrite (transform_query_run _ _ _ _ _ Hd).
    destruct (default_start now d) as [d1|e] eqn:H1.
    2: { exists e, h. split; [done|]. intros Hy _.
         destruct (default_start_ok now d Hy) as [d1 H1']. congruence. }
    assert (Hsame : default_end now d1 !! "symbol" = d !! "symbol").
    { by rewrite default_end_lookup, (default_start_lookup _ _ _ _ H1). }
    destruct (strip_symbol (default_end now d1)) as [d3|e] eqn:H3.
    2: { exists e. eexists. split; [done|]. intros _ Hsym.
         destruct (strip_symbol_kind (default_end now d1)) as (d3 & H3' & _);
           [by rewrite Hsame | congruence]. }
    assert (d3 !! "limit" = Some (VInt n)) as Hl3.
    { by rewrite (strip_symbol_lookup _ _ _ H3), default_end_lookup,
        (default_start_lookup _ _ _ _ H1). }
    rewrite (new_limit_rejected _ _ _ Hl3 Hn).
    destruct (d3 !! "symbol") as [v|] eqn:Hv; [destruct v|];
      (eexists _, _; split; [done|]); try done.
    all: intros _ Hsym.
    all: destruct (strip_symbol_kind (default_end now d1))
           as (d3' & H3' & Hkind); [by rewrite Hsame|].
    all: assert (d3' = d3) as -> by congruence.
    all: by destruct (Hkind _ Hv) as [t ?]. }
  exists e, h'. split; [done|]. split; [|done].
  unfold fetch_data. by rewrite Ht.
Qed.

Lemma interval_params_symbol values q :
  Q.get_api_interval_params values = Ok q -> Q.symbol q = Q.symbol values.
Proof.
  unfold Q.get_api_interval_params.
  destruct (python_int _); [|done]. destruct (Str.last _); [|done].
  destruct (Q.intervals _); [|done]. by intros [= <-].
Qed.

Lemma new_symbol lib (kwargs : dict) s q :
  kwargs !! "symbol" = Some (VStr s) -> Q.new lib kwargs = Ok q ->
  Q.symbol q = Str.upper s.
Proof.
  intros Hs. unfold Q.new. rewrite Hs. cbn.
  repeat match goal with
         | |- context [match ?x with _ => _ end] => destruct x; try done
         end.
  by intros ->%interval_params_symbol.
Qed.

Lemma transform_query_symbol lib now params (h : heap) (d : dict) s q :
  h !! params = Some d -> d !! "symbol" = Some (VStr s) ->
  (transform_query lib now params h).1 = Ok q ->
  Q.symbol q = normalize_symbol s.
Proof.
  intros Hd Hs. rewrite (transform_query_run _ _ _ _ _ Hd).
  destruct (default_start now d) as [d1|e] eqn:H1; [|done].
  destruct (strip_symbol_text (default_end now d1) s) as (d3 & H3 & Hs3).
  { by rewrite default_end_lookup, (default_start_lookup _ _ _ _ H1). }
  rewrite H3. cbn [fst]. by apply new_symbol.
Qed.

(** C9.  The normalization of the symbol (dashes taken away, upper case) is
    idempotent: a symbol in upper case and without dashes is its own normal
    form, and normalizing twice is normalizing once.  [normalize_symbol] is
    what [transform_query] does to the symbol. *)
Theorem C9_symbol_idempotent :
  (forall s, Str.forallb Str.is_upper_char s = true ->
             Str.contains "-" s = false ->
             normalize_symbol s = s) /\
  (forall s, normalize_symbol (normalize_symbol s) = normalize_symbol s) /\
  (forall lib now params (h : heap) (d : dict) s q,
      h !! params = Some d -> d !! "symbol" = Some (VStr s) ->
      (transform_query lib now params h).1 = Ok q ->
      Q.symbol q = normalize_symbol s).
Proof.
  split; [exact normalize_symbol_fixed|].
  split; [exact normalize_symbol_idem|].
  intros. by eapply transform_query_symbol.
Qed.

(** ** The query model over its base class *)

Section OverBaseClass.

Lemma over_standard_new lib (kwargs : dict) :
  OverBase.new OverBase.standard lib kwargs = Q.new lib kwargs.
Proof.
  unfold OverBase.new, OverBase.field_symbol, Q.new. cbn [OverBase.check_symbol
    OverBase.check_dates OverBase.standard].
  destruct (Q.field_symbol (kwargs !! "symbol")) as [s|[]]; cbn; try done;
    repeat case_match; done.
Qed.

Lemma over_transform_query_run base lib now params (h : heap) d :
  h !! params = Some d ->
  OverBase.transform_query base lib now params h =
  match default_start now d with
  | Err e => (Err e, h)
  | Ok d1 =>
      match strip_symbol (default_end now d1) with
      | Err e => (Err e, <[params := default_end now d1]> h)
      | Ok d3 => (OverBase.new base lib d3, <[params := d3]> h)
      end
  end.
Proof.
  intros Hd.
  unfold OverBase.transform_query, default_start, default_end, strip_symbol.
  unfold mbind, M_bind, result_bind, get, gets, setitem, modify, lift, mret, M_ret, result_ret.
  rewrite (deref_lookup _ _ _ Hd).
  assert (Hid : forall d', h !! params = Some d' -> <[params := d']> h = h)
    by (intros; by apply insert_id).
  destruct (is_None (dict_get d "start_date"));
    [destruct (minus_one_year now) as [y|e]; [|done] |];
    cbv beta iota zeta;
    rewrite ?deref_insert, ?insert_insert_eq, ?(deref_lookup _ _ _ Hd);
    (destruct (is_None (dict_get _ "end_date")));
    cbv beta iota zeta;
    rewrite ?deref_insert, ?insert_insert_eq, ?(deref_lookup _ _ _ Hd);
    (destruct (truthy _));
    cbv beta iota zeta;
    rewrite ?deref_insert, ?insert_insert_eq, ?(deref_lookup _ _ _ Hd);
    try (destruct (method_replace _ _ _));
    cbv beta iota zeta;
    rewrite ?deref_insert, ?insert_insert_eq, ?(deref_lookup _ _ _ Hd);
    rewrite ?Hid by done; done.
Qed.

(** With the base class of the sibling model, [OverBase.transform_query]
    is [transform_query]. *)
Lemma over_standard_transform_query lib now params (h : heap) d :
  h !! params = Some d ->
  OverBase.transform_query OverBase.standard lib now params h =
  transform_query lib now params h.
Proof.
  intros Hd.
  rewrite (over_transform_query_run _ _ _ _ _ _ Hd), (transform_query_run _ _ _ _ _ Hd).
  destruct (default_start now d) as [d1|]; [|done].
  destruct (strip_symbol (default_end now d1)) as [d3|]; [|done].
  by rewrite over_standard_new.
Qed.






End OverBaseClass.



Lemma C8_default_dates_witness :
  exists start,
    (transform_query plain Example.today Example.caller
       (Example.store Example.no_dates)).1 =
      Ok (Q.Make (normalize_symbol "btc-usd") (Some start) (Some Example.today)
            "1d" "desc" 49999 (Some 1) (Some "day")) /\
    year start = year Example.today - 1 /\
    month start = month Example.today /\
    day start = 28.
Proof.
  exact (C8_default_dates plain Example.today Example.caller
           (Example.store Example.no_dates) Example.no_dates
           "btc-usd" "1d" "desc" 49999 1 "d"%char "day"
           eq_refl eq_refl eq_refl eq_refl eq_refl eq_refl eq_refl eq_refl
           eq_refl eq_refl eq_refl eq_refl).
Defined.

Lemma C9_symbol_idempotent_witness :
  normalize_symbol "BTCUSD,ETHUSD" = "BTCUSD,ETHUSD" /\
  normalize_symbol (normalize_symbol "btc-usd") = normalize_symbol "btc-usd" /\
  (forall q,
     (transform_query plain Example.today Example.caller
        (Example.store Example.no_dates)).1 = Ok q ->
     Q.symbol q = normalize_symbol "btc-usd").
Proof.
  destruct C9_symbol_idempotent as (H1 & H2 & H3).
  split; [apply H1; reflexivity|]. split; [apply H2|].
  intros q. apply (H3 plain Example.today Example.caller
                      (Example.store Example.no_dates) Example.no_dates);
    reflexivity.
Defined.

Lemma C10_params_mutated_witness :
  exists d',
    (transform_query plain Example.today Example.caller
       (Example.store Example.no_dates)).2
      = <[Example.caller := d']> (Example.store Example.no_dates) /\
    (is_None (dict_get Example.no_dates "start_date") = true ->
       exists y, minus_one_year Example.today = Ok y /\
                 d' !! "start_date" = Some (VDate y) /\
                 d' <> Example.no_dates) /\
    (is_None (dict_get Example.no_dates "start_date") = false ->
       d' !! "start_date" = Example.no_dates !! "start_date") /\
    (is_None (dict_get Example.no_dates "end_date") = true ->
       d' !! "end_date" = Some (VDate Example.today) /\
       d' <> Example.no_dates) /\
    (is_None (dict_get Example.no_dates "end_date") = false ->
       d' !! "end_date" = Example.no_dates !! "end_date") /\
    (forall s, Example.no_dates !! "symbol" = Some (VStr s) ->
       d' !! "symbol" = Some (VStr (Str.replace "-" "" s)) /\
       (Str.contains "-" s = true -> d' <> Example.no_dates)) /\
    (forall k, k <> "start_date" -> k <> "end_date" -> k <> "symbol" ->
       d' !! k = Example.no_dates !! k).
Proof.
  exact (C10_params_mutated plain Example.today Example.caller
           (Example.store Example.no_dates) Example.no_dates eq_refl eq_refl).
Defined.

(** The dictionary of the caller after the call, entry by entry. *)
Example params_after_call :
  map_to_list (deref (transform_query plain Example.today Example.caller
                        (Example.store Example.no_dates)).2 Example.caller) ≡ₚ
  [("symbol", VStr "btcusd");
   ("start_date", VDate (Date 2023 2 28));
   ("end_date", VDate (Date 2024 2 29))].
Proof. vm_compute. reflexivity. Qed.

(** ** [transform_data] *)

Section Traverse.

Lemma traverse_ok {A B} (f : A -> result B) xs ys :
  traverse f xs = Ok ys <-> Forall2 (fun x y => f x = Ok y) xs ys.
Proof.
  revert ys. induction xs as [|x xs IH]; intros ys; cbn.
  - split; [intros [= <-]; constructor | by intros ->%Forall2_nil_inv_l].
  - destruct (f x) as [y|e] eqn:Hx.
    + destruct (traverse f xs) as [ys'|e] eqn:Hxs.
      * split.
        -- intros [= <-]. constructor; [done|]. by apply IH.
        -- intros (y' & ys'' & Hy & Hys & ->)%Forall2_cons_inv_l.
           apply IH in Hys. congruence.
      * split; [done|].
        intros (y' & ys'' & Hy & Hys & ->)%Forall2_cons_inv_l.
        apply IH in Hys. congruence.
    + split; [done|].
      intros (y' & ys'' & Hy & Hys & ->)%Forall2_cons_inv_l. congruence.
Qed.

Lemma traverse_all_ok {A B} (f : A -> result B) xs :
  Forall (fun x => exists y, f x = Ok y) xs -> exists ys, traverse f xs = Ok ys.
Proof.
  induction 1 as [|x xs [y Hy] _ [ys IH]]; cbn; [eauto|].
  rewrite Hy, IH. eauto.
Qed.

Lemma traverse_err {A B} (f : A -> result B) xs e :
  traverse f xs = Err e -> Exists (fun x => f x = Err e) xs.
Proof.
  induction xs as [|x xs IH]; cbn; [done|].
  destruct (f x) as [y|e'] eqn:Hx.
  - destruct (traverse f xs); [done|]. intros [= ->]. right. by apply IH.
  - intros [= ->]. by left.
Qed.

Lemma traverse_some_err {A B} (f : A -> result B) xs :
  Exists (fun x => exists e, f x = Err e) xs -> exists e, traverse f xs = Err e.
Proof.
  induction 1 as [x xs [e He]|x xs _ [e IH]]; cbn.
  - rewrite He. eauto.
  - destruct (f x); [|eauto]. rewrite IH. eauto.
Qed.

End Traverse.

Lemma model_validate_err lib d e :
  D.model_validate lib d = Err e -> e = ValidationError.
Proof.
  unfold D.model_validate.
  repeat match goal with |- context [match ?x with _ => _ end] => destruct x end;
    congruence.
Qed.

(** C3, as amended.  [transform_data] raises EmptyDataError exactly when the
    sequence of rows that it receives is empty.  On a sequence that is not
    empty it validates the rows one by one: if every row is valid it
    returns one record for each row, in the order of the rows; if some row
    is not, the whole call fails with pydantic's ValidationError and no
    record is returned. *)
Theorem C3_transform_data (lib : library) (query : Q.t) (data : list dict) :
  (transform_data lib query data = Err EmptyDataError <-> data = []) /\
  (data <> [] ->
   Forall (fun d => exists r, D.model_validate lib d = Ok r) data ->
   exists records,
     transform_data lib query data = Ok records /\
     Forall2 (fun d r => D.model_validate lib d = Ok r) data records) /\
  (data <> [] ->
   Exists (fun d => exists e, D.model_validate lib d = Err e) data ->
   transform_data lib query data = Err ValidationError).
Proof.
  split; [|split].
  - split; [|by intros ->].
    destruct data as [|d data]; [done|]. intros H. exfalso.
    apply traverse_err, Exists_exists in H as (x & _ & Hx).
    by apply model_validate_err in Hx.
  - intros Hne Hall. destruct (traverse_all_ok _ _ Hall) as [records Hr].
    exists records. split; [|by apply traverse_ok].
    by destruct data.
  - intros Hne Hex. destruct (traverse_some_err _ _ Hex) as [e He].
    destruct data as [|d data]; [done|]. unfold transform_data. rewrite He.
    apply traverse_err, Exists_exists in He as (x & _ & Hx).
    by apply model_validate_err in Hx as ->.
Qed.

Lemma C3_transform_data_witness :
  (transform_data plain (Example.query "BTCUSD" "1d" 1 "day") []
     = Err EmptyDataError) /\
  (exists records,
     transform_data plain (Example.query "BTCUSD" "1d" 1 "day")
       [Example.daily; Example.daily] = Ok records /\
     Forall2 (fun d r => D.model_validate plain d = Ok r)
       [Example.daily; Example.daily] records) /\
  transform_data plain (Example.query "BTCUSD" "1d" 1 "day")
    [Example.daily; Example.no_trade] = Err ValidationError.
Proof.
  split; [|split].
  - apply (C3_transform_data plain (Example.query "BTCUSD" "1d" 1 "day") []).
    reflexivity.
  - apply (C3_transform_data plain (Example.query "BTCUSD" "1d" 1 "day")
             [Example.daily; Example.daily]); [discriminate|].
    repeat constructor; eexists; vm_compute; reflexivity.
  - apply (C3_transform_data plain (Example.query "BTCUSD" "1d" 1 "day")
             [Example.daily; Example.no_trade]); [discriminate|].
    right. left. exists ValidationError. vm_compute. reflexivity.
Defined.

(** C3 as stated fails: on a sequence that is not empty, a row without
    prices, or a bar with a count of transactions of zero, makes the call
    fail instead of returning records. *)
Lemma C3_counterexample :
  transform_data plain (Example.query "BTCUSD" "1d" 1 "day")
    [Example.no_prices] = Err ValidationError /\
  transform_data plain (Example.query "BTCUSD" "1d" 1 "day")
    [Example.daily; Example.no_trade] = Err ValidationError.
Proof. split; vm_compute; reflexivity. Qed.

(** The failure of these rows does not depend on what the libraries
    convert. *)
Lemma no_prices_rejected lib query :
  transform_data lib query [Example.no_prices] = Err ValidationError.
Proof.
  unfold transform_data, traverse, D.model_validate.
  destruct (D.field_date _ _); reflexivity.
Qed.

(** ** The pagination loop *)

Section Pagination.

Lemma while_next_url_stop turns api_key b rows s :
  has_token b = false ->
  while_next_url turns api_key (next_url b) rows s = (Ok rows, s).
Proof.
  unfold has_token. destruct turns; cbn; destruct (next_url b) as [u|]; try done.
  all: destruct (String.eqb u ""); done.
Qed.

Lemma while_next_url_pages api_key init : forall last rest turns b rows s,
  Forall (fun b => has_token b = true) (b :: init) ->
  has_token last = false ->
  pending s = init ++ last :: rest ->
  (length (init ++ [last]) <= turns)%nat ->
  while_next_url turns api_key (next_url b) rows s =
  (Ok (rows ++ concat (results <$> (init ++ [last]))),
   Session rest (requested s ++ (follow_up api_key <$> (b :: init))) (warned s)).
Proof.
  induction init as [|b' init IH]; intros last rest turns b rows s Hall Hlast Hp Ht.
  - apply Forall_cons in Hall as [Hb _]. unfold has_token in Hb.
    destruct (next_url b) as [u|] eqn:Hu; [|done].
    destruct turns as [|turns]; [cbn in Ht; lia|].
    cbn [while_next_url]. destruct (String.eqb u "") eqn:E; [done|].
    unfold mbind, M_bind, http_get. rewrite Hp. cbn [app]. cbv beta iota.
    rewrite while_next_url_stop by done. cbn.
    unfold follow_up. rewrite Hu. cbn. by rewrite app_nil_r.
  - apply Forall_cons in Hall as [Hb Hall]. unfold has_token in Hb.
    destruct (next_url b) as [u|] eqn:Hu; [|done].
    destruct turns as [|turns]; [cbn in Ht; lia|].
    cbn [while_next_url]. destruct (String.eqb u "") eqn:E; [done|].
    unfold mbind, M_bind, http_get. rewrite Hp. cbn [app]. cbv beta iota.
    rewrite (IH last rest turns b' _ _ Hall Hlast) by (cbn in *; (done || lia)).
    assert (follow_up api_key b = u +:+ "&apiKey=" +:+ format id api_key) as Hf
      by (unfold follow_up; by rewrite Hu).
    cbn [requested warned]. rewrite (fmap_cons _ b), Hf.
    rewrite (fmap_cons results b').
    cbn [concat]. by rewrite <- !app_assoc.
Qed.

Lemma callback_run lib query api_key address symbol first s rows s1 :
  url_parts address !! 4%nat = Some symbol ->
  while_next_url (length (pending s)) api_key (next_url first) (results first) s
    = (Ok rows, s1) ->
  callback lib query api_key (Response address first) s =
  (traverse (stamp lib query symbol) rows,
   match traverse (stamp lib query symbol) rows with
   | Ok [] => Session (pending s1) (requested s1)
                (warned s1 ++ ["Symbol Error: No data found for " +:+
                               Str.replace "X:" "" symbol])
   | _ => s1
   end).
Proof.
  intros Hsym Hloop. unfold callback. cbn [url json].
  rewrite Hsym. unfold mbind, M_bind, lift, gets, mret, M_ret, _warn, modify.
  rewrite Hloop.
  destruct (traverse _ rows) as [[|r out]|e]; done.
Qed.

(** The address of a request has a fifth part: [response.url.parts[4]]
    does not raise. *)
Lemma split_cons sep s : exists first others, Str.split sep s = first :: others.
Proof.
  induction s as [|c r (f & o & IH)]; cbn; [eauto|].
  destruct (Ascii.eqb c sep); [eauto|]. rewrite IH. eauto.
Qed.

Lemma split_app sep p x :
  Str.split sep (p +:+ x) = splice (Str.split sep p) (Str.split sep x).
Proof.
  induction p as [|c p IH].
  - change ("" +:+ x) with x. cbn.
    by destruct (split_cons sep x) as (f & o & ->).
  - change (String c p +:+ x) with (String c (p +:+ x)).
    cbn [Str.split]. rewrite IH.
    destruct (split_cons sep p) as (f & o & ->).
    destruct (split_cons sep x) as (g & q & ->).
    destruct (Ascii.eqb c sep); [done|].
    destruct o; done.
Qed.

Lemma hd_split_app sep p x :
  Str.contains sep p = false ->
  hd "" (Str.split sep (p +:+ x)) = p +:+ hd "" (Str.split sep x).
Proof.
  induction p as [|c p IH]; [done|]. cbn [Str.contains].
  destruct (Ascii.eqb c sep) eqn:E; [done|]. intros H.
  change (String c p +:+ x) with (String c (p +:+ x)).
  cbn [Str.split]. rewrite E.
  destruct (split_cons sep (p +:+ x)) as (f & o & Hs).
  rewrite Hs in IH |- *. cbn [hd] in *. by rewrite (IH H).
Qed.

Lemma remove_unsafe_app a b :
  remove_unsafe (a +:+ b) = remove_unsafe a +:+ remove_unsafe b.
Proof.
  induction a as [|c a IH]; [done|].
  change (String c a +:+ b) with (String c (a +:+ b)). cbn [remove_unsafe].
  rewrite IH. by destruct (is_unsafe c).
Qed.

Lemma request_url_parts query api_key symbol :
  exists part rest,
    url_parts (request_url query api_key symbol) =
    "/" :: "v2" :: "aggs" :: "ticker" :: part :: rest.
Proof.
  unfold request_url.
  set (tail := "X:" +:+ _).
  unfold url_parts, url_path.
  rewrite remove_unsafe_app.
  assert (remove_unsafe "https://api.polygon.io/v2/aggs/ticker/" =
          "https://api.polygon.io/v2/aggs/ticker/") as -> by reflexivity.
  generalize (remove_unsafe tail). clear tail. intros tail.
  rewrite (hd_split_app "?"), (hd_split_app "#") by reflexivity.
  set (x := hd "" (Str.split "#" _)).
  destruct (split_cons "/" x) as (part & rest & Hx).
  exists part, rest.
  rewrite split_app, Hx. reflexivity.
Qed.

End Pagination.

(** C4.  Let the vendor answer the requests of one symbol with the bodies
    [init ++ [last]], where every body of [init] carries a continuation
    token and [last] carries none.  Then the task of that symbol issues
    exactly that many requests (the address built for the symbol, then the
    address of each token with the key appended), takes exactly these bodies from the
    vendor and stops; what it passes through the loop over the rows, and
    returns, is the concatenation of the rows of all pages, in the order of
    the pages.  When every row has a timestamp that converts, the result is
    that list, row by row, each with its timestamp rewritten. *)
Theorem C4_pagination (lib : library) (query : Q.t) (api_key : option string)
    (symbol : string) (init : list body) (last : body)
    (rest : list body) (s : session) :
  Forall (fun b => has_token b = true) init ->
  has_token last = false ->
  pending s = init ++ last :: rest ->
  exists part s',
    url_parts (request_url query api_key symbol) !! 4%nat = Some part /\
    amake_request (request_url query api_key symbol)
      (callback lib query api_key) s =
      (traverse (stamp lib query part) (concat (results <$> init ++ [last])), s') /\
    pending s' = rest /\
    requested s' =
      requested s ++
      request_url query api_key symbol :: (follow_up api_key <$> init) /\
    length (requested s') = (length (requested s) + length (init ++ [last]))%nat /\
    (Forall (fun r => exists t, timestamp lib r = Ok t)
        (concat (results <$> init ++ [last])) ->
     exists rows,
       traverse (stamp lib query part) (concat (results <$> init ++ [last]))
         = Ok rows /\
       Forall2 (fun r r' => stamp lib query part r = Ok r')
         (concat (results <$> init ++ [last])) rows).
Proof.
  intros Hinit Hlast Hp.
  destruct (request_url_parts query api_key symbol) as (part & parts & Hparts).
  assert (url_parts (request_url query api_key symbol) !! 4%nat = Some part)
    as Hsym by (rewrite Hparts; reflexivity).
  clear Hparts. revert Hsym.
  generalize (request_url query api_key symbol). intros address Hsym.
  set (rows := concat (results <$> init ++ [last])).
  set (s1 := Session rest (requested s ++ address :: (follow_up api_key <$> init))
               (warned s)).
  assert (exists first more,
            pending s = first :: more /\
            while_next_url (length more) api_key (next_url first) (results first)
              (Session more (requested s ++ [address]) (warned s))
            = (Ok rows, s1)) as (first & more & Hfirst & Hloop).
  { destruct init as [|b init].
    - exists last, rest. split; [done|].
      rewrite while_next_url_stop by done. subst rows s1. cbn.
      by rewrite app_nil_r.
    - exists b, (init ++ last :: rest). split; [done|].
      rewrite (while_next_url_pages api_key init last rest) by
        (try done; cbn; rewrite !length_app; cbn; lia).
      subst rows s1. cbn. by rewrite <- app_assoc. }
  exists part. eexists. split; [exact Hsym|]. split; [|split; [|split; [|split]]].
  - unfold amake_request, mbind, M_bind, http_get. rewrite Hfirst. cbv beta iota.
    rewrite (callback_run lib query api_key address part first _ rows s1 Hsym Hloop).
    reflexivity.
  - by destruct (traverse _ rows) as [[|]|].
  - by destruct (traverse _ rows) as [[|]|].
  - assert (requested s1 = requested s ++ address :: (follow_up api_key <$> init))
      as Hr by done.
    destruct (traverse _ rows) as [[|]|]; cbn [requested]; rewrite ?Hr;
      rewrite !length_app; cbn; rewrite length_fmap; lia.
  - intros Hall.
    destruct (traverse_all_ok (stamp lib query part) rows) as [out Hout].
    { eapply Forall_impl; [exact Hall|]. intros r [t Ht]. unfold stamp.
      rewrite Ht. cbn. eauto. }
    exists out. split; [done|]. by apply traverse_ok.
Qed.

Lemma C4_pagination_witness :
  exists part s',
    url_parts (request_url (Example.query "BTCUSD" "1d" 1 "day") (Some "k")
                 "BTCUSD") !! 4%nat = Some part /\
    amake_request
      (request_url (Example.query "BTCUSD" "1d" 1 "day") (Some "k") "BTCUSD")
      (callback plain (Example.query "BTCUSD" "1d" 1 "day") (Some "k"))
      Example.vendor =
      (traverse (stamp plain (Example.query "BTCUSD" "1d" 1 "day") part)
         (concat (results <$> [Example.page1; Example.page2] ++ [Example.page3])),
       s') /\
    pending s' = [] /\
    requested s' =
      requested Example.vendor ++
      request_url (Example.query "BTCUSD" "1d" 1 "day") (Some "k") "BTCUSD" ::
      (follow_up (Some "k") <$> [Example.page1; Example.page2]) /\
    length (requested s') =
      (length (requested Example.vendor) +
       length ([Example.page1; Example.page2] ++ [Example.page3]))%nat /\
    (Forall (fun r => exists t, timestamp plain r = Ok t)
        (concat (results <$> [Example.page1; Example.page2] ++ [Example.page3])) ->
     exists rows,
       traverse (stamp plain (Example.query "BTCUSD" "1d" 1 "day") part)
         (concat (results <$> [Example.page1; Example.page2] ++ [Example.page3]))
         = Ok rows /\
       Forall2 (fun r r' =>
                  stamp plain (Example.query "BTCUSD" "1d" 1 "day") part r
                    = Ok r')
         (concat (results <$> [Example.page1; Example.page2] ++ [Example.page3]))
         rows).
Proof.
  apply (C4_pagination plain (Example.query "BTCUSD" "1d" 1 "day") (Some "k")
           "BTCUSD" [Example.page1; Example.page2]
           Example.page3 [] Example.vendor).
  - repeat constructor.
  - reflexivity.
  - reflexivity.
Defined.

(** The three requests of that task, and its three rows, dated.
    [Example.address] is the address that [aextract_data] builds. *)
Example pagination_run :
  request_url (Example.query "BTCUSD" "1d" 1 "day") (Some "k") "BTCUSD"
    = Example.address /\
  let '(r, s') :=
    amake_request Example.address
      (callback plain (Example.query "BTCUSD" "1d" 1 "day") (Some "k"))
      Example.vendor in
  (fmap (M := list) (fun row => row !! "t") <$> r) =
    Ok [Some (VDate (Date 2023 1 1)); Some (VDate (Date 2023 1 2));
        Some (VDate (Date 2023 1 3))] /\
  requested s' =
    [Example.address;
     "https://api.polygon.io/v2/aggs/next/1&apiKey=k";
     "https://api.polygon.io/v2/aggs/next/2&apiKey=k"] /\
  pending s' = [] /\ warned s' = [].
Proof. split; [reflexivity|]. vm_compute. repeat split. Qed.

(** ** The calendar *)

Section Calendar.

Lemma civil_year_range days :
  -719162 <= days <= 2932896 ->
  MINYEAR <= year (civil_from_days days) <= MAXYEAR.
Proof.
  intros H. unfold civil_from_days, MINYEAR, MAXYEAR. cbv zeta. cbn [year].
  destruct (_ <? 10) eqn:E1; destruct (_ <=? 2) eqn:E2;
    [apply Z.ltb_lt in E1 | apply Z.ltb_lt in E1 | apply Z.ltb_ge in E1 | apply Z.ltb_ge in E1];
    [apply Z.leb_le in E2 | apply Z.leb_gt in E2 | apply Z.leb_le in E2 | apply Z.leb_gt in E2];
    revert E1 E2.
  all: Z.to_euclidean_division_equations; lia.
Qed.

Lemma civil_from_days_valid z :
  -719162 <= z <= 2932896 -> valid_date (civil_from_days z) = true.
Proof.
  intros Hz. unfold valid_date, civil_from_days, MINYEAR, MAXYEAR. cbv zeta. cbn [year month day].
  set (zz := z + 719468).
  set (era := zz / 146097).
  set (doe := zz - era * 146097).
  set (yoe := (doe - doe / 1460 + doe / 36524 - doe / 146096) / 365).
  set (doy := doe - (365 * yoe + yoe / 4 - yoe / 100)).
  set (mp := (5 * doy + 2) / 153).
  assert (0 <= era <= 24) as Hera by (subst era zz; Z.to_euclidean_division_equations; lia).
  assert (0 <= doe <= 146096) as Hdoe by (subst doe era; Z.to_euclidean_division_equations; lia).
  assert (0 <= yoe <= 399) as Hyoe by (subst yoe; Z.to_euclidean_division_equations; lia).
  assert (0 <= doy <= 365) as Hdoy by (subst doy yoe; Z.to_euclidean_division_equations; lia).
  assert (doy = 365 -> (yoe + 1) mod 4 = 0 /\ ((yoe + 1) mod 100 <> 0 \/ yoe = 399)) as Hleap
    by (subst doy yoe; Z.to_euclidean_division_equations; lia).
  assert (0 <= mp <= 11) as Hmp by (subst mp; Z.to_euclidean_division_equations; lia).
  assert (era = 24 -> doe <= 146036) as Hlast by (subst doe zz; lia).
  assert (era = 0 -> 306 <= doe) as Hfirst by (subst doe zz; lia).
  assert (Hd : 1 <= doy - (153 * mp + 2) / 5 + 1 /\
          (mp = 11 -> doy - (153 * mp + 2) / 5 + 1 <= 29 /\
                      (doy - (153 * mp + 2) / 5 + 1 <= 28 \/ doy = 365)) /\
          (mp = 1 \/ mp = 3 \/ mp = 6 \/ mp = 8 -> doy - (153 * mp + 2) / 5 + 1 <= 30) /\
          doy - (153 * mp + 2) / 5 + 1 <= 31)
    by (subst mp; Z.to_euclidean_division_equations; lia).
  pose proof (civil_year_range z Hz) as Hyear.
  unfold civil_from_days, MINYEAR, MAXYEAR in Hyear. cbv zeta in Hyear. cbn [year] in Hyear.
  fold zz era doe yoe doy mp in Hyear.
  clearbody mp doy.
  assert (Hfeb : mp = 11 -> doy = 365 -> is_leap (yoe + era * 400 + 1) = true).
  { intros _ H365. destruct (Hleap H365) as [H4 H100].
    unfold is_leap. apply andb_true_intro. split.
    - apply Z.eqb_eq. revert H4. Z.to_euclidean_division_equations; lia.
    - apply orb_true_intro. destruct H100 as [H100 | ->].
      + left. apply negb_true_iff, Z.eqb_neq. revert H100.
        Z.to_euclidean_division_equations; lia.
      + right. apply Z.eqb_eq. Z.to_euclidean_division_equations; lia. }
  destruct Hd as (Hd1 & Hd2 & Hd3 & Hd4).
  set (dd := doy - (153 * mp + 2) / 5 + 1) in *. clearbody dd.
  revert Hyear.
  destruct (Z.ltb_spec mp 10) as [Hlt|Hge].
  - destruct (Z.leb_spec (mp + 3) 2); [lia|]. intros Hyear.
    unfold days_in_month.
    repeat match goal with
           | |- context [Z.eqb ?a ?b] => destruct (Z.eqb_spec a b)
           end; cbn [orb]; try lia.
    all: repeat (apply andb_true_intro; split); apply Z.leb_le; try lia.
  - destruct (Z.leb_spec (mp - 9) 2); [|lia]. intros Hyear.
    unfold days_in_month.
    repeat match goal with
           | |- context [Z.eqb ?a ?b] => destruct (Z.eqb_spec a b)
           end; cbn [orb]; try lia.
    + assert (mp = 11) as Hmp11 by lia.
      destruct (Hd2 Hmp11) as [H29 [H28 | H365]].
      * destruct (is_leap _); repeat (apply andb_true_intro; split); apply Z.leb_le; lia.
      * rewrite (Hfeb Hmp11 H365).
        repeat (apply andb_true_intro; split); apply Z.leb_le; lia.
Qed.

(** The date found lies that many days after 1970-01-01. *)
Lemma days_from_civil_from_days z : days_from_civil (civil_from_days z) = z.
Proof.
  unfold days_from_civil, civil_from_days. cbv zeta. cbn [year month day].
  set (zz := z + 719468).
  set (era := zz / 146097).
  set (doe := zz - era * 146097).
  set (yoe := (doe - doe / 1460 + doe / 36524 - doe / 146096) / 365).
  set (doy := doe - (365 * yoe + yoe / 4 - yoe / 100)).
  set (mp := (5 * doy + 2) / 153).
  assert (0 <= doe <= 146096) as Hdoe by (subst doe era; Z.to_euclidean_division_equations; lia).
  assert (0 <= yoe <= 399) as Hyoe by (subst yoe; Z.to_euclidean_division_equations; lia).
  assert (0 <= doy <= 365) as Hdoy by (subst doy yoe; Z.to_euclidean_division_equations; lia).
  assert (0 <= mp <= 11) as Hmp by (subst mp; Z.to_euclidean_division_equations; lia).
  destruct (mp <? 10) eqn:E1; [apply Z.ltb_lt in E1 | apply Z.ltb_ge in E1].
  - assert ((mp + 3 <=? 2) = false) as -> by (apply Z.leb_gt; lia).
    replace (mp + 3 - 3) with mp by lia.
    replace ((yoe + era * 400 + 0 - 0) / 400) with era by (Z.to_euclidean_division_equations; lia).
    replace (yoe + era * 400 + 0 - 0 - era * 400) with yoe by lia.
    assert ((153 * mp + 2) / 5 + (doy - (153 * mp + 2) / 5 + 1) - 1 = doy) as -> by lia.
    subst doy doe zz. lia.
  - assert ((mp - 9 <=? 2) = true) as -> by (apply Z.leb_le; lia).
    replace (mp - 9 + 9) with mp by lia.
    replace ((yoe + era * 400 + 1 - 1) / 400) with era by (Z.to_euclidean_division_equations; lia).
    replace (yoe + era * 400 + 1 - 1 - era * 400) with yoe by lia.
    assert ((153 * mp + 2) / 5 + (doy - (153 * mp + 2) / 5 + 1) - 1 = doy) as -> by lia.
    subst doy doe zz. lia.
Qed.

Lemma fromtimestamp_utc_ok ms :
  min_timestamp <= ms <= max_timestamp ->
  exists t, fromtimestamp_utc ms = Ok t /\
    date_of t = civil_from_days (ms / 1000 / 86400) /\
    tz t = Some 0 /\
    0 <= hour t < 24 /\ 0 <= minute t < 60 /\ 0 <= second t < 60 /\
    hour t * 3600 + minute t * 60 + second t = ms / 1000 mod 86400.
Proof.
  unfold min_timestamp, max_timestamp. intros H. unfold fromtimestamp_utc. cbv zeta.
  pose proof (civil_year_range (ms / 1000 / 86400)) as Hy.
  assert (-719162 <= ms / 1000 / 86400 <= 2932896) as Hd
    by (Z.to_euclidean_division_equations; lia).
  specialize (Hy Hd).
  assert ((MINYEAR <=? year (civil_from_days (ms / 1000 / 86400))) &&
          (year (civil_from_days (ms / 1000 / 86400)) <=? MAXYEAR) = true) as ->.
  { apply andb_true_intro. split; apply Z.leb_le; lia. }
  eexists. split; [reflexivity|]. cbn [date_of dt_date tz hour minute second].
  repeat split; try (Z.to_euclidean_division_equations; lia).
Qed.

End Calendar.

(** ** The timestamp of a row *)

Section Timestamp.

Lemma string_app_assoc (a b c : string) : (a +:+ b) +:+ c = a +:+ b +:+ c.
Proof.
  induction a as [|x a IH]; [done|].
  change (String x ((a +:+ b) +:+ c) = String x (a +:+ b +:+ c)).
  by rewrite IH.
Qed.

Lemma strftime_utc t :
  tz t = Some 0 ->
  strftime t =
  (str_date (dt_date t) +:+ "T" +:+ Str.of_Z_pad 2 (hour t) +:+ ":" +:+
   Str.of_Z_pad 2 (minute t) +:+ ":" +:+ Str.of_Z_pad 2 (second t)) +:+ "+0000".
Proof.
  intros Htz. unfold strftime. rewrite Htz.
  change (str_offset (Some 0)) with "+0000".
  by rewrite !string_app_assoc.
Qed.

Lemma stamp_run lib query symbol (r : dict) t :
  timestamp lib r = Ok t ->
  exists r',
    stamp lib query symbol r = Ok r' /\
    r' !! "t" = Some (if intraday (Q._timespan query)
                      then VStr (strftime t) else VDate (date_of t)).
Proof.
  intros Ht. unfold stamp. rewrite Ht. cbn.
  eexists. split; [reflexivity|].
  destruct (intraday _); cbn; destruct (Str.contains _ _);
    rewrite ?(lookup_insert_ne _ "symbol" "t") by done; by rewrite lookup_insert_eq.
Qed.

End Timestamp.

(** C6.  For a row whose raw timestamp [t] is an integer of milliseconds
    that [datetime] can hold, the loop over the rows converts it to the
    date-time of UTC of that instant (a valid date, a time of day, offset
    zero, the same count of seconds from the epoch) and rewrites the entry:
    with a unit of day, week, month, quarter or year it becomes the date
    alone; with a unit of second, minute or hour it becomes the text of the
    date-time, which ends with the offset of UTC, [+0000]. *)
Theorem C6_timestamp (lib : library) (query : Q.t) (symbol : string)
    (r : dict) (ms : Z) :
  r !! "t" = Some (VInt ms) ->
  min_timestamp <= ms <= max_timestamp ->
  exists t r',
    fromtimestamp_utc ms = Ok t /\
    tz t = Some 0 /\
    valid_date (date_of t) = true /\
    0 <= hour t < 24 /\ 0 <= minute t < 60 /\ 0 <= second t < 60 /\
    epoch_seconds t = ms / 1000 /\
    stamp lib query symbol r = Ok r' /\
    (forall unit,
       Q._timespan query = Some unit ->
       unit = "day" \/ unit = "week" \/ unit = "month" \/ unit = "quarter" \/
       unit = "year" ->
       r' !! "t" = Some (VDate (date_of t))) /\
    (forall unit,
       Q._timespan query = Some unit ->
       unit = "second" \/ unit = "minute" \/ unit = "hour" ->
       r' !! "t" = Some (VStr (strftime t)) /\
       exists text, strftime t = text +:+ "+0000").
Proof.
  intros Hr Hms.
  destruct (fromtimestamp_utc_ok ms Hms) as (t & Ht & Hdate & Htz & Hh & Hm & Hs & Hday).
  destruct (stamp_run lib query symbol r t) as (r' & Hstamp & Hr').
  { unfold timestamp. by rewrite Hr. }
  assert (-719162 <= ms / 1000 / 86400 <= 2932896) as Hd.
  { unfold min_timestamp, max_timestamp in Hms.
    Z.to_euclidean_division_equations; lia. }
  exists t, r'.
  split; [done|]. split; [done|].
  split; [rewrite Hdate; by apply civil_from_days_valid|].
  split; [lia|]. split; [lia|]. split; [lia|].
  split.
  { unfold epoch_seconds. rewrite Hdate, days_from_civil_from_days.
    Z.to_euclidean_division_equations; lia. }
  split; [done|]. split.
  - intros unit Hu Hcase. rewrite Hr', Hu.
    by destruct Hcase as [->|[->|[->|[->| ->]]]].
  - intros unit Hu Hcase. split.
    + rewrite Hr', Hu. by destruct Hcase as [->|[->| ->]].
    + eexists. by apply strftime_utc.
Qed.

Lemma C6_timestamp_witness :
  exists t r',
    fromtimestamp_utc Example.midnight = Ok t /\
    tz t = Some 0 /\
    valid_date (date_of t) = true /\
    0 <= hour t < 24 /\ 0 <= minute t < 60 /\ 0 <= second t < 60 /\
    epoch_seconds t = Example.midnight / 1000 /\
    stamp plain (Example.query "BTCUSD" "1h" 1 "hour") "X:BTCUSD"
      (Example.bar Example.midnight) = Ok r' /\
    (forall unit,
       Some "hour" = Some unit ->
       unit = "day" \/ unit = "week" \/ unit = "month" \/ unit = "quarter" \/
       unit = "year" ->
       r' !! "t" = Some (VDate (date_of t))) /\
    (forall unit,
       Some "hour" = Some unit ->
       unit = "second" \/ unit = "minute" \/ unit = "hour" ->
       r' !! "t" = Some (VStr (strftime t)) /\
       exists text, strftime t = text +:+ "+0000").
Proof.
  apply (C6_timestamp plain (Example.query "BTCUSD" "1h" 1 "hour") "X:BTCUSD"
           (Example.bar Example.midnight) Example.midnight).
  - reflexivity.
  - unfold min_timestamp, max_timestamp, Example.midnight. lia.
Defined.

(** The same instant, midnight of 2023-01-01 in UTC, under a daily and
    under an hourly query. *)
Example timestamp_at_midnight :
  (r ← stamp plain (Example.query "BTCUSD" "1d" 1 "day") "X:BTCUSD"
         (Example.bar Example.midnight);
   mret (r !! "t")) = Ok (Some (VDate (Date 2023 1 1))) /\
  (r ← stamp plain (Example.query "BTCUSD" "1h" 1 "hour") "X:BTCUSD"
         (Example.bar Example.midnight);
   mret (r !! "t")) = Ok (Some (VStr "2023-01-01T00:00:00+0000")).
Proof. split; vm_compute; reflexivity. Qed.

(** ** Extraction *)

Section Extraction.

Lemma extends_refl s : extends s s.
Proof. exists []. by rewrite app_nil_r. Qed.

Lemma extends_trans s1 s2 s3 : extends s1 s2 -> extends s2 s3 -> extends s1 s3.
Proof.
  intros [m1 H1] [m2 H2]. exists (m1 ++ m2). by rewrite H2, H1, app_assoc.
Qed.

Lemma http_get_extends address s :
  exists more, requested (http_get address s).2 = requested s ++ address :: more.
Proof. unfold http_get. destruct (pending s); by exists []. Qed.

Lemma while_next_url_extends turns : forall api_key next rows s,
  extends s (while_next_url turns api_key next rows s).2.
Proof.
  induction turns as [|turns IH]; intros api_key next rows s; cbn [while_next_url].
  - destruct next as [u|]; [|apply extends_refl].
    destruct (String.eqb u ""); [apply extends_refl|].
    unfold mbind, M_bind.
    destruct (http_get_extends (u +:+ "&apiKey=" +:+ format id api_key) s) as [m Hm].
    destruct (http_get _ s) as [[b|e] s1]; cbn in *; eexists; exact Hm.
  - destruct next as [u|]; [|apply extends_refl].
    destruct (String.eqb u ""); [apply extends_refl|].
    unfold mbind, M_bind.
    destruct (http_get_extends (u +:+ "&apiKey=" +:+ format id api_key) s) as [m Hm].
    destruct (http_get _ s) as [[b|e] s1]; cbn in *.
    + eapply extends_trans; [eexists; exact Hm | apply IH].
    + eexists; exact Hm.
Qed.

Lemma callback_extends lib query api_key response s :
  extends s (callback lib query api_key response s).2.
Proof.
  unfold callback, mbind, M_bind, lift, gets, mret, M_ret, _warn, modify.
  destruct (url_parts _ !! _); [|apply extends_refl].
  pose proof (while_next_url_extends (length (pending s)) api_key
                (next_url (json response)) (results (json response)) s) as H.
  destruct (while_next_url _ _ _ _ s) as [[rows|e] s1]; [|exact H].
  destruct (traverse _ rows) as [[|r out]|e]; exact H.
Qed.

Lemma amake_request_extends lib query api_key address s :
  exists more,
    requested (amake_request address (callback lib query api_key) s).2
    = requested s ++ address :: more.
Proof.
  unfold amake_request, mbind, M_bind.
  destruct (http_get_extends address s) as [m Hm].
  destruct (http_get address s) as [[b|e] s1]; cbn in *; [|eauto].
  destruct (callback_extends lib query api_key (Response address b) s1) as [m' Hm'].
  exists (m ++ m'). rewrite Hm', Hm. by rewrite <- app_assoc.
Qed.

Lemma amake_requests_total lib query api_key urls : forall s,
  exists rows s',
    amake_requests urls (callback lib query api_key) s = (Ok rows, s') /\
    match urls with
    | [] => s' = s
    | u :: _ => exists more, requested s' = requested s ++ u :: more
    end.
Proof.
  induction urls as [|u urls IH]; intros s; cbn [amake_requests].
  - by exists [], s.
  - destruct (amake_request_extends lib query api_key u s) as [m Hm].
    destruct (amake_request u _ s) as [r s1]. cbn [snd] in Hm.
    set (next := match r with
                 | Ok rows => (rows, s1)
                 | Err _ => ([], (_warn ("Request failed: " +:+ u) s1).2)
                 end).
    assert (requested next.2 = requested s1) as Hn by (subst next; by destruct r).
    destruct next as [rows s2]. cbn [snd] in Hn.
    destruct (IH s2) as (rows' & s3 & H3 & Hlog). rewrite H3. cbn.
    exists (rows ++ rows'), s3. split; [done|].
    destruct urls as [|u' urls'].
    + subst s3. exists m. by rewrite Hn.
    + destruct Hlog as [m' Hm']. exists (m ++ u' :: m').
      rewrite Hm', Hn, Hm. by rewrite <- app_assoc.
Qed.

End Extraction.

(** C5, as amended.  When the key [polygon_api_key] is absent from the
    credentials, extraction does not fail: [aextract_data] puts [None] (a
    mapping without the key) or the empty text (an empty mapping, or no
    mapping) in the place of the key, and the request of the first symbol
    is issued with that address; the stage returns rows and raises
    nothing. *)
Theorem C5_credentials (lib : library) (query : Q.t)
    (credentials : option (gmap string string)) (s : session) :
  (forall c, credentials = Some c -> c !! "polygon_api_key" = None) ->
  exists key first others rows s',
    get_api_key credentials = key /\
    (key = None \/ key = Some "") /\
    Str.split ","%char (Q.symbol query) = first :: others /\
    aextract_data lib query credentials s = (Ok rows, s') /\
    exists more,
      requested s' = requested s ++ request_url query key first :: more.
Proof.
  intros Habsent.
  destruct (split_cons ","%char (Q.symbol query)) as (first & others & Hsplit).
  destruct (amake_requests_total lib query (get_api_key credentials)
              (request_url query (get_api_key credentials) <$>
                 Str.split ","%char (Q.symbol query)) s)
    as (rows & s' & Hrun & Hlog).
  exists (get_api_key credentials), first, others, rows, s'.
  split; [done|]. split.
  { unfold get_api_key. destruct credentials as [c|]; [|by right].
    destruct (bool_decide (c = ∅)); [by right|]. left. by apply Habsent. }
  split; [done|]. split; [exact Hrun|].
  rewrite Hsplit in Hlog. exact Hlog.
Qed.

Lemma C5_credentials_witness :
  exists key first others rows s',
    get_api_key Example.other_key = key /\
    (key = None \/ key = Some "") /\
    Str.split "," "BTCUSD" = first :: others /\
    aextract_data plain (Example.query "BTCUSD" "1d" 1 "day")
      Example.other_key Example.vendor = (Ok rows, s') /\
    exists more,
      requested s' =
      requested Example.vendor ++
      request_url (Example.query "BTCUSD" "1d" 1 "day") key first :: more.
Proof.
  apply (C5_credentials plain (Example.query "BTCUSD" "1d" 1 "day")
           Example.other_key Example.vendor).
  intros c [= <-]. reflexivity.
Defined.

(** C5 as stated fails: with credentials that lack the key, and with empty
    credentials, extraction raises nothing; it requests the vendor with
    [apiKey=None], or with an empty [apiKey], and returns the rows. *)
Lemma C5_counterexample :
  (let '(r, s') :=
     aextract_data plain (Example.query "BTCUSD" "1d" 1 "day")
       Example.other_key Example.vendor in
   (length <$> r) = Ok 3%nat /\
   requested s' =
     ["https://api.polygon.io/v2/aggs/ticker/X:BTCUSD/range/1/day/2023-01-01/2023-01-31?&sort=desc&limit=49999&apiKey=None";
      "https://api.polygon.io/v2/aggs/next/1&apiKey=None";
      "https://api.polygon.io/v2/aggs/next/2&apiKey=None"]) /\
  (let '(r, s') :=
     aextract_data plain (Example.query "BTCUSD" "1d" 1 "day")
       Example.no_key Example.vendor in
   (length <$> r) = Ok 3%nat /\
   requested s' =
     ["https://api.polygon.io/v2/aggs/ticker/X:BTCUSD/range/1/day/2023-01-01/2023-01-31?&sort=desc&limit=49999&apiKey=";
      "https://api.polygon.io/v2/aggs/next/1&apiKey=";
      "https://api.polygon.io/v2/aggs/next/2&apiKey="]).
Proof. split; vm_compute; split; reflexivity. Qed.

(** ** The date of a record *)

(** [date_validate] looks at the hour and at the minute only. *)
Lemma date_validate_midnight lib v t :
  isoparse lib (str lib v) = Some t ->
  EquityHistoricalData.date_validate lib v =
  Ok (if (hour t =? 0) && (minute t =? 0)
      then DateOnly (date_of t) else DateAndTime t).
Proof.
  intros H. unfold EquityHistoricalData.date_validate. rewrite H.
  by destruct ((hour t =? 0) && (minute t =? 0)).
Qed.

(** C7 fails on the code.  A bar of a query by seconds, thirty seconds after
    midnight of 2023-01-01 in UTC: extraction gives it the text
    [2023-01-01T00:00:30+0000], and [date_validate] stores the date alone,
    although the timestamp is not on a day boundary.  The record has lost
    its time of day. *)
Theorem C7_seconds_dropped :
  (r ← stamp plain (Example.query "BTCUSD" "30s" 30 "second") "X:BTCUSD"
         (Example.bar (Example.midnight + 30000));
   mret (r !! "t")) = Ok (Some (VStr "2023-01-01T00:00:30+0000")) /\
  isoparse plain "2023-01-01T00:00:30+0000" =
    Some (DateTime (Date 2023 1 1) 0 0 30 0 (Some 0)) /\
  EquityHistoricalData.date_validate plain (VStr "2023-01-01T00:00:30+0000") =
    Ok (DateOnly (Date 2023 1 1)) /\
  (r ← stamp plain (Example.query "BTCUSD" "30s" 30 "second") "X:BTCUSD"
         (Example.bar (Example.midnight + 30000));
   D.date <$> D.model_validate plain r) = Ok (DateOnly (Date 2023 1 1)).
Proof. repeat split; vm_compute; reflexivity. Qed.

(** * More of the code *)

(** ** The query that [transform_query] returns *)

Section QueryInvariant.

Lemma intervals_timespans unit name :
  Q.intervals unit = Some name -> name ∈ timespans.
Proof.
  unfold Q.intervals, timespans.
  destruct unit as [[] [] [] [] [] [] [] []]; try done;
    intros [= <-]; apply list_elem_of_In; cbn; tauto.
Qed.

Lemma upper_is_upper s : Str.forallb Str.is_upper_char (Str.upper s) = true.
Proof.
  induction s as [|c r IH]; [done|]. cbn. rewrite IH, andb_true_r.
  destruct c as [[] [] [] [] [] [] [] []]; reflexivity.
Qed.

Lemma field_sort_ok arg so :
  Q.field_sort arg = Ok so -> so = "asc" \/ so = "desc".
Proof.
  unfold Q.field_sort. destruct arg as [[]|]; try done; [|intros [= <-]; by right].
  destruct (String.eqb s "asc") eqn:E1; cbn.
  - intros [= <-]. left. by apply String.eqb_eq.
  - destruct (String.eqb s "desc") eqn:E2; [|done].
    intros [= <-]. right. by apply String.eqb_eq.
Qed.

Lemma positive_int_ok n l : Q.positive_int n = Ok l -> l = n /\ 0 < n.
Proof.
  unfold Q.positive_int. destruct (Z.ltb_spec 0 n); [|done]. by intros [= <-].
Qed.

Lemma field_limit_ok lib arg l : Q.field_limit lib arg = Ok l -> 0 < l.
Proof.
  unfold Q.field_limit.
  destruct arg as [v|]; [|intros [= <-]; lia].
  destruct v; try (destruct (lax_int lib _); [|done]);
    intros [-> ?]%positive_int_ok; done.
Qed.

Lemma field_date_set lib v d :
  v <> VNone -> Q.field_date lib (Some v) = Ok d -> exists x, d = Some x.
Proof.
  intros Hv. unfold Q.field_date.
  destruct v; try done; try (destruct (lax_date lib _); [|done]);
    intros [= <-]; eauto.
Qed.

Lemma new_fields lib (kwargs : dict) q :
  Q.new lib kwargs = Ok q ->
  exists s sd ed i so l,
    kwargs !! "symbol" = Some (VStr s) /\
    Q.field_date lib (kwargs !! "start_date") = Ok sd /\
    Q.field_date lib (kwargs !! "end_date") = Ok ed /\
    Q.field_interval (kwargs !! "interval") = Ok i /\
    Q.field_sort (kwargs !! "sort") = Ok so /\
    Q.field_limit lib (kwargs !! "limit") = Ok l /\
    Q.get_api_interval_params (Q.Make (Str.upper s) sd ed i so l None None) = Ok q.
Proof.
  unfold Q.new, Q.field_symbol, EquityHistoricalQueryParams.upper_symbol.
  destruct (kwargs !! "symbol") as [[]|]; try done;
    destruct (Q.field_date lib (kwargs !! "start_date")) as [sd|];
    destruct (Q.field_date lib (kwargs !! "end_date")) as [ed|];
    destruct (Q.field_interval (kwargs !! "interval")) as [i|];
    destruct (Q.field_sort (kwargs !! "sort")) as [so|];
    destruct (Q.field_limit lib (kwargs !! "limit")) as [l|]; try done.
  intros H. by exists s, sd, ed, i, so, l.
Qed.

Lemma interval_params_ok values q :
  Q.get_api_interval_params values = Ok q ->
  exists m unit name,
    python_int (Str.drop_last (Q.interval values)) = Some m /\
    Str.last (Q.interval values) = Some unit /\
    Q.intervals unit = Some name /\
    q = derived values m name.
Proof.
  unfold Q.get_api_interval_params.
  destruct (python_int _) as [m|]; [|done].
  destruct (Str.last _) as [unit|]; [|done].
  destruct (Q.intervals unit) as [name|] eqn:Hn; [|done].
  intros [= <-]. by exists m, unit, name.
Qed.

Lemma default_start_set now (d d1 : dict) :
  default_start now d = Ok d1 ->
  exists v, d1 !! "start_date" = Some v /\ v <> VNone.
Proof.
  unfold default_start, dict_get.
  destruct (d !! "start_date") as [v|] eqn:Hv; cbn.
  - destruct v; cbn; try (intros [= <-]; eauto; fail).
    destruct (minus_one_year now) as [y|]; [|done]. cbn. intros [= <-].
    rewrite lookup_insert_eq. eauto.
  - destruct (minus_one_year now) as [y|]; [|done]. cbn. intros [= <-].
    rewrite lookup_insert_eq. eauto.
Qed.

Lemma default_end_set now (d : dict) :
  exists v, default_end now d !! "end_date" = Some v /\ v <> VNone.
Proof.
  unfold default_end, dict_get.
  destruct (d !! "end_date") as [v|] eqn:Hv; cbn.
  - destruct v; cbn; rewrite ?lookup_insert_eq, ?Hv; eauto.
  - rewrite lookup_insert_eq. eauto.
Qed.

Lemma strip_symbol_dash_free (d d' : dict) s :
  strip_symbol d = Ok d' -> d' !! "symbol" = Some (VStr s) ->
  Str.contains "-" s = false.
Proof.
  unfold strip_symbol, dict_get.
  destruct (d !! "symbol") as [v|] eqn:Hv; cbn.
  - destruct v as [|n|f|x|y]; cbn.
    + intros [= <-]. by rewrite Hv.
    + destruct (negb _); cbn; [done|]. intros [= <-]. by rewrite Hv.
    + destruct (negb _); cbn; [done|]. intros [= <-]. by rewrite Hv.
    + destruct (String.eqb_spec x ""); cbn.
      * intros [= <-]. rewrite Hv. by intros [= <-]; subst.
      * intros [= <-]. rewrite lookup_insert_eq. intros [= <-].
        apply replace_dash_free.
    + done.
  - intros [= <-]. by rewrite Hv.
Qed.

Lemma default_start_kept now (d : dict) :
  is_None (dict_get d "start_date") = false -> default_start now d = Ok d.
Proof. unfold default_start. by intros ->. Qed.

Lemma default_end_again now (d : dict) :
  default_end now (default_end now d) = default_end now d.
Proof.
  destruct (default_end_set now d) as (v & Hv & Hn).
  unfold default_end at 1. unfold dict_get. rewrite Hv. cbn. by destruct v.
Qed.

Lemma strip_symbol_again (d d' : dict) :
  strip_symbol d = Ok d' -> strip_symbol d' = Ok d'.
Proof.
  unfold strip_symbol, dict_get.
  destruct (d !! "symbol") as [v|] eqn:Hv; cbn.
  - destruct v as [|n|f|x|y]; cbn.
    + intros [= <-]. by rewrite Hv.
    + destruct (negb _) eqn:E; cbn; [done|]. intros [= <-]. rewrite Hv. cbn. by rewrite E.
    + destruct (negb _) eqn:E; cbn; [done|]. intros [= <-]. rewrite Hv. cbn. by rewrite E.
    + destruct (String.eqb_spec x ""); cbn.
      * intros [= <-]. rewrite Hv. cbn. subst. done.
      * intros [= <-]. rewrite lookup_insert_eq. cbn.
        destruct (String.eqb_spec (Str.replace "-" "" x) ""); cbn; [done|].
        rewrite (replace_dash_id (Str.replace "-" "" x)) by apply replace_dash_free.
        by rewrite insert_insert_eq.
    + done.
  - intros [= <-]. by rewrite Hv.
Qed.

Lemma strip_symbol_err (d : dict) e :
  strip_symbol d = Err e ->
  (e = AttributeError \/ e = TypeError) /\
  forall s, d !! "symbol" <> Some (VStr s).
Proof.
  unfold strip_symbol, dict_get.
  destruct (d !! "symbol") as [v|] eqn:Hv; cbn; [|done].
  destruct v as [|n|f|x|y]; cbn; try done.
  - destruct (negb _); cbn; [|done]. intros [= <-]. split; [by left|done].
  - destruct (negb _); cbn; [|done]. intros [= <-]. split; [by left|done].
  - by destruct (negb _).
  - intros [= <-]. split; [by right|done].
Qed.

Lemma new_err lib (kwargs : dict) e :
  Q.new lib kwargs = Err e ->
  e = ValidationError \/ e = KeyError \/
  (e = AttributeError /\ forall s, kwargs !! "symbol" <> Some (VStr s)).
Proof.
  unfold Q.new, Q.field_symbol, EquityHistoricalQueryParams.upper_symbol.
  destruct (kwargs !! "symbol") as [[]|]; try (intros [= <-]; right; right; done);
    destruct (Q.field_date lib (kwargs !! "start_date")) as [sd|];
    destruct (Q.field_date lib (kwargs !! "end_date")) as [ed|];
    destruct (Q.field_interval (kwargs !! "interval")) as [i|];
    destruct (Q.field_sort (kwargs !! "sort")) as [so|];
    destruct (Q.field_limit lib (kwargs !! "limit")) as [l|];
    try (intros [= <-]; by left).
  intros H.
  pose proof (interval_params_no_IndexError
                (Q.Make (Str.upper s) sd ed i so l None None)) as Hno.
  unfold Q.get_api_interval_params in H, Hno.
  destruct (python_int _); [|injection H as <-; by left].
  destruct (Str.last _); [|by rewrite H in Hno].
  destruct (Q.intervals _); [done|]. injection H as <-. right. by left.
Qed.

End QueryInvariant.

(** X1.  Every query that [transform_query] returns is complete: both
    dates are set (a missing one was defaulted), the symbol has no dash and
    no lower-case letter, the sort order is [asc] or [desc], the limit is
    positive, and both private attributes are set, the timespan being one
    of the eight names of the table.  So no field of the address that
    [aextract_data] builds from such a query prints as [None]. *)
Theorem X1_query_invariant (lib : library) (now : date) (params : loc)
    (h : heap) (d : dict) (q : Q.t) :
  h !! params = Some d ->
  (transform_query lib now params h).1 = Ok q ->
  Q.start_date q <> None /\ Q.end_date q <> None /\
  Str.contains "-" (Q.symbol q) = false /\
  Str.forallb Str.is_upper_char (Q.symbol q) = true /\
  (Q.sort q = "asc" \/ Q.sort q = "desc") /\
  0 < Q.limit q /\
  exists m name,
    Q._multiplier q = Some m /\ Q._timespan q = Some name /\
    name ∈ timespans.
Proof.
  intros Hd. rewrite (transform_query_run _ _ _ _ _ Hd).
  destruct (default_start now d) as [d1|] eqn:H1; [|done].
  destruct (strip_symbol (default_end now d1)) as [d3|] eqn:H3; [|done].
  cbn [fst]. intros Hq.
  destruct (new_fields _ _ _ Hq)
    as (s & sd & ed & i & so & l & Hs & Hsd & Hed & Hi & Hso & Hl & Hv).
  destruct (interval_params_ok _ _ Hv) as (m & unit & name & Hm & Hu & Hn & ->).
  cbn.
  destruct (default_start_set _ _ _ H1) as (v1 & Hv1 & Hn1).
  destruct (default_end_set now d1) as (v2 & Hv2 & Hn2).
  rewrite (strip_symbol_lookup _ _ _ H3) in Hsd by done.
  rewrite (default_end_lookup _ _ "start_date") in Hsd by done.
  rewrite Hv1 in Hsd.
  rewrite (strip_symbol_lookup _ _ _ H3) in Hed by done.
  rewrite Hv2 in Hed.
  destruct (field_date_set _ _ _ Hn1 Hsd) as [x ->].
  destruct (field_date_set _ _ _ Hn2 Hed) as [y ->].
  split; [done|]. split; [done|].
  split; [rewrite upper_dash; by eapply strip_symbol_dash_free|].
  split; [apply upper_is_upper|].
  split; [by eapply field_sort_ok|].
  split; [by eapply field_limit_ok|].
  exists m, name. split; [done|]. split; [done|]. by eapply intervals_timespans.
Qed.

Lemma X1_query_invariant_witness :
  Q.start_date (Example.query "BTCUSD" "1d" 1 "day") <> None /\
  Q.end_date (Example.query "BTCUSD" "1d" 1 "day") <> None /\
  Str.contains "-" (Q.symbol (Example.query "BTCUSD" "1d" 1 "day")) = false /\
  Str.forallb Str.is_upper_char
    (Q.symbol (Example.query "BTCUSD" "1d" 1 "day")) = true /\
  (Q.sort (Example.query "BTCUSD" "1d" 1 "day") = "asc" \/
   Q.sort (Example.query "BTCUSD" "1d" 1 "day") = "desc") /\
  0 < Q.limit (Example.query "BTCUSD" "1d" 1 "day") /\
  exists m name,
    Q._multiplier (Example.query "BTCUSD" "1d" 1 "day") = Some m /\
    Q._timespan (Example.query "BTCUSD" "1d" 1 "day") = Some name /\
    name ∈ timespans.
Proof.
  apply (X1_query_invariant plain Example.today Example.caller
           (Example.store Example.explicit_dates) Example.explicit_dates).
  - reflexivity.
  - vm_compute. reflexivity.
Defined.

(** X2.  [transform_query] is idempotent: a second call with the same
    dictionary (as the first call left it) and the same clock neither
    changes the dictionary again nor gives another outcome, be it a query
    or an exception. *)
Theorem X2_transform_query_idempotent (lib : library) (now : date)
    (params : loc) (h : heap) (d : dict) :
  h !! params = Some d ->
  transform_query lib now params (transform_query lib now params h).2 =
  transform_query lib now params h.
Proof.
  intros Hd. rewrite (transform_query_run _ _ _ _ _ Hd).
  destruct (default_start now d) as [d1|e1] eqn:H1.
  2: { cbn [snd]. by rewrite (transform_query_run _ _ _ _ _ Hd), H1. }
  destruct (strip_symbol (default_end now d1)) as [d3|e3] eqn:H3; cbn [snd].
  - rewrite (transform_query_run _ _ _ _ d3) by apply lookup_insert_eq.
    assert (H1' : default_start now d3 = Ok d3).
    { apply default_start_kept.
      destruct (default_start_set _ _ _ H1) as (v & Hv & Hn).
      unfold dict_get. rewrite (strip_symbol_lookup _ _ _ H3) by done.
      rewrite default_end_lookup by done. rewrite Hv. by destruct v. }
    rewrite H1'.
    assert (H2' : default_end now d3 = d3).
    { destruct (default_end_set now d1) as (v & Hv & Hn).
      unfold default_end, dict_get. rewrite (strip_symbol_lookup _ _ _ H3) by done.
      rewrite Hv. by destruct v. }
    rewrite H2', (strip_symbol_again _ _ H3). by rewrite insert_insert_eq.
  - rewrite (transform_query_run _ _ _ _ (default_end now d1))
      by apply lookup_insert_eq.
    assert (H1' : default_start now (default_end now d1) = Ok (default_end now d1)).
    { apply default_start_kept.
      destruct (default_start_set _ _ _ H1) as (v & Hv & Hn).
      unfold dict_get. rewrite default_end_lookup by done. rewrite Hv. by destruct v. }
    rewrite H1', default_end_again, H3. by rewrite insert_insert_eq.
Qed.

Lemma X2_transform_query_idempotent_witness :
  transform_query plain Example.today Example.caller
    (transform_query plain Example.today Example.caller
       (Example.store Example.no_dates)).2 =
  transform_query plain Example.today Example.caller
    (Example.store Example.no_dates).
Proof.
  apply (X2_transform_query_idempotent plain Example.today Example.caller
           (Example.store Example.no_dates) Example.no_dates).
  reflexivity.
Defined.

(** X3.  When the dictionary holds both dates, the clock plays no part:
    whatever [datetime.now()] gives, the outcome and the dictionary after
    the call are the same. *)
Theorem X3_explicit_dates_ignore_clock (lib : library) (now now' : date)
    (params : loc) (h : heap) (d : dict) :
  h !! params = Some d ->
  is_None (dict_get d "start_date") = false ->
  is_None (dict_get d "end_date") = false ->
  transform_query lib now params h = transform_query lib now' params h.
Proof.
  intros Hd Hs He. rewrite !(transform_query_run _ _ _ _ _ Hd).
  rewrite !default_start_kept by done.
  unfold default_end. by rewrite He.
Qed.

Lemma X3_explicit_dates_ignore_clock_witness :
  transform_query plain Example.today Example.caller
    (Example.store Example.explicit_dates) =
  transform_query plain (Date 1999 12 31) Example.caller
    (Example.store Example.explicit_dates).
Proof.
  apply (X3_explicit_dates_ignore_clock plain Example.today (Date 1999 12 31)
           Example.caller (Example.store Example.explicit_dates)
           Example.explicit_dates); reflexivity.
Defined.

(** X4.  The exceptions that leave [transform_query] are these and no
    others: a ValueError when the start date is to be defaulted and the
    clock stands in the first year of the calendar; an AttributeError or a
    TypeError when the symbol is no text; a KeyError (from the table of the
    units); and pydantic's ValidationError.  The IndexError of
    [interval[-1]] is never among them. *)
Theorem X4_transform_query_errors (lib : library) (now : date) (params : loc)
    (h : heap) (d : dict) (e : exn) :
  h !! params = Some d ->
  (transform_query lib now params h).1 = Err e ->
  (e = ValueError /\ year now <= MINYEAR /\
   is_None (dict_get d "start_date") = true) \/
  ((e = AttributeError \/ e = TypeError) /\
   forall s, d !! "symbol" <> Some (VStr s)) \/
  e = KeyError \/ e = ValidationError.
Proof.
  intros Hd. rewrite (transform_query_run _ _ _ _ _ Hd).
  destruct (default_start now d) as [d1|e1] eqn:H1.
  - assert (Hsym : default_end now d1 !! "symbol" = d !! "symbol").
    { rewrite default_end_lookup by done.
      by rewrite (default_start_lookup _ _ _ _ H1). }
    destruct (strip_symbol (default_end now d1)) as [d3|e3] eqn:H3; cbn [fst].
    + intros [->|[->|[-> Hno]]]%new_err; [by right; right; right|by right; right; left|].
      right. left. split; [by left|]. intros s Hs.
      rewrite <- Hsym in Hs.
      destruct (strip_symbol_text _ _ Hs) as (d3' & H3' & Hs').
      rewrite H3 in H3'. injection H3' as <-. by apply Hno in Hs'.
    + intros [= <-]. right. left.
      destruct (strip_symbol_err _ _ H3) as [He Hno].
      split; [done|]. intros s Hs. rewrite <- Hsym in Hs. by apply Hno in Hs.
  - cbn [fst]. intros [= <-]. left.
    unfold default_start in H1.
    destruct (is_None (dict_get d "start_date")); [|done].
    unfold minus_one_year in H1. cbv zeta in H1.
    destruct (Z.leb_spec MINYEAR (year now - 1)); [done|].
    injection H1 as <-. split; [done|]. split; [lia|done].
Qed.

Lemma X4_transform_query_errors_witness :
  (AttributeError = ValueError /\ year Example.today <= MINYEAR /\
   is_None (dict_get Example.numeric_symbol "start_date") = true) \/
  ((AttributeError = AttributeError \/ AttributeError = TypeError) /\
   forall s, Example.numeric_symbol !! "symbol" <> Some (VStr s)) \/
  AttributeError = KeyError \/ AttributeError = ValidationError.
Proof.
  apply (X4_transform_query_errors plain Example.today Example.caller
           (Example.store Example.numeric_symbol) Example.numeric_symbol).
  - reflexivity.
  - vm_compute. reflexivity.
Defined.

(** X17.  [transform_query] fails whenever the dictionary holds a [limit]
    that is an integer of zero or below: with pydantic's ValidationError
    when the symbol is a text or absent (and the clock stands after the
    first year of the calendar), and the pipeline then ends with that
    failure while the session is as it was: no request has been made. *)
Theorem X17_limit_rejected (lib : library) (now : date) (params : loc)
    (credentials : option (gmap string string)) (h : heap) (s : session)
    (d : dict) (n : Z) :
  h !! params = Some d ->
  d !! "limit" = Some (VInt n) ->
  n <= 0 ->
  exists e h',
    transform_query lib now params h = (Err e, h') /\
    fetch_data lib now params credentials h s = (Err e, h', s) /\
    (MINYEAR < year now ->
     (forall v, d !! "symbol" = Some v -> exists t, v = VStr t) ->
     e = ValidationError).
Proof.
  intros Hd Hl Hn. exact (limit_rejected lib now params credentials h s d n Hd Hl Hn).
Qed.

Lemma X17_limit_rejected_witness :
  exists e h',
    transform_query plain Example.today Example.caller
      (Example.store Example.zero_limit) = (Err e, h') /\
    fetch_data plain Example.today Example.caller None
      (Example.store Example.zero_limit) Example.vendor
      = (Err e, h', Example.vendor) /\
    (MINYEAR < year Example.today ->
     (forall v, Example.zero_limit !! "symbol" = Some v -> exists t, v = VStr t) ->
     e = ValidationError).
Proof.
  apply (X17_limit_rejected plain Example.today Example.caller None
           (Example.store Example.zero_limit) Example.vendor
           Example.zero_limit 0).
  - reflexivity.
  - reflexivity.
  - lia.
Defined.

(** ** The rows that the callback returns *)

Section Rows.

Lemma civil_year_low days :
  days < -719162 -> year (civil_from_days days) < MINYEAR.
Proof.
  intros H. unfold civil_from_days, MINYEAR. cbv zeta. cbn [year].
  destruct (_ <? 10) eqn:E1; destruct (_ <=? 2) eqn:E2;
    [apply Z.ltb_lt in E1 | apply Z.ltb_lt in E1 | apply Z.ltb_ge in E1 | apply Z.ltb_ge in E1];
    [apply Z.leb_le in E2 | apply Z.leb_gt in E2 | apply Z.leb_le in E2 | apply Z.leb_gt in E2];
    revert E1 E2.
  all: Z.to_euclidean_division_equations; lia.
Qed.

Lemma civil_year_high days :
  2932896 < days -> MAXYEAR < year (civil_from_days days).
Proof.
  intros H. unfold civil_from_days, MAXYEAR. cbv zeta. cbn [year].
  destruct (_ <? 10) eqn:E1; destruct (_ <=? 2) eqn:E2;
    [apply Z.ltb_lt in E1 | apply Z.ltb_lt in E1 | apply Z.ltb_ge in E1 | apply Z.ltb_ge in E1];
    [apply Z.leb_le in E2 | apply Z.leb_gt in E2 | apply Z.leb_le in E2 | apply Z.leb_gt in E2];
    revert E1 E2.
  all: Z.to_euclidean_division_equations; lia.
Qed.

Lemma fromtimestamp_utc_range ms :
  ms < min_timestamp \/ max_timestamp < ms ->
  is_ok (fromtimestamp_utc ms) = false.
Proof.
  unfold min_timestamp, max_timestamp. intros H. unfold fromtimestamp_utc. cbv zeta.
  assert (ms / 1000 / 86400 < -719162 \/ 2932896 < ms / 1000 / 86400) as [Hd|Hd]
    by (Z.to_euclidean_division_equations; lia).
  - apply civil_year_low in Hd.
    assert ((MINYEAR <=? year (civil_from_days (ms / 1000 / 86400))) = false) as ->
      by (apply Z.leb_gt; lia). done.
  - apply civil_year_high in Hd.
    assert ((year (civil_from_days (ms / 1000 / 86400)) <=? MAXYEAR) = false) as ->
      by (apply Z.leb_gt; lia). by rewrite andb_false_r.
Qed.

Lemma stamp_lookup lib query part (r r' : dict) k :
  stamp lib query part r = Ok r' -> k <> "t" -> k <> "symbol" ->
  r' !! k = r !! k.
Proof.
  unfold stamp. destruct (timestamp lib r) as [t|]; [|done]. cbn.
  intros [= <-] H1 H2.
  destruct (negb _); destruct (Str.contains _ _);
    by rewrite ?lookup_insert_ne by done.
Qed.

Lemma stamp_symbol lib query part (r r' : dict) :
  stamp lib query part r = Ok r' ->
  r' !! "symbol" =
    (if Str.contains "," (Q.symbol query)
     then Some (VStr (Str.replace "X:" "" part))
     else r !! "symbol").
Proof.
  unfold stamp. destruct (timestamp lib r) as [t|]; [|done]. cbn.
  intros [= <-].
  destruct (negb _); destruct (Str.contains _ _);
    by rewrite ?lookup_insert_eq, ?lookup_insert_ne by done.
Qed.

Lemma traverse_first_err {A B} (f : A -> result B) xs e :
  traverse f xs = Err e ->
  exists pre x post,
    xs = pre ++ x :: post /\
    Forall (fun a => exists b, f a = Ok b) pre /\
    f x = Err e.
Proof.
  induction xs as [|a xs IH]; cbn; [done|].
  destruct (f a) as [b|e'] eqn:Ha.
  - destruct (traverse f xs) as [ys|e'] eqn:Hxs; [done|]. intros [= ->].
    destruct (IH eq_refl) as (pre & x & post & -> & Hpre & Hx).
    exists (a :: pre), x, post. split; [done|]. split; [|done].
    constructor; eauto.
  - intros [= ->]. exists [], a, xs. split; [done|]. split; [constructor|done].
Qed.

Lemma while_next_url_warned turns : forall api_key next rows s,
  warned (while_next_url turns api_key next rows s).2 = warned s.
Proof.
  induction turns as [|n IH]; intros api_key next rows s; cbn;
    destruct next as [u|]; try done; destruct (String.eqb u ""); try done;
    unfold mbind, M_bind, http_get; destruct (pending s); try done.
  cbv beta iota. by rewrite IH.
Qed.

End Rows.

(** X5.  An integer timestamp converts exactly when it lies between the
    first and the last millisecond that [datetime] holds (years 1 to 9999);
    outside of them line 153 raises and the row is not stamped. *)
Theorem X5_timestamp_range (lib : library) (r : dict) (ms : Z) :
  r !! "t" = Some (VInt ms) ->
  (is_ok (timestamp lib r) = true <-> (min_timestamp <= ms <= max_timestamp)).
Proof.
  intros Ht. unfold timestamp. rewrite Ht.
  destruct (Z_le_dec min_timestamp ms) as [H1|H1];
    [destruct (Z_le_dec ms max_timestamp) as [H2|H2]|].
  - destruct (fromtimestamp_utc_ok ms) as (t & -> & _); [done|]. done.
  - rewrite fromtimestamp_utc_range by lia. split; [done|lia].
  - rewrite fromtimestamp_utc_range by lia. split; [done|lia].
Qed.

Lemma X5_timestamp_range_witness :
  is_ok (timestamp plain (Example.bar Example.midnight)) = true <->
  (min_timestamp <= Example.midnight <= max_timestamp).
Proof.
  apply (X5_timestamp_range plain (Example.bar Example.midnight) Example.midnight).
  reflexivity.
Defined.

(** X6.  The loop over the rows touches two entries of a row and no
    other: [t], and [symbol].  The entry [symbol] is written exactly when
    the symbol of the query holds a comma, and is then the fifth part of
    the address of the response without its prefix [X:]; under a query of
    one symbol the entry is left as the vendor sent it (absent, as a
    rule). *)
Theorem X6_stamp_frame (lib : library) (query : Q.t) (part : string)
    (r : dict) (t : datetime) :
  timestamp lib r = Ok t ->
  exists r',
    stamp lib query part r = Ok r' /\
    (forall k, k <> "t" -> k <> "symbol" -> r' !! k = r !! k) /\
    r' !! "symbol" =
      (if Str.contains "," (Q.symbol query)
       then Some (VStr (Str.replace "X:" "" part))
       else r !! "symbol").
Proof.
  intros Ht. destruct (stamp_run lib query part r t Ht) as (r' & Hr' & _).
  exists r'. split; [done|]. split.
  - intros k H1 H2. by eapply stamp_lookup.
  - by eapply stamp_symbol.
Qed.

Lemma X6_stamp_frame_witness :
  exists r',
    stamp plain (Example.query "BTCUSD,ETHUSD" "1d" 1 "day") "X:ETHUSD"
      (Example.bar Example.midnight) = Ok r' /\
    (forall k, k <> "t" -> k <> "symbol" ->
       r' !! k = Example.bar Example.midnight !! k) /\
    r' !! "symbol" =
      (if Str.contains "," (Q.symbol (Example.query "BTCUSD,ETHUSD" "1d" 1 "day"))
       then Some (VStr (Str.replace "X:" "" "X:ETHUSD"))
       else Example.bar Example.midnight !! "symbol").
Proof.
  apply (X6_stamp_frame plain (Example.query "BTCUSD,ETHUSD" "1d" 1 "day")
           "X:ETHUSD" (Example.bar Example.midnight)
           (DateTime (Date 2023 1 1) 0 0 0 0 (Some 0))).
  vm_compute. reflexivity.
Defined.

(** X7.  The callback warns exactly when the pages of its symbol hold no
    row at all: it then returns the empty list and emits one warning,
    [Symbol Error: No data found for] and the fifth part of the address
    without [X:].  When there is a row it emits no warning, and what it
    returns, if it returns, has one row for each row of the pages. *)
Theorem X7_callback_warning (lib : library) (query : Q.t)
    (api_key : option string) (resp : response) (part : string)
    (s s1 : session) (rows : list dict) :
  url_parts (url resp) !! 4%nat = Some part ->
  while_next_url (length (pending s)) api_key
    (next_url (json resp)) (results (json resp)) s = (Ok rows, s1) ->
  exists out s',
    callback lib query api_key resp s = (out, s') /\
    pending s' = pending s1 /\ requested s' = requested s1 /\
    (rows = [] ->
       out = Ok [] /\
       warned s' = warned s ++ ["Symbol Error: No data found for " +:+
                                Str.replace "X:" "" part]) /\
    (rows <> [] ->
       out <> Ok [] /\ warned s' = warned s /\
       forall stamped, out = Ok stamped -> length stamped = length rows).
Proof.
  intros Hpart Hloop. destruct resp as [address first]. cbn [url json] in *.
  rewrite (callback_run _ _ _ _ _ _ _ _ _ Hpart Hloop).
  pose proof (while_next_url_warned (length (pending s)) api_key
                (next_url first) (results first) s) as Hw.
  rewrite Hloop in Hw. cbn [snd] in Hw.
  eexists _, _. split; [reflexivity|].
  destruct (traverse (stamp lib query part) rows) as [out|e] eqn:Hout.
  - apply traverse_ok in Hout. pose proof (Forall2_length _ _ _ Hout) as Hlen.
    destruct out as [|r' out]; cbn [pending requested warned].
    + split; [done|]. split; [done|]. split.
      * intros _. by rewrite Hw.
      * intros Hne. destruct rows; done.
    + split; [done|]. split; [done|]. split.
      * intros ->. done.
      * intros _. split; [done|]. split; [done|]. intros ? [= <-]. done.
  - split; [done|]. split; [done|]. split.
    + intros ->. done.
    + intros _. split; [done|]. split; [done|]. done.
Qed.

Lemma X7_callback_warning_witness :
  exists out s',
    callback plain (Example.query "BTCUSD" "1d" 1 "day") (Some "k")
      (Response Example.address Example.no_data) Example.idle = (out, s') /\
    pending s' = pending Example.idle /\
    requested s' = requested Example.idle /\
    (([] : list dict) = [] ->
       out = Ok [] /\
       warned s' = warned Example.idle ++
                   ["Symbol Error: No data found for " +:+
                    Str.replace "X:" "" "X:BTCUSD"]) /\
    (([] : list dict) <> [] ->
       out <> Ok [] /\ warned s' = warned Example.idle /\
       forall stamped, out = Ok stamped -> length stamped = length ([] : list dict)).
Proof.
  apply (X7_callback_warning plain (Example.query "BTCUSD" "1d" 1 "day")
           (Some "k") (Response Example.address Example.no_data) "X:BTCUSD"
           Example.idle Example.idle []).
  - vm_compute. reflexivity.
  - reflexivity.
Defined.

(** X8.  One row whose timestamp does not convert (the entry [t] is
    missing, is no number, or lies outside of what [datetime] holds) makes
    the callback raise: none of the rows of the symbol is returned, also
    not the good ones, and no warning of missing data is emitted.  The
    exception is the one of the first such row in the order of the pages
    (every row before it converts); the requests of all pages have been
    made by then. *)
Theorem X8_callback_bad_row (lib : library) (query : Q.t)
    (api_key : option string) (resp : response) (part : string)
    (s s1 : session) (rows : list dict) (r : dict) :
  url_parts (url resp) !! 4%nat = Some part ->
  while_next_url (length (pending s)) api_key
    (next_url (json resp)) (results (json resp)) s = (Ok rows, s1) ->
  r ∈ rows ->
  is_ok (timestamp lib r) = false ->
  exists e good r0 rest,
    rows = good ++ r0 :: rest /\
    Forall (fun row => is_ok (timestamp lib row) = true) good /\
    timestamp lib r0 = Err e /\
    callback lib query api_key resp s = (Err e, s1).
Proof.
  intros Hpart Hloop Hr Hbad. destruct resp as [address first]. cbn [url json] in *.
  rewrite (callback_run _ _ _ _ _ _ _ _ _ Hpart Hloop).
  destruct (traverse_some_err (stamp lib query part) rows) as [e He].
  { apply Exists_exists. exists r. split; [done|].
    unfold stamp. destruct (timestamp lib r) as [t|e]; [done|]. eauto. }
  rewrite He.
  destruct (traverse_first_err _ _ _ He) as (good & r0 & rest & -> & Hgood & H0).
  exists e, good, r0, rest. split; [done|]. split; [|split; [|done]].
  - eapply Forall_impl; [exact Hgood|]. intros row [row' Hrow].
    unfold stamp in Hrow. by destruct (timestamp lib row).
  - unfold stamp in H0. destruct (timestamp lib r0); cbn in H0; [done|].
    by injection H0 as ->.
Qed.

Lemma X8_callback_bad_row_witness :
  exists e good r0 rest,
    [Example.bar Example.midnight; Example.undated] = good ++ r0 :: rest /\
    Forall (fun row => is_ok (timestamp plain row) = true) good /\
    timestamp plain r0 = Err e /\
    callback plain (Example.query "BTCUSD" "1d" 1 "day") (Some "k")
      (Response Example.address Example.mixed) Example.idle
      = (Err e, Example.idle).
Proof.
  apply (X8_callback_bad_row plain (Example.query "BTCUSD" "1d" 1 "day")
           (Some "k") (Response Example.address Example.mixed) "X:BTCUSD"
           Example.idle Example.idle
           [Example.bar Example.midnight; Example.undated] Example.undated).
  - vm_compute. reflexivity.
  - reflexivity.
  - apply list_elem_of_further, list_elem_of_here.
  - reflexivity.
Defined.

(** ** The addresses and the tickers *)

Section Tickers.

Lemma upper_char_unreserved c : unreserved (Str.upper_char c) = unreserved c.
Proof. by destruct c as [[] [] [] [] [] [] [] []]. Qed.

Lemma plain_ticker_upper s : plain_ticker (Str.upper s) = plain_ticker s.
Proof.
  unfold plain_ticker. induction s as [|c r IH]; [done|].
  cbn [Str.upper Str.forallb]. by rewrite upper_char_unreserved, IH.
Qed.

Lemma plain_ticker_contains s sep :
  plain_ticker s = true -> unreserved sep = false -> Str.contains sep s = false.
Proof.
  unfold plain_ticker. intros Hs Hsep. induction s as [|c r IH]; [done|].
  cbn [Str.forallb Str.contains] in *. apply andb_true_iff in Hs as [Hc Hr].
  destruct (Ascii.eqb_spec c sep) as [->|]; [congruence|]. by apply IH.
Qed.

Lemma unsafe_reserved c : is_unsafe c = true -> unreserved c = false.
Proof. by destruct c as [[] [] [] [] [] [] [] []]. Qed.

Lemma remove_unsafe_plain s : plain_ticker s = true -> remove_unsafe s = s.
Proof.
  unfold plain_ticker. induction s as [|c r IH]; [done|].
  cbn [Str.forallb remove_unsafe]. intros [Hc Hr]%andb_true_iff.
  destruct (is_unsafe c) eqn:E; [apply unsafe_reserved in E; congruence|].
  by rewrite (IH Hr).
Qed.

Lemma split_free sep s : Str.contains sep s = false -> Str.split sep s = [s].
Proof.
  induction s as [|c r IH]; [done|]. cbn.
  destruct (Ascii.eqb c sep); [done|]. intros H. by rewrite (IH H).
Qed.

Lemma split_sep sep s :
  Str.split sep (String sep s) = "" :: Str.split sep s.
Proof. cbn [Str.split]. by rewrite Ascii.eqb_refl. Qed.

Lemma string_app_nil_r (s : string) : s +:+ "" = s.
Proof.
  induction s as [|c r IH]; [done|].
  change (String c (r +:+ "") = String c r). by rewrite IH.
Qed.

Lemma contains_app sep a b :
  Str.contains sep (a +:+ b) = Str.contains sep a || Str.contains sep b.
Proof.
  induction a as [|c r IH]; [done|].
  change (String c r +:+ b) with (String c (r +:+ b)). cbn.
  destruct (Ascii.eqb c sep); [done|]. apply IH.
Qed.

Lemma prefix_X_colon s :
  String.prefix "X:" s = true -> Str.contains ":" s = true.
Proof.
  destruct s as [|c [|c' r]]; cbn [String.prefix]; try done.
  - by destruct (ascii_dec "X" c).
  - destruct (ascii_dec "X" c) as [<-|]; [|done].
    destruct (ascii_dec ":" c') as [<-|]; done.
Qed.

Lemma replace_prefix_free s :
  Str.contains ":" s = false -> Str.replace "X:" "" s = s.
Proof.
  unfold Str.replace.
  induction s as [|c r IH]; [done|]. intros H.
  cbn [Str.replace_go].
  destruct (String.prefix "X:" (String c r)) eqn:E.
  - apply prefix_X_colon in E. congruence.
  - rewrite IH; [done|]. cbn in H. by destruct (Ascii.eqb c ":").
Qed.

Lemma replace_prefix_ticker s :
  Str.contains ":" s = false -> Str.replace "X:" "" ("X:" +:+ s) = s.
Proof.
  intros H. unfold Str.replace.
  change ("X:" +:+ s) with (String "X" (String ":" s)).
  cbn. destruct s as [|c r]; [done|].
  cbn in H. destruct (Ascii.eqb_spec c ":"); [done|].
  change (Str.replace_go "X:" "" 0 (String c r)) with (Str.replace "X:" "" (String c r)).
  apply replace_prefix_free. cbn. by destruct (Ascii.eqb_spec c ":").
Qed.

Lemma request_url_ticker query api_key symbol :
  plain_ticker symbol = true ->
  url_parts (request_url query api_key symbol) !! 4%nat =
  Some ("X:" +:+ Str.upper symbol).
Proof.
  intros Hs. rewrite <- plain_ticker_upper in Hs.
  unfold request_url.
  set (U := Str.upper symbol) in *.
  set (Z0 := format Str.of_Z _ +:+ _).
  unfold url_parts, url_path.
  rewrite (remove_unsafe_app "https://api.polygon.io/v2/aggs/ticker/"),
    (remove_unsafe_app "X:"), (remove_unsafe_app U), (remove_unsafe_app "/range/").
  rewrite (remove_unsafe_plain U) by done.
  assert (remove_unsafe "https://api.polygon.io/v2/aggs/ticker/" =
          "https://api.polygon.io/v2/aggs/ticker/") as -> by reflexivity.
  change (remove_unsafe "X:") with "X:".
  change (remove_unsafe "/range/") with "/range/".
  set (Z := remove_unsafe Z0).
  rewrite (hd_split_app "?" "https://api.polygon.io/v2/aggs/ticker/") by reflexivity.
  rewrite (hd_split_app "?" "X:") by reflexivity.
  rewrite (hd_split_app "?" U) by (by apply plain_ticker_contains).
  rewrite (hd_split_app "?" "/range/") by reflexivity.
  set (Y := hd "" (Str.split "?" Z)).
  rewrite (hd_split_app "#" "https://api.polygon.io/v2/aggs/ticker/") by reflexivity.
  rewrite (hd_split_app "#" "X:") by reflexivity.
  rewrite (hd_split_app "#" U) by (by apply plain_ticker_contains).
  rewrite (hd_split_app "#" "/range/") by reflexivity.
  set (W := hd "" (Str.split "#" Y)).
  rewrite <- (string_app_assoc "X:" U).
  rewrite (split_app "/" "https://api.polygon.io/v2/aggs/ticker/").
  rewrite (split_app "/" ("X:" +:+ U)).
  rewrite (split_free "/" ("X:" +:+ U)).
  2: { rewrite contains_app. rewrite (plain_ticker_contains U "/") by done. done. }
  change ("/range/" +:+ W) with (String "/" ("range/" +:+ W)).
  rewrite split_sep.
  assert (Str.split "/" "https://api.polygon.io/v2/aggs/ticker/" =
          ["https:"; ""; "api.polygon.io"; "v2"; "aggs"; "ticker"; ""]) as ->
    by reflexivity.
  unfold splice. rewrite string_app_nil_r.
  reflexivity.
Qed.

Lemma split_length sep s : length (Str.split sep s) = S (count_char sep s).
Proof.
  induction s as [|c r IH]; [done|]. cbn.
  destruct (Ascii.eqb c sep); cbn; [by rewrite IH|].
  destruct (Str.split sep r); cbn in *; lia.
Qed.

Lemma count_char_contains sep s :
  Str.contains sep s = true <-> (0 < count_char sep s)%nat.
Proof.
  induction s as [|c r IH]; cbn; [split; [done|lia]|].
  destruct (Ascii.eqb c sep); cbn; [split; [lia|done]|]. done.
Qed.

Lemma split_pieces sep s :
  Forall (fun p => Str.contains sep p = false) (Str.split sep s).
Proof.
  induction s as [|c r IH]; cbn; [by constructor|].
  destruct (Ascii.eqb c sep) eqn:E; [by constructor|].
  destruct (Str.split sep r) as [|h t]; [by constructor; [cbn; rewrite E|]|].
  apply Forall_cons in IH as [Hh Ht]. constructor; [|done]. cbn. by rewrite E.
Qed.

Lemma join_cons sep p q l :
  join sep (p :: q :: l) = p +:+ String sep (join sep (q :: l)).
Proof. reflexivity. Qed.

Lemma join_split sep s : join sep (Str.split sep s) = s.
Proof.
  induction s as [|c r IH]; [done|]. cbn [Str.split].
  destruct (split_cons sep r) as (f & o & Hs). rewrite Hs in IH |- *.
  destruct (Ascii.eqb_spec c sep) as [->|].
  - rewrite join_cons, IH. reflexivity.
  - destruct o as [|g o]; [cbn [join] in *; by rewrite IH|].
    rewrite join_cons. rewrite join_cons in IH.
    change (String c f +:+ ?x) with (String c (f +:+ x)).
    by rewrite IH.
Qed.

End Tickers.

(** X9.  For a symbol made of ASCII letters, digits and the marks [-],
    [.], [_] and [~], the fifth part of the address that [aextract_data]
    builds is [X:] and the symbol in upper case, and taking [X:] away from
    it gives the symbol in upper case back: the tag that the callback
    writes into the rows, and the name in its warning, are the symbol that
    was asked for. *)
Theorem X9_ticker_round_trip (query : Q.t) (api_key : option string)
    (symbol : string) :
  plain_ticker symbol = true ->
  exists part,
    url_parts (request_url query api_key symbol) !! 4%nat = Some part /\
    part = "X:" +:+ Str.upper symbol /\
    Str.replace "X:" "" part = Str.upper symbol.
Proof.
  intros Hs. eexists. split; [by apply request_url_ticker|]. split; [done|].
  apply replace_prefix_ticker, plain_ticker_contains; [|done].
  by rewrite plain_ticker_upper.
Qed.

Lemma X9_ticker_round_trip_witness :
  exists part,
    url_parts (request_url (Example.query "BTCUSD,ETHUSD" "1d" 1 "day")
                 (Some "k") "ethusd") !! 4%nat = Some part /\
    part = "X:" +:+ Str.upper "ethusd" /\
    Str.replace "X:" "" part = Str.upper "ethusd".
Proof.
  apply (X9_ticker_round_trip (Example.query "BTCUSD,ETHUSD" "1d" 1 "day")
           (Some "k") "ethusd").
  reflexivity.
Defined.

(** X10.  [aextract_data] hands to the transport one address for each
    piece of the symbol of the query between commas, in their order: the
    pieces hold no comma, joined by commas they are the symbol again, and
    their number is the number of commas plus one (an empty piece counts).
    So there is more than one address exactly when the symbol holds a
    comma, which is the test under which the callback tags the rows. *)
Theorem X10_request_urls (lib : library) (query : Q.t)
    (credentials : option (gmap string string)) :
  aextract_data lib query credentials =
    amake_requests (request_urls query credentials)
      (callback lib query (get_api_key credentials)) /\
  exists pieces,
    request_urls query credentials =
      request_url query (get_api_key credentials) <$> pieces /\
    join "," pieces = Q.symbol query /\
    Forall (fun p => Str.contains "," p = false) pieces /\
    length (request_urls query credentials) =
      S (count_char "," (Q.symbol query)) /\
    (Str.contains "," (Q.symbol query) = true <->
     (1 < length (request_urls query credentials))%nat).
Proof.
  split; [reflexivity|].
  exists (Str.split "," (Q.symbol query)).
  split; [done|]. split; [apply join_split|]. split; [apply split_pieces|].
  unfold request_urls. rewrite length_fmap, split_length.
  split; [done|]. rewrite count_char_contains. lia.
Qed.

(** ** The records *)

Section Records.

Lemma field_transactions_rejected lib k :
  k <= 0 -> D.field_transactions lib (Some (VInt k)) = Err ValidationError.
Proof.
  intros H. cbn. by destruct (Z.ltb_spec 0 k); [lia|].
Qed.

Lemma field_alias (d : dict) name key v :
  (list_to_map D.aliases : gmap string string) !! name = Some key ->
  d !! key = Some v -> D.field d name = Some v.
Proof. intros Ha Hv. unfold D.field. by rewrite Ha, Hv. Qed.

Lemma model_validate_transactions lib (d : dict) k :
  d !! "n" = Some (VInt k) -> k <= 0 ->
  D.model_validate lib d = Err ValidationError.
Proof.
  intros Hn Hk. unfold D.model_validate.
  rewrite (field_alias d "transactions" "n" (VInt k)) by (done || by vm_compute).
  rewrite field_transactions_rejected by done.
  repeat match goal with |- context [match ?x with _ => _ end] => destruct x end;
    done.
Qed.

End Records.

(** X11.  A row whose count of transactions [n] is an integer of zero or
    below is not valid, and one such row is enough for [transform_data] to
    fail on the whole sequence with pydantic's ValidationError. *)
Theorem X11_transactions_rejected (lib : library) (query : Q.t)
    (data : list dict) (d : dict) (k : Z) :
  d ∈ data -> d !! "n" = Some (VInt k) -> k <= 0 ->
  transform_data lib query data = Err ValidationError.
Proof.
  intros Hin Hn Hk. unfold transform_data.
  destruct data as [|d0 data]; [by apply elem_of_nil in Hin|].
  destruct (traverse_some_err (D.model_validate lib) (d0 :: data)) as [e He].
  { apply Exists_exists. exists d. split; [done|].
    exists ValidationError. by eapply model_validate_transactions. }
  rewrite He. apply traverse_err, Exists_exists in He as (x & _ & Hx).
  by rewrite (model_validate_err _ _ _ Hx).
Qed.

Lemma X11_transactions_rejected_witness :
  transform_data plain (Example.query "BTCUSD" "1d" 1 "day")
    [Example.daily; Example.no_trade] = Err ValidationError.
Proof.
  apply (X11_transactions_rejected plain (Example.query "BTCUSD" "1d" 1 "day")
           [Example.daily; Example.no_trade] Example.no_trade 0).
  - apply list_elem_of_further, list_elem_of_here.
  - reflexivity.
  - lia.
Defined.

(** X12.  In every record that [transform_data] returns, the count of
    transactions is absent or positive, whatever the libraries convert. *)
Theorem X12_transactions_positive (lib : library) (query : Q.t)
    (data : list dict) (records : list D.t) :
  transform_data lib query data = Ok records ->
  Forall (fun rec => forall n, D.transactions rec = Some n -> 0 < n) records.
Proof.
  unfold transform_data. destruct data as [|d0 data]; [done|].
  intros H%traverse_ok. generalize dependent (d0 :: data). clear.
  intros l H. induction H as [|d rec l recs Hd _ IH]; constructor; [|done].
  clear IH. unfold D.model_validate in Hd.
  destruct (D.field_transactions lib (D.field d "transactions")) as [tr|] eqn:Ht.
  2: { repeat match type of Hd with context [match ?x with _ => _ end] => destruct x end;
       done. }
  assert (forall n, tr = Some n -> 0 < n) as Hpos.
  { intros n ->. unfold D.field_transactions in Ht.
    repeat case_match; simplify_eq; by apply Z.ltb_lt. }
  repeat match type of Hd with context [match ?x with _ => _ end] => destruct x end;
    try done; injection Hd as <-; exact Hpos.
Qed.

Lemma X12_transactions_positive_witness :
  Forall (fun rec => forall n, D.transactions rec = Some n -> 0 < n)
    [Example.daily_record].
Proof.
  apply (X12_transactions_positive plain (Example.query "BTCUSD" "1d" 1 "day")
           [Example.daily] [Example.daily_record]).
  vm_compute. reflexivity.
Defined.

(** ** From the timestamp of the vendor to the date of the record *)

Section RecordDate.

Lemma below_forallb (f : Z -> bool) (k : Z) :
  List.forallb f (Z.of_nat <$> seq 0 (Z.to_nat k)) = true ->
  forall n, 0 <= n < k -> f n = true.
Proof.
  intros H n Hn. rewrite List.forallb_forall in H. apply H.
  apply list_elem_of_In, list_elem_of_fmap. exists (Z.to_nat n). split; [lia|].
  apply elem_of_seq. lia.
Qed.

Lemma pad2_read n :
  0 <= n < 100 ->
  exists a b, Str.of_Z_pad 2 n = String a (String b EmptyString) /\
              Iso8601.digits2 a b = Some n.
Proof.
  intros Hn. assert (reads_pad2 n = true) as H.
  { apply (below_forallb reads_pad2 100); [by vm_compute|done]. }
  unfold reads_pad2 in H.
  destruct (Str.of_Z_pad 2 n) as [|a [|b [|]]]; try done.
  destruct (Iso8601.digits2 a b) as [k|] eqn:E; [|done].
  apply Z.eqb_eq in H as ->. eauto.
Qed.

Lemma pad4_read n :
  0 <= n < 10000 ->
  exists a b c d,
    Str.of_Z_pad 4 n = String a (String b (String c (String d EmptyString))) /\
    Iso8601.digits4 a b c d = Some n.
Proof.
  intros Hn. assert (reads_pad4 n = true) as H.
  { apply (below_forallb reads_pad4 10000); [by vm_compute|done]. }
  unfold reads_pad4 in H.
  destruct (Str.of_Z_pad 4 n) as [|a [|b [|c [|d [|]]]]]; try done.
  destruct (Iso8601.digits4 a b c d) as [k|] eqn:E; [|done].
  apply Z.eqb_eq in H as ->. eauto 6.
Qed.

Lemma valid_date_bounds d :
  valid_date d = true ->
  0 <= year d < 10000 /\ 0 <= month d < 100 /\ 0 <= day d < 100.
Proof.
  unfold valid_date, MINYEAR, MAXYEAR, days_in_month. intros H.
  repeat (apply andb_true_iff in H as [H ?]).
  repeat match goal with
         | H : (_ <=? _) = true |- _ => apply Z.leb_le in H
         end.
  repeat split; try lia.
  revert H0. repeat case_match; lia.
Qed.

Lemma calendar_date_read d rest :
  valid_date d = true ->
  Iso8601.calendar_date (str_date d +:+ rest) = Some (d, rest).
Proof.
  intros Hv. destruct (valid_date_bounds d Hv) as (Hy & Hm & Hd).
  destruct (pad4_read _ Hy) as (y1 & y2 & y3 & y4 & Ey & Ry).
  destruct (pad2_read _ Hm) as (m1 & m2 & Em & Rm).
  destruct (pad2_read _ Hd) as (d1 & d2 & Ed & Rd).
  unfold str_date. rewrite Ey, Em, Ed.
  unfold Iso8601.calendar_date.
  change (String y1 (String y2 (String y3 (String y4 "")))
          +:+ "-" +:+ String m1 (String m2 "") +:+ "-" +:+ String d1 (String d2 "")) with
    (String y1 (String y2 (String y3 (String y4 (String "-"
      (String m1 (String m2 (String "-" (String d1 (String d2 "")))))))))).
  change (String y1 (String y2 (String y3 (String y4 (String "-"
      (String m1 (String m2 (String "-" (String d1 (String d2 ""))))))))) +:+ rest) with
    (String y1 (String y2 (String y3 (String y4 (String "-"
      (String m1 (String m2 (String "-" (String d1 (String d2 rest)))))))))).
  cbv beta iota. rewrite Ry, Rm, Rd. cbn. destruct d as [y m dd].
  cbn [year month day] in *. by rewrite Hv.
Qed.

Lemma time_of_day_read h m s rest :
  0 <= h < 24 -> 0 <= m < 60 -> 0 <= s < 60 ->
  Iso8601.time_of_day
    (Str.of_Z_pad 2 h +:+ ":" +:+ Str.of_Z_pad 2 m +:+ ":" +:+
     Str.of_Z_pad 2 s +:+ rest) = Some (h, m, s, rest).
Proof.
  intros Hh Hm Hs.
  destruct (pad2_read h) as (h1 & h2 & Eh & Rh); [lia|].
  destruct (pad2_read m) as (m1 & m2 & Em & Rm); [lia|].
  destruct (pad2_read s) as (s1 & s2 & Es & Rs); [lia|].
  rewrite Eh, Em, Es.
  change (String h1 (String h2 "") +:+ ":" +:+ String m1 (String m2 "") +:+ ":" +:+
          String s1 (String s2 "") +:+ rest) with
    (String h1 (String h2 (String ":" (String m1 (String m2 (String ":"
      (String s1 (String s2 rest)))))))).
  unfold Iso8601.time_of_day. cbv beta iota. rewrite Rh, Rm, Rs. cbn.
  assert ((h <? 24) && (m <? 60) && (s <? 60) = true) as ->; [|done].
  rewrite !andb_true_iff, !Z.ltb_lt. lia.
Qed.

(** The parser [Iso8601.parse] reads both forms back. *)
Lemma plain_reads_iso : reads_iso plain.
Proof.
  split.
  - intros d Hv. cbn [isoparse plain]. unfold Iso8601.parse.
    rewrite <- (string_app_nil_r (str_date d)).
    rewrite (calendar_date_read _ _ Hv). done.
  - intros d h m s us Hv Hh Hm Hs. cbn [isoparse plain]. unfold Iso8601.parse.
    unfold strftime. cbn [dt_date hour minute second tz].
    rewrite (calendar_date_read _ _ Hv).
    set (x := Str.of_Z_pad 2 h +:+ _).
    change ("T" +:+ x) with (String "T" x). cbn [mbind option_bind]. cbv beta iota.
    subst x. rewrite (time_of_day_read _ _ _ _ Hh Hm Hs). done.
Qed.

(** What [date_validate] makes of the entry [t] of a stamped row. *)
Lemma stamped_date lib query part (r : dict) ms :
  reads_iso lib ->
  r !! "t" = Some (VInt ms) ->
  0 <= ms <= max_timestamp ->
  exists r' v t,
    fromtimestamp_utc ms = Ok t /\
    stamp lib query part r = Ok r' /\
    r' !! "t" = Some v /\
    EquityHistoricalData.date_validate lib v =
      Ok (record_date (Q._timespan query) t).
Proof.
  intros [Hdate Htime] Ht Hms.
  assert (min_timestamp <= ms <= max_timestamp) as Hrange
    by (unfold min_timestamp; lia).
  destruct (fromtimestamp_utc_ok ms Hrange)
    as (t & Hok & Hd & Htz & Hh & Hm & Hs & _).
  assert (timestamp lib r = Ok t) as Hts by (unfold timestamp; by rewrite Ht).
  destruct (stamp_run lib query part r t Hts) as (r' & Hr' & Hv).
  assert (valid_date (date_of t) = true) as Hvalid.
  { rewrite Hd. apply civil_from_days_valid.
    unfold min_timestamp, max_timestamp in Hrange.
    Z.to_euclidean_division_equations; lia. }
  exists r'. eexists. exists t. split; [done|]. split; [done|]. split; [exact Hv|].
  unfold EquityHistoricalData.date_validate, record_date.
  destruct (intraday _); cbn [str andb].
  - destruct t as [d h m s us z]. cbn in Htz, Hvalid, Hh, Hm, Hs |- *. subst z.
    rewrite (Htime d h m s us) by done. cbn [hour minute date_of dt_date].
    by destruct ((h =? 0) && (m =? 0)).
  - rewrite (Hdate _ Hvalid). done.
Qed.

End RecordDate.

(** X13.  The two stages agree on the date of a bar.  For a row whose
    timestamp is an integer of milliseconds from the epoch on, and a parser
    that reads ISO-8601 text back, the entry [t] that the callback writes
    is accepted by [date_validate], with this result: under a unit of day,
    week, month, quarter or year, the date of the instant in UTC; under a
    unit of second, minute or hour, the date-time of the instant in UTC to
    the second, except that a bar within the first minute of a day is
    reduced to its date. *)
Theorem X13_record_date (lib : library) (query : Q.t) (part : string)
    (r : dict) (ms : Z) :
  reads_iso lib ->
  r !! "t" = Some (VInt ms) ->
  0 <= ms <= max_timestamp ->
  exists r' v t,
    fromtimestamp_utc ms = Ok t /\
    stamp lib query part r = Ok r' /\
    r' !! "t" = Some v /\
    EquityHistoricalData.date_validate lib v =
      Ok (if intraday (Q._timespan query) &&
             negb ((hour t =? 0) && (minute t =? 0))
          then DateAndTime (whole_second t)
          else DateOnly (date_of t)).
Proof. intros Hlib Ht Hms. exact (stamped_date lib query part r ms Hlib Ht Hms). Qed.

Lemma X13_record_date_witness :
  exists r' v t,
    fromtimestamp_utc (Example.midnight + 3600000) = Ok t /\
    stamp plain (Example.query "BTCUSD" "1h" 1 "hour") "X:BTCUSD"
      (Example.bar (Example.midnight + 3600000)) = Ok r' /\
    r' !! "t" = Some v /\
    EquityHistoricalData.date_validate plain v =
      Ok (if intraday (Q._timespan (Example.query "BTCUSD" "1h" 1 "hour")) &&
             negb ((hour t =? 0) && (minute t =? 0))
          then DateAndTime (whole_second t)
          else DateOnly (date_of t)).
Proof.
  apply (X13_record_date plain (Example.query "BTCUSD" "1h" 1 "hour") "X:BTCUSD"
           (Example.bar (Example.midnight + 3600000))
           (Example.midnight + 3600000)).
  - exact plain_reads_iso.
  - reflexivity.
  - unfold max_timestamp, Example.midnight. lia.
Defined.

(** X14.  A bar as the vendor sends it (an integer timestamp from the
    epoch on, four prices, a volume and a weighted price as floats, a
    positive count of transactions) passes both stages: the callback stamps
    it, [model_validate] accepts the stamped row, and the record holds the
    numbers of the bar, each under the field that the alias table gives to
    its key, with the date that the unit of the query gives to the instant. *)
Theorem X14_bar_to_record (lib : library) (query : Q.t) (part : string)
    (r : dict) (ms n : Z) (o h l c v vw : PrimFloat.float) :
  reads_iso lib ->
  r !! "t" = Some (VInt ms) -> 0 <= ms <= max_timestamp ->
  r !! "o" = Some (VFloat o) -> r !! "h" = Some (VFloat h) ->
  r !! "l" = Some (VFloat l) -> r !! "c" = Some (VFloat c) ->
  r !! "v" = Some (VFloat v) -> r !! "vw" = Some (VFloat vw) ->
  r !! "n" = Some (VInt n) -> 0 < n ->
  exists r' t extra,
    fromtimestamp_utc ms = Ok t /\
    stamp lib query part r = Ok r' /\
    D.model_validate lib r' =
      Ok (D.Make (record_date (Q._timespan query) t) o h l c
            (Some (NFloat v)) (Some vw) (Some n) extra).
Proof.
  intros Hlib Ht Hms Ho Hh Hl Hc Hv Hvw Hn Hpos.
  destruct (stamped_date lib query part r ms Hlib Ht Hms)
    as (r' & x & t & Hok & Hr' & Hx & Hdate).
  exists r', t. eexists. split; [done|]. split; [done|].
  unfold D.model_validate.
  rewrite (field_alias r' "date" "t" x) by first [exact Hx | by vm_compute].
  rewrite (field_alias r' "open" "o" (VFloat o))
    by first [by rewrite (stamp_lookup _ _ _ _ _ _ Hr') | by vm_compute].
  rewrite (field_alias r' "high" "h" (VFloat h))
    by first [by rewrite (stamp_lookup _ _ _ _ _ _ Hr') | by vm_compute].
  rewrite (field_alias r' "low" "l" (VFloat l))
    by first [by rewrite (stamp_lookup _ _ _ _ _ _ Hr') | by vm_compute].
  rewrite (field_alias r' "close" "c" (VFloat c))
    by first [by rewrite (stamp_lookup _ _ _ _ _ _ Hr') | by vm_compute].
  rewrite (field_alias r' "volume" "v" (VFloat v))
    by first [by rewrite (stamp_lookup _ _ _ _ _ _ Hr') | by vm_compute].
  rewrite (field_alias r' "vwap" "vw" (VFloat vw))
    by first [by rewrite (stamp_lookup _ _ _ _ _ _ Hr') | by vm_compute].
  rewrite (field_alias r' "transactions" "n" (VInt n))
    by first [by rewrite (stamp_lookup _ _ _ _ _ _ Hr') | by vm_compute].
  cbn [D.field_date D.field_float D.to_float D.field_volume D.field_opt_float
       D.field_transactions fmap result_fmap].
  rewrite Hdate.
  assert ((0 <? n) = true) as -> by (by apply Z.ltb_lt).
  reflexivity.
Qed.

Lemma X14_bar_to_record_witness :
  exists r' t extra,
    fromtimestamp_utc (Example.midnight + 3600000) = Ok t /\
    stamp plain (Example.query "BTCUSD" "1h" 1 "hour") "X:BTCUSD"
      (Example.bar (Example.midnight + 3600000)) = Ok r' /\
    D.model_validate plain r' =
      Ok (D.Make (record_date (Q._timespan (Example.query "BTCUSD" "1h" 1 "hour")) t)
            16500.5%float 16600%float 16400.25%float 16550%float
            (Some (NFloat 1200.75%float)) (Some 16520.125%float) (Some 42)
            extra).
Proof.
  apply (X14_bar_to_record plain (Example.query "BTCUSD" "1h" 1 "hour")
           "X:BTCUSD" (Example.bar (Example.midnight + 3600000))
           (Example.midnight + 3600000) 42).
  - exact plain_reads_iso.
  - reflexivity.
  - unfold max_timestamp, Example.midnight. lia.
  - reflexivity.
  - reflexivity.
  - reflexivity.
  - reflexivity.
  - reflexivity.
  - reflexivity.
  - reflexivity.
  - lia.
Defined.

(** ** What the validators leave unchecked, and the symbols of a list *)

Section Unchecked.

Lemma python_int_negative p :
  (String.length (Str.of_N (Npos p)) <= int_max_str_digits)%nat ->
  python_int (Str.of_Z (Zneg p)) = Some (Zneg p).
Proof.
  intros Hlen. unfold python_int, Str.of_Z.
  change ("-" +:+ Str.of_N (N.pos p)) with (String "-" (Str.of_N (N.pos p))).
  assert (Str.strip (String "-" (Str.of_N (N.pos p))) =
          String "-" (Str.of_N (N.pos p))) as ->.
  { unfold Str.strip.
    assert (Str.forallb (fun c => negb (Str.is_space c))
              (String "-" (Str.of_N (N.pos p))) = true) as Hs.
    { cbn [Str.forallb]. apply andb_true_intro. split; [reflexivity|].
      apply (forallb_impl Str.is_digit); [|apply string_of_uint_digits].
      intros c Hc. by rewrite digit_not_space. }
    by rewrite lstrip_id, rstrip_id. }
  cbv beta iota. unfold int_unsigned. rewrite int_digits_of_N. cbn [Nat.add].
  apply Nat.leb_le in Hlen as ->. reflexivity.
Qed.

Lemma split_upper s :
  Str.split "," (Str.upper s) = Str.upper <$> Str.split "," s.
Proof.
  induction s as [|c r IH]; [done|]. cbn [Str.upper Str.split].
  assert (Ascii.eqb (Str.upper_char c) "," = Ascii.eqb c ",") as ->
    by (by destruct c as [[] [] [] [] [] [] [] []]).
  rewrite IH. destruct (Ascii.eqb c ","); [done|].
  by destruct (Str.split "," r).
Qed.

Lemma split_replace_dash s :
  Str.split "," (Str.replace "-" "" s) = Str.replace "-" "" <$> Str.split "," s.
Proof.
  induction s as [|c r IH]; [done|]. rewrite replace_dash_cons.
  destruct (Ascii.eqb_spec c "-") as [->|Hc].
  - rewrite IH. cbn [Str.split]. change (Ascii.eqb "-" ",") with false. cbv iota.
    destruct (split_cons "," r) as (f & o & ->). cbn [fmap list_fmap].
    rewrite replace_dash_cons. reflexivity.
  - cbn [Str.split]. rewrite IH.
    destruct (Ascii.eqb c ",") eqn:E; [done|].
    destruct (split_cons "," r) as (f & o & ->). cbn [fmap list_fmap].
    rewrite replace_dash_cons.
    by destruct (Ascii.eqb_spec c "-").
Qed.

End Unchecked.

(** X15.  The model validator does not look at the sign of the
    multiplier.  For every integer n, also zero and the negative ones, the
    token made of the decimal numeral of n and a unit letter of the table
    is accepted and gives the multiplier n, although the private attribute
    is annotated as a positive integer. *)
Theorem X15_multiplier_unchecked (values : Q.t) (n : Z) (unit : ascii)
    (name : string) :
  (String.length (Str.of_Z (Z.abs n)) <= int_max_str_digits)%nat ->
  Q.intervals unit = Some name ->
  Q.interval values = Str.of_Z n +:+ String unit "" ->
  Q.get_api_interval_params values = Ok (derived values n name).
Proof.
  intros Hlen Hu Hi. rewrite (interval_params_split _ _ _ Hi).
  assert (python_int (Str.of_Z n) = Some n) as ->; [|by rewrite Hu].
  destruct n as [|p|p]; [done| |].
  - by apply python_int_of_Z.
  - by apply python_int_negative.
Qed.

Lemma X15_multiplier_unchecked_witness :
  Q.get_api_interval_params (query_with_interval "-5d") =
  Ok (derived (query_with_interval "-5d") (-5) "day").
Proof.
  apply (X15_multiplier_unchecked (query_with_interval "-5d") (-5) "d" "day").
  - vm_compute. lia.
  - reflexivity.
  - reflexivity.
Defined.

(** X16.  The symbols of a list are normalized one by one.  When the
    dictionary holds the text [s] as its symbol, the addresses that
    [aextract_data] builds from the query of [transform_query] are those of
    the pieces of [s] between commas, each with its dashes taken away and
    in upper case, in the order of [s]. *)
Theorem X16_requested_symbols (lib : library) (now : date) (params : loc)
    (h : heap) (d : dict) (s : string) (q : Q.t)
    (credentials : option (gmap string string)) :
  h !! params = Some d -> d !! "symbol" = Some (VStr s) ->
  (transform_query lib now params h).1 = Ok q ->
  request_urls q credentials =
  request_url q (get_api_key credentials) <$>
    (normalize_symbol <$> Str.split "," s).
Proof.
  intros Hd Hs Hq. unfold request_urls.
  rewrite (transform_query_symbol _ _ _ _ _ _ _ Hd Hs Hq).
  unfold normalize_symbol at 1. rewrite split_upper, split_replace_dash. f_equal.
  symmetry. apply (list_fmap_compose (Str.replace "-" "") Str.upper).
Qed.

Lemma X16_requested_symbols_witness :
  request_urls (Example.query "BTCUSD,ETHUSD" "1d" 1 "day") (Some ∅) =
  request_url (Example.query "BTCUSD,ETHUSD" "1d" 1 "day") (get_api_key (Some ∅)) <$>
    (normalize_symbol <$> Str.split "," "btc-usd,eth-usd").
Proof.
  apply (X16_requested_symbols plain Example.today Example.caller
           (Example.store Example.two_symbols) Example.two_symbols
           "btc-usd,eth-usd" (Example.query "BTCUSD,ETHUSD" "1d" 1 "day")
           (Some ∅)).
  - reflexivity.
  - reflexivity.
  - vm_compute. reflexivity.
Defined.
